(** * data_analyst2: the film-table pipeline and the task router

    A shallow embedding of [services/web_scraper.py],
    [services/data_processor.py], [api/index.py] (the router and the
    endpoint that calls it) and the scatterplot path of
    [services/chart_generator.py].

    Modelling conventions.
    - A Python [str] is a [string] of 8-bit characters; [lower], [strip]
      and the regular-expression classes [\d], [\w], [\s] are the ASCII
      ones.
    - A Python [dict] is an association list in insertion order
      ([dict_set] overwrites in place, as a dict does).
    - A Python [float] is the exact rational its decimal literal denotes,
      kept in lowest terms; binary rounding is not modelled.  The code
      only parses such numbers, divides them by 1000 and compares them
      with 1000 and with the revenue bound, so the two differ only for a
      literal within rounding distance of a bound.  The numeric kernels
      of pandas, numpy and matplotlib (coercion of strings to numbers,
      Pearson correlation, rendering) are parameters of the model; for
      the correlation an instance in the same exact arithmetic is given,
      [corr_then_round].
    - [int] converts a digit string of at most 4300 digits, the default
      of [sys.int_info], and raises [ValueError] on a longer one.  The
      integers of a record are within that limit, as all that [int]
      returns are, and [str] prints them.
    - [pd.DataFrame(data)] has the keys of the records as columns, each
      at its first appearance, and NaN where a record lacks a key;
      [iterrows] hands out the rows in record order.
    - The network and the HTML parser are inputs: a request raises or
      gives a status and the [wikitable] tables of the page, each table
      being its rows of cells.
    - [try]/[except] is an explicit sum type [exn]; the exceptions are
      those of class [Exception] that the modelled statements raise. *)

From Stdlib Require Import String Ascii List ZArith QArith Qreduction Qround Bool Lia.
From Stdlib Require Import Reals Qreals Psatz.
Import ListNotations.

Set Warnings "-register-all".

Local Open Scope string_scope.
Local Open Scope Z_scope.

(** ** Python strings *)

Module PyStr.

Definition code (c : ascii) : nat := nat_of_ascii c.

Definition between (lo hi : nat) (c : ascii) : bool :=
  (Nat.leb lo (code c) && Nat.leb (code c) hi)%bool.

Definition is_upper : ascii -> bool := between 65 90.
Definition is_lower : ascii -> bool := between 97 122.
Definition is_digit : ascii -> bool := between 48 57.

(** [\w]: letters, digits and the underscore. *)
Definition is_word (c : ascii) : bool :=
  (is_upper c || is_lower c || is_digit c || Ascii.eqb c "_")%bool.

(** [\s] and [str.isspace]: TAB..CR, FS..US and the space. *)
Definition is_space (c : ascii) : bool :=
  (between 9 13 c || between 28 31 c || Ascii.eqb c " ")%bool.

Definition lower_char (c : ascii) : ascii :=
  if is_upper c then ascii_of_nat (code c + 32) else c.

(** [s.lower()] *)
Fixpoint lower (s : string) : string :=
  match s with
  | EmptyString => EmptyString
  | String c t => String (lower_char c) (lower t)
  end.

(** [needle in hay] *)
Fixpoint contains (needle hay : string) : bool :=
  if String.prefix needle hay then true
  else match hay with
       | EmptyString => false
       | String _ t => contains needle t
       end.

(** [any(k in hay for k in keys)] *)
Definition contains_any (keys : list string) (hay : string) : bool :=
  existsb (fun k => contains k hay) keys.

Fixpoint lstrip (s : string) : string :=
  match s with
  | EmptyString => EmptyString
  | String c t => if is_space c then lstrip t else s
  end.

Fixpoint rstrip (s : string) : string :=
  match s with
  | EmptyString => EmptyString
  | String c t =>
      match rstrip t with
      | EmptyString => if is_space c then EmptyString else String c EmptyString
      | t' => String c t'
      end
  end.

(** [s.strip()] *)
Definition strip (s : string) : string := rstrip (lstrip s).

(** [s.replace(c, '')] for a one-character [c]. *)
Fixpoint remove_char (c : ascii) (s : string) : string :=
  match s with
  | EmptyString => EmptyString
  | String d t => if Ascii.eqb c d then remove_char c t else String d (remove_char c t)
  end.

Fixpoint rev_append (buf : list ascii) (s : string) : string :=
  match buf with
  | [] => s
  | c :: b => rev_append b (String c s)
  end.

(** [re.sub(op .*? cl, '', s)] for one-character delimiters [op], [cl]:
    every leftmost shortest stretch from [op] to the next [cl] on the
    same line is deleted.  [pending] holds, in reverse, the characters
    read since an unclosed [op]; they are given back at a line end or at
    the end of the text, where no match is possible. *)
Fixpoint sub_delimited (op cl : ascii) (pending : option (list ascii)) (s : string)
  : string :=
  match s with
  | EmptyString =>
      match pending with
      | None => EmptyString
      | Some buf => rev_append buf EmptyString
      end
  | String c t =>
      match pending with
      | None =>
          if Ascii.eqb c op then sub_delimited op cl (Some [c]) t
          else String c (sub_delimited op cl None t)
      | Some buf =>
          if Ascii.eqb c cl then sub_delimited op cl None t
          else if Ascii.eqb c "010" then
                 rev_append buf (String c (sub_delimited op cl None t))
               else sub_delimited op cl (Some (c :: buf)) t
      end
  end.

(** [re.sub(r'[^\w\s]', '', s)] *)
Fixpoint keep_word_space (s : string) : string :=
  match s with
  | EmptyString => EmptyString
  | String c t =>
      if (is_word c || is_space c)%bool then String c (keep_word_space t)
      else keep_word_space t
  end.

(** [re.sub(r'\s+', '_', s)] *)
Fixpoint spaces_to_underscore (in_run : bool) (s : string) : string :=
  match s with
  | EmptyString => EmptyString
  | String c t =>
      if is_space c then
        if in_run then spaces_to_underscore true t
        else String "_" (spaces_to_underscore true t)
      else String c (spaces_to_underscore false t)
  end.

(** The longest prefix of characters satisfying [p], and the first
    maximal run of such characters ([re.findall(cls+, s)[0]]). *)
Fixpoint take_while (p : ascii -> bool) (s : string) : string :=
  match s with
  | EmptyString => EmptyString
  | String c t => if p c then String c (take_while p t) else EmptyString
  end.

Fixpoint first_run (p : ascii -> bool) (s : string) : option string :=
  match s with
  | EmptyString => None
  | String c t => if p c then Some (take_while p s) else first_run p t
  end.

Definition digit_val (c : ascii) : Z := Z.of_nat (code c - 48).

(** [int(s)] for a string of decimal digits. *)
Fixpoint int_of_digits_acc (acc : Z) (s : string) : Z :=
  match s with
  | EmptyString => acc
  | String c t => int_of_digits_acc (10 * acc + digit_val c) t
  end.

Definition int_of_digits (s : string) : Z := int_of_digits_acc 0 s.

(** [str(n)] for an integer. *)
Fixpoint digits_of_pos_fuel (fuel : nat) (n : Z) (acc : string) : string :=
  match fuel with
  | O => acc
  | S f =>
      let acc' := String (ascii_of_nat (Z.to_nat (n mod 10) + 48)) acc in
      if n / 10 =? 0 then acc' else digits_of_pos_fuel f (n / 10) acc'
  end.

Definition str_of_int (n : Z) : string :=
  if n <? 0 then String "-" (digits_of_pos_fuel (Z.to_nat (Z.log2 (- n)) + 1) (- n) "")
  else digits_of_pos_fuel (Z.to_nat (Z.log2 n) + 1) n "".

(** [re.search(r'\b(19|20)\d{2}\b', s)]: the leftmost four digits that
    start with 19 or 20 and have no word character on either side.
    [prev_word] tells whether the character before [s] is a word
    character. *)
Definition year_here (s : string) : option Z :=
  match s with
  | String a (String b (String c (String d rest))) =>
      if ((Ascii.eqb a "1" && Ascii.eqb b "9") || (Ascii.eqb a "2" && Ascii.eqb b "0"))%bool
      then if (is_digit c && is_digit d)%bool
           then match rest with
                | EmptyString => Some (int_of_digits (String a (String b (String c (String d "")))))
                | String e _ =>
                    if is_word e then None
                    else Some (int_of_digits (String a (String b (String c (String d "")))))
                end
           else None
      else None
  | _ => None
  end.

Fixpoint search_year (prev_word : bool) (s : string) : option Z :=
  match s with
  | EmptyString => None
  | String c t =>
      match (if prev_word then None else year_here s) with
      | Some y => Some y
      | None => search_year (is_word c) t
      end
  end.

End PyStr.

(** ** Python values *)

(** [float]: the exact rational of the literal, in lowest terms. *)
Definition pyfloat := Q.

Definition float_of_int (n : Z) : pyfloat := inject_Z n.

Definition float_div1000 (x : pyfloat) : pyfloat := Qred (x / inject_Z 1000).

Definition float_ge (x y : pyfloat) : bool := Qle_bool y x.
Definition float_gt (x y : pyfloat) : bool := negb (Qle_bool x y).
Definition float_truthy (x : pyfloat) : bool := negb (Qeq_bool x 0).

Definition is_numchar (c : ascii) : bool :=
  (PyStr.is_digit c || Ascii.eqb c ".")%bool.

(** [float(s)] for [s] a run of digits and dots: accepted when there is
    at most one dot and at least one digit ([ValueError] otherwise). *)
Fixpoint split_dot (s : string) : string * option string :=
  match s with
  | EmptyString => (EmptyString, None)
  | String c t =>
      if Ascii.eqb c "." then (EmptyString, Some t)
      else let '(a, b) := split_dot t in (String c a, b)
  end.

Fixpoint all_digits (s : string) : bool :=
  match s with
  | EmptyString => true
  | String c t => (PyStr.is_digit c && all_digits t)%bool
  end.

Fixpoint pow10 (n : nat) : positive :=
  match n with
  | O => 1%positive
  | S m => (10 * pow10 m)%positive
  end.

Definition decimal (int_part frac_part : string) : pyfloat :=
  Qred (Qmake (PyStr.int_of_digits (int_part ++ frac_part))
              (pow10 (String.length frac_part))).

Definition parse_float (s : string) : option pyfloat :=
  match split_dot s with
  | (i, None) =>
      if (all_digits i && negb (String.eqb i ""))%bool then Some (decimal i "") else None
  | (i, Some f) =>
      if (all_digits i && all_digits f && negb (String.eqb (i ++ f) ""))%bool
      then Some (decimal i f) else None
  end.

(** A cell of a record or of a data frame: an integer, a string, Python's
    [None], or the NaN pandas puts where a record has no such key. *)
Inductive cell : Type :=
| CInt (n : Z)
| CStr (s : string)
| CNone
| CNaN.

(** [pd.isna(value)] *)
Definition isna (v : cell) : bool :=
  match v with
  | CNone | CNaN => true
  | _ => false
  end.

(** [str(value)].  An integer column that pandas has widened to floats
    prints [n] as [n.0]; neither the year pattern nor the revenue
    keywords tell the two apart, so the integer spelling is used. *)
Definition str_of_cell (v : cell) : string :=
  match v with
  | CInt n => PyStr.str_of_int n
  | CStr s => s
  | CNone => "None"
  | CNaN => "nan"
  end.

(** Truth value of a cell in a condition. *)
Definition cell_truthy (v : cell) : bool :=
  match v with
  | CInt n => negb (n =? 0)
  | CStr s => negb (String.eqb s "")
  | CNone => false
  | CNaN => true
  end.

(** ** Python dicts, in insertion order *)

Section Dict.
Context {V : Type}.

Definition dict := list (string * V).

Fixpoint dict_get (k : string) (d : dict) : option V :=
  match d with
  | [] => None
  | (k', v) :: d' => if String.eqb k k' then Some v else dict_get k d'
  end.

(** [d[k] = v] *)
Fixpoint dict_set (k : string) (v : V) (d : dict) : dict :=
  match d with
  | [] => [(k, v)]
  | (k', v') :: d' =>
      if String.eqb k k' then (k', v) :: d' else (k', v') :: dict_set k v d'
  end.

Definition dict_keys (d : dict) : list string := map fst d.
End Dict.

Arguments dict V : clear implicits.

Definition record := dict cell.

(** ** pandas data frames *)

(** A row handed out by [df.iterrows()]: the column names ([row.index])
    with the row's values ([row.values]). *)
Definition row := list (string * cell).

Definition row_values (r : row) : list cell := map snd r.
Definition row_index (r : row) : list string := map fst r.

Definition mem_string (k : string) (l : list string) : bool :=
  existsb (String.eqb k) l.

Fixpoint add_new (keys : list string) (seen : list string) : list string :=
  match keys with
  | [] => seen
  | k :: ks => add_new ks (if mem_string k seen then seen else seen ++ [k])
  end.

(** [pd.DataFrame(data).columns]: the keys of the records, each at its
    first appearance. *)
Fixpoint frame_columns (data : list record) (seen : list string) : list string :=
  match data with
  | [] => seen
  | r :: rs => frame_columns rs (add_new (dict_keys r) seen)
  end.

Definition frame_row (cols : list string) (r : record) : row :=
  map (fun c => (c, match dict_get c r with Some v => v | None => CNaN end)) cols.

(** [for _, row in pd.DataFrame(data).iterrows()] *)
Definition iterrows (data : list record) : list row :=
  map (frame_row (frame_columns data [])) data.

(** ** services/data_processor.py *)

(** The statistics methods wrap their bodies in [try]/[except] and return
    a default (0, "Error", 0.0, the empty list) from the handler.  On the
    records of this model nothing in those bodies raises, so the handlers
    are never entered and the methods are plain functions here. *)

Definition PNG_1x1 : string :=
  "data:image/png;base64,iVBORw0KGgoAAAANSUhEUgAAAAEAAAABCAYAAAAfFcSJAAAADUlEQVR42mNk+M9QDwADhgGAWjR9awAAAABJRU5ErkJggg==".

(** [DataProcessor._extract_year_from_row] *)
Fixpoint extract_year_values (values : list cell) : option Z :=
  match values with
  | [] => None
  | value :: rest =>
      if isna value then extract_year_values rest
      else match PyStr.search_year false (str_of_cell value) with
           | Some y => Some y
           | None => extract_year_values rest
           end
  end.

Definition _extract_year_from_row (r : row) : option Z :=
  extract_year_values (row_values r).

Definition revenue_keywords : list string := ["billion"; "gross"; "revenue"].

(** [str(value).replace(',', '').replace('$', '')] *)
Definition revenue_text (value : cell) : string :=
  PyStr.remove_char "$" (PyStr.remove_char "," (str_of_cell value)).

(** The unit rule applied to the parsed number. *)
Definition scale_revenue (value_str : string) (num : pyfloat) : pyfloat :=
  if PyStr.contains "billion" (PyStr.lower value_str) then num
  else if PyStr.contains "million" (PyStr.lower value_str) then float_div1000 num
  else if float_gt num (float_of_int 1000) then float_div1000 num
  else num.

(** [DataProcessor._extract_revenue_billions].  A value without keyword,
    without digits, or whose first run of digits and dots [float] rejects
    (the bare [except: continue]) passes the turn to the next value. *)
Fixpoint extract_revenue_values (values : list cell) : option pyfloat :=
  match values with
  | [] => None
  | value :: rest =>
      if isna value then extract_revenue_values rest
      else
        let value_str := revenue_text value in
        if PyStr.contains_any revenue_keywords (PyStr.lower value_str) then
          match PyStr.first_run is_numchar value_str with
          | Some number =>
              match parse_float number with
              | Some num => Some (scale_revenue value_str num)
              | None => extract_revenue_values rest
              end
          | None => extract_revenue_values rest
          end
        else extract_revenue_values rest
  end.

Definition _extract_revenue_billions (r : row) : option pyfloat :=
  extract_revenue_values (row_values r).

(** The two [re.sub] calls and the [strip] shared by
    [_extract_title_from_row] and [WebScraper._clean_film_title]. *)
Definition clean_title (title : string) : string :=
  PyStr.strip
    (PyStr.sub_delimited "(" ")" None
       (PyStr.sub_delimited "[" "]" None title)).

Definition title_keywords : list string := ["title"; "film"; "movie"; "name"].

Fixpoint first_long_string (values : list cell) : option string :=
  match values with
  | [] => None
  | CStr s :: rest =>
      if Nat.ltb 3 (String.length s) then Some (String.substring 0 50 s)
      else first_long_string rest
  | _ :: rest => first_long_string rest
  end.

(** [DataProcessor._extract_title_from_row] *)
Definition _extract_title_from_row (r : row) : string :=
  match find (fun cv => PyStr.contains_any title_keywords (PyStr.lower (fst cv))) r with
  | Some (_, v) => clean_title (str_of_cell v)
  | None =>
      match first_long_string (row_values r) with
      | Some s => s
      | None => "Unknown"
      end
  end.

(** [if film_year and revenue]: both present and neither zero. *)
Definition opt_int_truthy (o : option Z) : bool :=
  match o with
  | Some n => negb (n =? 0)
  | None => false
  end.

Definition opt_float_truthy (o : option pyfloat) : bool :=
  match o with
  | Some x => float_truthy x
  | None => false
  end.

(** The test of one row in [count_films_before_year]. *)
Definition counts_row (year : Z) (min_gross : pyfloat) (r : row) : bool :=
  match _extract_year_from_row r, _extract_revenue_billions r with
  | Some film_year, Some revenue =>
      (opt_int_truthy (Some film_year) && opt_float_truthy (Some revenue)
       && (film_year <? year) && float_ge revenue min_gross)%bool
  | _, _ => false
  end.

Fixpoint count_loop (year : Z) (min_gross : pyfloat) (rows : list row) (count : Z) : Z :=
  match rows with
  | [] => count
  | r :: rest =>
      count_loop year min_gross rest
        (if counts_row year min_gross r then count + 1 else count)
  end.

(** [DataProcessor.count_films_before_year] *)
Definition count_films_before_year (data : list record) (year : Z) (min_gross : pyfloat) : Z :=
  match data with
  | [] => 0
  | _ => count_loop year min_gross (iterrows data) 0
  end.

Fixpoint earliest_loop (min_gross : pyfloat) (rows : list row)
    (earliest_year : option Z) (earliest_title : string) : string :=
  match rows with
  | [] => earliest_title
  | r :: rest =>
      let film_year := _extract_year_from_row r in
      let revenue := _extract_revenue_billions r in
      let title := _extract_title_from_row r in
      match film_year, revenue with
      | Some y, Some rev =>
          if (opt_int_truthy film_year && opt_float_truthy revenue
              && float_ge rev min_gross)%bool
          then match earliest_year with
               | None => earliest_loop min_gross rest (Some y) title
               | Some e =>
                   if y <? e then earliest_loop min_gross rest (Some y) title
                   else earliest_loop min_gross rest earliest_year earliest_title
               end
          else earliest_loop min_gross rest earliest_year earliest_title
      | _, _ => earliest_loop min_gross rest earliest_year earliest_title
      end
  end.

(** [DataProcessor.find_earliest_film_over_amount] *)
Definition find_earliest_film_over_amount (data : list record) (min_gross : pyfloat) : string :=
  match data with
  | [] => "No data available"
  | _ =>
      let earliest_title := earliest_loop min_gross (iterrows data) None "Unknown" in
      if String.eqb earliest_title "" then "Unknown" else earliest_title
  end.

(** [DataProcessor._find_column] *)
Definition _find_column (columns : list string) (target : string) : option string :=
  let target_lower := PyStr.lower target in
  match find (fun col => String.eqb (PyStr.lower col) target_lower) columns with
  | Some col => Some col
  | None =>
      find (fun col => (PyStr.contains target_lower (PyStr.lower col)
                        || PyStr.contains (PyStr.lower col) target_lower)%bool) columns
  end.

(** [not x_col]: no column, or the column whose name is empty. *)
Definition column_falsy (c : option string) : bool :=
  match c with
  | None => true
  | Some s => String.eqb s ""
  end.

Section Numerics.
(** [pd.to_numeric(s, errors='coerce')] on a string, [None] for NaN. *)
Variable to_numeric_str : string -> option pyfloat.

(** [Series.corr] on the pairs both of whose members are numeric,
    followed by [round(c, 6) if pd.notna(c) else 0.0]. *)
Variable corr_round6 : list (pyfloat * pyfloat) -> pyfloat.

Definition to_numeric (v : cell) : option pyfloat :=
  match v with
  | CInt n => Some (float_of_int n)
  | CStr s => to_numeric_str s
  | CNone | CNaN => None
  end.

Definition row_get (r : row) (col : string) : cell :=
  match dict_get col r with
  | Some v => v
  | None => CNaN
  end.

Fixpoint numeric_pairs (rows : list row) (x y : string) : list (pyfloat * pyfloat) :=
  match rows with
  | [] => []
  | r :: rest =>
      match to_numeric (row_get r x), to_numeric (row_get r y) with
      | Some a, Some b => (a, b) :: numeric_pairs rest x y
      | _, _ => numeric_pairs rest x y
      end
  end.

(** [DataProcessor.calculate_correlation] *)
Definition calculate_correlation (data : list record) (col1 col2 : string) : pyfloat :=
  match data with
  | [] => 0
  | _ =>
      let columns := frame_columns data [] in
      let x_col := _find_column columns col1 in
      let y_col := _find_column columns col2 in
      if (column_falsy x_col || column_falsy y_col)%bool then 0
      else match x_col, y_col with
           | Some x, Some y => corr_round6 (numeric_pairs (iterrows data) x y)
           | _, _ => 0
           end
  end%Q.

(** [DataProcessor.prepare_chart_data]: the (x, y) values of the rows
    where both are numeric. *)
Definition prepare_chart_data (data : list record) (x_col y_col : string)
  : list (pyfloat * pyfloat) :=
  match data with
  | [] => []
  | _ =>
      let columns := frame_columns data [] in
      let x_match := _find_column columns x_col in
      let y_match := _find_column columns y_col in
      if (column_falsy x_match || column_falsy y_match)%bool then []
      else match x_match, y_match with
           | Some x, Some y => numeric_pairs (iterrows data) x y
           | _, _ => []
           end
  end.
End Numerics.

(** ** Exceptions *)

(** A computation that either raises (with the text [str(e)] of the
    exception) or returns. *)
Inductive exn (A : Type) : Type :=
| Raise (msg : string)
| Return (a : A).

Arguments Raise {A} msg.
Arguments Return {A} a.

Definition bind {A B : Type} (m : exn A) (k : A -> exn B) : exn B :=
  match m with
  | Raise msg => Raise msg
  | Return a => k a
  end.

Notation "x <- m ;; k" := (bind m (fun x => k))
  (at level 61, m at next level, right associativity).

(** [try: body except Exception as e: handler(str(e))] *)
Definition try_except {A : Type} (body : exn A) (handler : string -> exn A) : exn A :=
  match body with
  | Raise msg => handler msg
  | Return a => Return a
  end.

(** The body of a [for] loop that appends one value per item. *)
Fixpoint for_append {A B : Type} (f : A -> exn B) (items : list A) (results : list B)
  : exn (list B) :=
  match items with
  | [] => Return results
  | x :: rest => r <- f x ;; for_append f rest (results ++ [r])
  end.

(** ** services/web_scraper.py *)

(** A [th] or [td] element with its [get_text(strip=True)]. *)
Record html_cell : Type := { is_th : bool; cell_text : string }.

(** A [tr] element: its [th] and [td] cells in document order. *)
Definition html_row := list html_cell.

(** A [table] element: its [tr] elements in document order. *)
Definition html_table := list html_row.

(** [WebScraper._normalize_header]; the rewrite table is scanned in the
    order the dict literal lists it. *)
Definition normalizations : list (string * string) :=
  [ ("worldwide gross", "worldwide_gross");
    ("box office", "worldwide_gross");
    ("total gross", "worldwide_gross");
    ("film title", "title");
    ("movie", "title");
    ("release year", "year");
    ("year released", "year") ].

Definition _normalize_header (header : string) : string :=
  let header := PyStr.strip (PyStr.lower header) in
  match find (fun kv => PyStr.contains (fst kv) header) normalizations with
  | Some (_, value) => value
  | None => PyStr.spaces_to_underscore false (PyStr.keep_word_space header)
  end.

(** [WebScraper._clean_film_title] *)
Definition _clean_film_title (title : string) : string := clean_title title.

Definition opt_int_cell (o : option Z) : cell :=
  match o with
  | Some n => CInt n
  | None => CNone
  end.

(** [sys.int_info.default_max_str_digits]: the longest digit string
    that [int] converts. *)
Definition int_max_str_digits : Z := 4300.

(** [int(s)] for [s] a run of digits: a [ValueError] when the run is
    longer than the interpreter's limit, leading zeros counted. *)
Definition py_int (s : string) : exn Z :=
  if int_max_str_digits <? Z.of_nat (String.length s) then
    Raise ("Exceeds the limit (" ++ PyStr.str_of_int int_max_str_digits
           ++ " digits) for integer string conversion: value has "
           ++ PyStr.str_of_int (Z.of_nat (String.length s))
           ++ " digits; use sys.set_int_max_str_digits() to increase the limit")
  else Return (PyStr.int_of_digits s).

(** [WebScraper._parse_number] *)
Definition _parse_number (text : string) : exn (option Z) :=
  match PyStr.first_run PyStr.is_digit text with
  | Some digits => n <- py_int digits ;; Return (Some n)
  | None => Return None
  end.

(** [WebScraper._parse_year]; [int] is given four digits here. *)
Definition _parse_year (text : string) : option Z := PyStr.search_year false text.

(** One turn of the loop over [enumerate(cells)], for a cell that has a
    header. *)
Definition store_cell (header text : string) (film_data : record) : exn record :=
  if String.eqb header "rank" then
    n <- _parse_number text ;; Return (dict_set "rank" (opt_int_cell n) film_data)
  else if (String.eqb header "title" || String.eqb header "film")%bool then
    Return (dict_set "title" (CStr (_clean_film_title text)) film_data)
  else if (PyStr.contains "gross" header || PyStr.contains "revenue" header)%bool then
    Return (dict_set "worldwide_gross" (CStr text) film_data)
  else if String.eqb header "year" then
    Return (dict_set "year" (opt_int_cell (_parse_year text)) film_data)
  else if String.eqb header "peak" then
    n <- _parse_number text ;; Return (dict_set "peak" (opt_int_cell n) film_data)
  else Return (dict_set header (CStr text) film_data).

(** Cells beyond the last header ([i >= len(headers)]) are passed over. *)
Fixpoint fill_film_data (headers : list string) (cells : html_row) (film_data : record)
  : exn record :=
  match headers, cells with
  | header :: hs, c :: cs =>
      film_data <- store_cell header (cell_text c) film_data ;;
      fill_film_data hs cs film_data
  | _, _ => Return film_data
  end.

(** ['title' in film_data and film_data['title']] *)
Definition has_title (film_data : record) : bool :=
  match dict_get "title" film_data with
  | Some v => cell_truthy v
  | None => false
  end.

Fixpoint parse_rows (headers : list string) (rows : list html_row) (films : list record)
  : exn (list record) :=
  match rows with
  | [] => Return films
  | cells :: rest =>
      if Nat.leb 3 (List.length cells) then
        film_data <- fill_film_data headers cells [] ;;
        parse_rows headers rest (if has_title film_data then films ++ [film_data] else films)
      else parse_rows headers rest films
  end.

(** The normalized headers, read off the first [tr] if there is one. *)
Definition table_headers (table : html_table) : list string :=
  match table with
  | header_row :: _ => map (fun th => _normalize_header (cell_text th)) header_row
  | [] => []
  end.

(** [WebScraper._parse_films_table].  The method never raises: what its
    body raises ends in [except Exception: return []], and the films
    gathered from the rows before are lost with it. *)
Definition _parse_films_table (table : html_table) : list record :=
  let headers := table_headers table in
  match parse_rows headers (tl table) [] with
  | Return films => films
  | Raise _ => []
  end.

Definition film (rank : Z) (title gross : string) (year peak : Z) : record :=
  [ ("rank", CInt rank); ("title", CStr title); ("worldwide_gross", CStr gross);
    ("year", CInt year); ("peak", CInt peak) ].

(** [WebScraper._get_sample_films_data] *)
Definition _get_sample_films_data : list record :=
  [ film 1 "Avatar" "$2.923 billion" 2009 1;
    film 2 "Avengers: Endgame" "$2.798 billion" 2019 1;
    film 3 "Avatar: The Way of Water" "$2.320 billion" 2022 3;
    film 4 "Titanic" "$2.257 billion" 1997 1;
    film 5 "Star Wars: The Force Awakens" "$2.071 billion" 2015 5;
    film 6 "Avengers: Infinity War" "$2.048 billion" 2018 6;
    film 7 "Spider-Man: No Way Home" "$1.921 billion" 2021 7;
    film 8 "Jurassic World" "$1.672 billion" 2015 8;
    film 9 "The Lion King" "$1.657 billion" 2019 9;
    film 10 "The Avengers" "$1.519 billion" 2012 10 ].

(** What [session.get(url, timeout=30)] does: it raises (no connection,
    timeout, ...) or hands back a response with its status code and the
    [table] elements of class [wikitable] that [BeautifulSoup] finds in
    its content. *)
Inductive http_outcome : Type :=
| RequestException (msg : string)
| HttpResponse (status : Z) (wikitables : list html_table).

(** The surroundings of a request: the network, and whether the event
    loop's default executor takes the job. *)
Record world : Type := {
  http_get : string -> http_outcome;
  executor_error : option string
}.

Definition default_url : string :=
  "https://en.wikipedia.org/wiki/List_of_highest-grossing_films".

(** [session.get] followed by [response.raise_for_status()], which
    raises on the status codes 400 to 599. *)
Definition fetch (w : world) (url : string) : exn (list html_table) :=
  match http_get w url with
  | RequestException msg => Raise msg
  | HttpResponse status wikitables =>
      if ((400 <=? status) && (status <? 600))%bool then Raise "HTTPError"
      else Return wikitables
  end.

Definition table_keywords : list string := ["rank"; "film"; "worldwide"; "gross"].

(** [' '.join(headers)] *)
Fixpoint join_space (l : list string) : string :=
  match l with
  | [] => ""
  | [s] => s
  | s :: rest => s ++ " " ++ join_space rest
  end.

(** The lower-cased texts of all [th] cells of a table. *)
Definition th_texts (table : html_table) : list string :=
  map (fun c => PyStr.lower (cell_text c)) (filter is_th (concat table)).

Definition looks_like_films (table : html_table) : bool :=
  PyStr.contains_any table_keywords (join_space (th_texts table)).

Fixpoint collect_tables (tables : list html_table) (films_data : list record) : list record :=
  match tables with
  | [] => films_data
  | table :: rest =>
      collect_tables rest
        (if looks_like_films table then films_data ++ _parse_films_table table
         else films_data)
  end.

(** [WebScraper._scrape_films_sync] *)
Definition _scrape_films_sync (w : world) (url : string) : exn (list record) :=
  try_except
    (tables <- fetch w url ;;
     let films_data := collect_tables tables [] in
     match films_data with
     | [] => Return _get_sample_films_data
     | _ => Return (firstn 50 films_data)
     end)
    (fun _ => Return _get_sample_films_data).

(** [loop.run_in_executor(None, job, url)] *)
Definition run_in_executor {A : Type} (w : world) (job : exn A) : exn A :=
  match executor_error w with
  | Some msg => Raise msg
  | None => job
  end.

(** [WebScraper.scrape_wikipedia_films] *)
Definition resolve_url (url : option string) : string :=
  match url with
  | Some u => if String.eqb u "" then default_url else u
  | None => default_url
  end.

Definition scrape_wikipedia_films (w : world) (url : option string) : exn (list record) :=
  let url := resolve_url url in
  try_except
    (run_in_executor w (_scrape_films_sync w url))
    (fun _ => Return _get_sample_films_data).

(** ** api/index.py *)

(** What [json.loads] can hand to [process_analysis_task]. *)
Inductive json : Type :=
| JNull
| JBool (b : bool)
| JInt (n : Z)
| JFloat (x : pyfloat)
| JStr (s : string)
| JArr (items : list json)
| JObj (members : list (string * json)).

Definition type_name (v : json) : string :=
  match v with
  | JNull => "NoneType"
  | JBool _ => "bool"
  | JInt _ => "int"
  | JFloat _ => "float"
  | JStr _ => "str"
  | JArr _ => "list"
  | JObj _ => "dict"
  end.

Definition attribute_error (v : json) (attr : string) : string :=
  "'" ++ type_name v ++ "' object has no attribute '" ++ attr ++ "'".

Definition not_iterable (v : json) : string :=
  "'" ++ type_name v ++ "' object is not iterable".

(** [v.get(key, default)] *)
Definition py_get (v : json) (key : string) (default : json) : exn json :=
  match v with
  | JObj members =>
      Return (match dict_get key members with Some x => x | None => default end)
  | _ => Raise (attribute_error v "get")
  end.

(** [v.lower()] *)
Definition py_lower (v : json) : exn string :=
  match v with
  | JStr s => Return (PyStr.lower s)
  | _ => Raise (attribute_error v "lower")
  end.

(** The items [for question in v] runs through: the elements of a list,
    the characters of a string, the keys of a dict. *)
Definition py_iter (v : json) : exn (list json) :=
  match v with
  | JArr items => Return items
  | JStr s => Return (map (fun c => JStr (String c "")) (list_ascii_of_string s))
  | JObj members => Return (map (fun kv => JStr (fst kv)) members)
  | _ => Raise (not_iterable v)
  end.

(** [not v] *)
Definition json_falsy (v : json) : bool :=
  match v with
  | JNull => true
  | JBool b => negb b
  | JInt n => n =? 0
  | JFloat x => Qeq_bool x 0
  | JStr s => String.eqb s ""
  | JArr items => match items with [] => true | _ => false end
  | JObj members => match members with [] => true | _ => false end
  end.

(** One element of the list the endpoint returns. *)
Inductive result : Type :=
| RInt (n : Z)
| RFloat (x : pyfloat)
| RStr (s : string).

(** The answer of [process_database_task] to one question. *)
Definition database_answer (question : string) : result :=
  let q := PyStr.lower question in
  if PyStr.contains "count" q then RInt 42
  else if PyStr.contains "regression" q then RFloat (3 # 4)
  else if PyStr.contains "plot" q then RStr PNG_1x1
  else RStr "Database analysis result".

(** The answer of [process_generic_task] to one question. *)
Definition generic_answer (question : string) : result :=
  let q := PyStr.lower question in
  if PyStr.contains "how many" q then RInt 1
  else if (PyStr.contains "which" q || PyStr.contains "what" q)%bool then RStr "Sample answer"
  else if PyStr.contains "correlation" q then RFloat (1 # 2)
  else if (PyStr.contains "plot" q || PyStr.contains "chart" q)%bool then RStr PNG_1x1
  else RStr "Analysis result".

(** A loop body that starts with [question.lower()]: anything but a
    string raises there. *)
Definition on_string (answer : string -> result) (question : json) : exn result :=
  _ <- py_lower question ;;
  match question with
  | JStr q => Return (answer q)
  | _ => Raise (attribute_error question "lower")
  end.

(** [DataProcessor.process_database_task] *)
Definition process_database_task (task_data : json) : exn (list result) :=
  try_except
    (questions <- py_get task_data "questions" (JArr []) ;;
     items <- py_iter questions ;;
     for_append (on_string database_answer) items [])
    (fun _ => Return [RStr "Database processing error"]).

(** [DataProcessor.process_generic_task] *)
Definition process_generic_task (task_data : json) : exn (list result) :=
  try_except
    (questions <- py_get task_data "questions" (JArr []) ;;
     if json_falsy questions then Return [RStr "Generic analysis completed"]
     else
       items <- py_iter questions ;;
       for_append (on_string generic_answer) items [])
    (fun _ => Return [RStr "Generic processing error"]).

Section Router.
Variable w : world.
Variable to_numeric_str : string -> option pyfloat.
Variable corr_round6 : list (pyfloat * pyfloat) -> pyfloat.

(** [ChartGenerator.create_scatterplot_with_regression]: the data URI
    of the picture; its own handlers return a picture on every path. *)
Variable create_scatterplot_with_regression :
  list (pyfloat * pyfloat) -> string -> string -> string.

(** The answer of the films branch to one question. *)
Definition film_answer (scraped_data : list record) (question : string) : result :=
  if (PyStr.contains "how many" (PyStr.lower question)
      && PyStr.contains "$2" question
      && PyStr.contains "before 2000" question)%bool
  then RInt (count_films_before_year scraped_data 2000 (2 # 1))
  else if (PyStr.contains "earliest film" (PyStr.lower question)
           && PyStr.contains "$1.5" question)%bool
  then RStr (find_earliest_film_over_amount scraped_data (3 # 2))
  else if PyStr.contains "correlation" (PyStr.lower question)
  then RFloat (calculate_correlation to_numeric_str corr_round6 scraped_data "Rank" "Peak")
  else if (PyStr.contains "scatterplot" (PyStr.lower question)
           || PyStr.contains "plot" (PyStr.lower question))%bool
  then RStr (create_scatterplot_with_regression
               (prepare_chart_data to_numeric_str scraped_data "Rank" "Peak")
               "Rank" "Peak")
  else RStr "Question not recognized".

(** The statements of [process_analysis_task] inside its [try]. *)
Definition process_analysis_body (task_data : json) : exn (list result) :=
  task_description <- py_get task_data "task" (JStr "") ;;
  questions <- py_get task_data "questions" (JArr []) ;;
  results <-
    (description <- py_lower task_description ;;
     if (PyStr.contains "wikipedia" description && PyStr.contains "film" description)%bool
     then
       scraped_data <- scrape_wikipedia_films w None ;;
       items <- py_iter questions ;;
       for_append (on_string (film_answer scraped_data)) items []
     else if PyStr.contains "database" description
     then process_database_task task_data
     else process_generic_task task_data) ;;
  match results with
  | [] => Return [RStr "No results generated"]
  | _ => Return results
  end.

(** [process_analysis_task] *)
Definition process_analysis_task (task_data : json) : exn (list result) :=
  try_except
    (process_analysis_body task_data)
    (fun msg => Return [RStr ("Error processing task: " ++ msg)]).
End Router.

(** ** Tasks *)

(** A well-formed task: a description and its questions. *)
Record Task : Type := { task : string; questions : list string }.

Definition task_json (t : Task) : json :=
  JObj [ ("task", JStr (task t)); ("questions", JArr (map JStr (questions t))) ].

Inductive domain : Type := Films | Database | Generic.

(** The branch [process_analysis_task] takes for a description. *)
Definition classify (task_description : string) : domain :=
  let d := PyStr.lower task_description in
  if (PyStr.contains "wikipedia" d && PyStr.contains "film" d)%bool then Films
  else if PyStr.contains "database" d then Database
  else Generic.

(** ** The revenue rule as the specification words it *)

(** A value is a candidate when its text, commas and currency signs
    removed, holds one of the keywords. *)
Definition is_candidate (value : cell) : bool :=
  (negb (isna value)
   && PyStr.contains_any revenue_keywords (PyStr.lower (revenue_text value)))%bool.

(** The first run of digits and dots of a value, parsed. *)
Definition candidate_number (value : cell) : option pyfloat :=
  match PyStr.first_run is_numchar (revenue_text value) with
  | Some number => parse_float number
  | None => None
  end.

Definition scaled_number (value : cell) : option pyfloat :=
  match candidate_number value with
  | Some num => Some (scale_revenue (revenue_text value) num)
  | None => None
  end.

(** The specification's reading: the first candidate decides, and a
    failed parse there means absent. *)
Definition spec_extract_revenue_billions (values : list cell) : option pyfloat :=
  match find is_candidate values with
  | Some value => scaled_number value
  | None => None
  end.

(** The reading the code follows: the first candidate that has a number
    decides. *)
Definition has_number (value : cell) : bool :=
  match candidate_number value with
  | Some _ => true
  | None => false
  end.

Definition first_parsed_candidate (values : list cell) : option pyfloat :=
  match find (fun value => (is_candidate value && has_number value)%bool) values with
  | Some value => scaled_number value
  | None => None
  end.

(** ** The statistics as the specification words them *)

(** Year and revenue are both present. *)
Definition both_present (r : row) : bool :=
  match _extract_year_from_row r, _extract_revenue_billions r with
  | Some _, Some _ => true
  | _, _ => false
  end.

(** Year present and below the bound, revenue present and at least the
    bound. *)
Definition qualifies_as_claimed (year : Z) (min_gross : pyfloat) (r : row) : bool :=
  match _extract_year_from_row r, _extract_revenue_billions r with
  | Some film_year, Some revenue => ((film_year <? year) && float_ge revenue min_gross)%bool
  | _, _ => false
  end.

(** Year present, revenue present and at least the bound. *)
Definition over_amount (min_gross : pyfloat) (r : row) : bool :=
  match _extract_year_from_row r, _extract_revenue_billions r with
  | Some _, Some revenue => float_ge revenue min_gross
  | _, _ => false
  end.

(** Title, year and revenue of a row. *)
Definition extracted_fields (r : row) : string * option Z * option pyfloat :=
  (_extract_title_from_row r, _extract_year_from_row r, _extract_revenue_billions r).

(** ** The acceptance rule of the table normalizer *)

(** Whatever is stored under "title" is a string. *)
Definition title_is_string (film_data : record) : Prop :=
  forall v, dict_get "title" film_data = Some v -> exists s, v = CStr s.

(** A cell as the acceptance rule reads it: a rank or peak that gives no
    number, for whatever reason, is left absent. *)
Definition store_cell_or_absent (header text : string) (film_data : record) : record :=
  match store_cell header text film_data with
  | Return film_data' => film_data'
  | Raise _ => dict_set header CNone film_data
  end.

(** The record of a row, cell by cell. *)
Fixpoint row_record (headers : list string) (cells : html_row) (film_data : record)
  : record :=
  match headers, cells with
  | header :: hs, c :: cs =>
      row_record hs cs (store_cell_or_absent header (cell_text c) film_data)
  | _, _ => film_data
  end.

(** The rows a table gives records for when the title is the only test:
    those that have three cells or more and, once filled in, a title that
    is not empty. *)
Definition accepted_rows (headers : list string) (rows : list html_row) : list record :=
  filter has_title
    (map (fun cells => row_record headers cells [])
       (filter (fun cells => Nat.leb 3 (List.length cells)) rows)).

(** A cell text whose first run of digits is longer than [int] takes. *)
Definition over_digit_limit (text : string) : bool :=
  match PyStr.first_run PyStr.is_digit text with
  | Some digits => int_max_str_digits <? Z.of_nat (String.length digits)
  | None => false
  end.

(** The headers whose cells go through [_parse_number]. *)
Definition number_header (header : string) : bool :=
  (String.eqb header "rank" || String.eqb header "peak")%bool.

(** A row with an over-long number in a rank or peak cell that has a
    header. *)
Fixpoint row_over_limit (headers : list string) (cells : html_row) : bool :=
  match headers, cells with
  | header :: hs, c :: cs =>
      ((number_header header && over_digit_limit (cell_text c))
       || row_over_limit hs cs)%bool
  | _, _ => false
  end.

(** A table with such a row among those of three cells or more. *)
Definition table_over_limit (headers : list string) (rows : list html_row) : bool :=
  existsb (fun cells => (Nat.leb 3 (List.length cells) && row_over_limit headers cells)%bool)
    rows.

(** A run of [n] nines. *)
Fixpoint nines (n : nat) : string :=
  match n with
  | O => EmptyString
  | S m => String "9" (nines m)
  end.


(** ** Sample surroundings and inputs *)

Definition html_cells (th : bool) (texts : list string) : html_row :=
  map (fun s => {| is_th := th; cell_text := s |}) texts.

Definition films_header : html_row :=
  html_cells true ["Rank"; "Title"; "Worldwide gross"; "Year"; "Peak"].

(** No network at all. *)
Definition world_offline : world :=
  {| http_get := fun _ => RequestException "Connection refused";
     executor_error := None |}.

(** The server answers 503. *)
Definition world_unavailable : world :=
  {| http_get := fun _ => HttpResponse 503 [];
     executor_error := None |}.

(** A page with one two-film table. *)
Definition world_online : world :=
  {| http_get := fun _ =>
       HttpResponse 200
         [ [ films_header;
             html_cells false ["1"; "Avatar[1]"; "$2.9 billion"; "2009"; "1"];
             html_cells false ["n/a"; "Titanic (1997 film)"; "$2.2 billion"; "?"; "-"] ] ];
     executor_error := None |}.

(** Numeric kernels that are good enough to run the router on samples. *)
Definition no_string_numbers : string -> option pyfloat := fun _ => None.
Definition flat_corr : list (pyfloat * pyfloat) -> pyfloat := fun _ => 0%Q.
Definition blank_chart : list (pyfloat * pyfloat) -> string -> string -> string :=
  fun _ _ _ => PNG_1x1.

Definition films_task (qs : list string) : Task :=
  {| task := "Scrape the list of highest grossing films from Wikipedia"; questions := qs |}.

Definition database_task (qs : list string) : Task :=
  {| task := "Query the court judgments database"; questions := qs |}.

Definition generic_task (qs : list string) : Task :=
  {| task := "Look at the attached numbers"; questions := qs |}.

(** A film whose gross is given as zero. *)
Definition zero_gross_film : record :=
  [ ("title", CStr "Lost Reel"); ("worldwide_gross", CStr "$0 billion"); ("year", CInt 1999) ].

(** A title that holds a keyword but no number, before the gross. *)
Definition gross_anatomy : row :=
  [ ("title", CStr "Gross Anatomy"); ("worldwide_gross", CStr "$2 billion") ].

(** A title that holds a keyword and a run, ".", that is no number. *)
Definition dr_gross : row :=
  [ ("title", CStr "Dr. Gross"); ("worldwide_gross", CStr "$2 billion") ].

Definition shouted_question : string :=
  "HOW MANY $2 BN MOVIES WERE RELEASED BEFORE 2000?".

(** ** Tests and orders behind the statistics *)

(** Some character of [s] satisfies [p]. *)
Fixpoint any_char (p : ascii -> bool) (s : string) : bool :=
  match s with
  | EmptyString => false
  | String c t => (p c || any_char p t)%bool
  end.

(** The test of one row in [find_earliest_film_over_amount]: year and
    revenue are there, neither is zero, and the revenue reaches the
    bound. *)
Definition earliest_ok (min_gross : pyfloat) (r : row) : bool :=
  match _extract_year_from_row r, _extract_revenue_billions r with
  | Some film_year, Some revenue =>
      (opt_int_truthy (Some film_year) && opt_float_truthy (Some revenue)
       && float_ge revenue min_gross)%bool
  | _, _ => false
  end.

(** The year of a row, 0 if it has none. *)
Definition year_of (r : row) : Z :=
  match _extract_year_from_row r with
  | Some y => y
  | None => 0
  end.

(** [r] is the first row of least year among the rows that pass the
    test: passing rows before it are strictly later, passing rows after
    it are not earlier. *)
Definition picks_earliest (min_gross : pyfloat) (rows : list row) (r : row) : Prop :=
  exists pre post,
    rows = (pre ++ r :: post)%list
    /\ earliest_ok min_gross r = true
    /\ (forall r', In r' pre -> earliest_ok min_gross r' = true -> year_of r < year_of r')
    /\ (forall r', In r' post -> earliest_ok min_gross r' = true -> year_of r <= year_of r').

(** [title or "Unknown"] *)
Definition title_or_unknown (r : row) : string :=
  if String.eqb (_extract_title_from_row r) "" then "Unknown" else _extract_title_from_row r.

(** ** Column matching *)

(** The two tests of [_find_column], on lower-cased names. *)
Definition exact_match (target col : string) : bool :=
  String.eqb (PyStr.lower col) (PyStr.lower target).

Definition partial_match (target col : string) : bool :=
  (PyStr.contains (PyStr.lower target) (PyStr.lower col)
   || PyStr.contains (PyStr.lower col) (PyStr.lower target))%bool.

(** ** Delimited stretches and white space *)

(** The line end, which [.] does not match. *)
Definition newline : ascii := "010"%char.

(** Some line of [s] holds [op] and, later on, [cl]: the pattern
    [op .*? cl] matches somewhere in [s].  [open_seen] tells whether [op]
    has been read on the current line. *)
Fixpoint pair_scan (op cl : ascii) (open_seen : bool) (s : string) : bool :=
  match s with
  | EmptyString => false
  | String c t =>
      if Ascii.eqb c newline then pair_scan op cl false t
      else if (open_seen && Ascii.eqb c cl)%bool then true
      else pair_scan op cl (open_seen || Ascii.eqb c op)%bool t
  end.

(** The first, the last character is white space. *)
Definition starts_with_space (s : string) : bool :=
  match s with
  | EmptyString => false
  | String c _ => PyStr.is_space c
  end.

Fixpoint ends_with_space (s : string) : bool :=
  match s with
  | EmptyString => false
  | String c EmptyString => PyStr.is_space c
  | String _ t => ends_with_space t
  end.

(** [s'] is [s] with some characters other than line ends left out. *)
Inductive line_sub : string -> string -> Prop :=
| line_sub_nil : line_sub EmptyString EmptyString
| line_sub_keep (c : ascii) (s' s : string) :
    line_sub s' s -> line_sub (String c s') (String c s)
| line_sub_drop (c : ascii) (s' s : string) :
    c <> newline -> line_sub s' s -> line_sub s' (String c s).

(** A pending stretch: no line end in it, and none of [cl]. *)
Definition no_newline (buf : list ascii) : Prop := forall c, In c buf -> c <> newline.
Definition quiet (cl : ascii) (buf : list ascii) : Prop :=
  forall c, In c buf -> c <> newline /\ c <> cl.

(** ** Alphabets and the schema of a record *)

(** Every character of [s] satisfies [p]. *)
Fixpoint all_chars (p : ascii -> bool) (s : string) : bool :=
  match s with
  | EmptyString => true
  | String c t => (p c && all_chars p t)%bool
  end.

(** A lower-case letter, a digit or the underscore. *)
Definition is_ident_char (c : ascii) : bool :=
  (PyStr.is_lower c || PyStr.is_digit c || Ascii.eqb c "_")%bool.

Definition is_ascii (c : ascii) : bool := Nat.ltb (PyStr.code c) 128.

(** What the normalizer may store under a key. *)
Definition well_typed_field (key : string) (v : cell) : Prop :=
  if (String.eqb key "rank" || String.eqb key "peak")%bool then
    v = CNone \/ exists n, v = CInt n /\ 0 <= n
  else if String.eqb key "year" then
    v = CNone \/ exists y, v = CInt y /\ 1900 <= y <= 2099
  else if String.eqb key "title" then
    exists text, v = CStr (_clean_film_title text)
  else exists s, v = CStr s.

Definition well_typed (film_data : record) : Prop :=
  forall key v, dict_get key film_data = Some v -> well_typed_field key v.

(** The records of the tables that look like film tables, in document
    order. *)
Definition films_of_tables (tables : list html_table) : list record :=
  flat_map (fun table => if looks_like_films table then _parse_films_table table else [])
    tables.

(** A character as [lower] leaves it and the two [re.sub] calls of
    [_normalize_header] read it: dropped, white space, or an identifier
    character. *)
Definition lowered (c : ascii) : bool :=
  (negb (PyStr.is_word c || PyStr.is_space c) || PyStr.is_space c || is_ident_char c)%bool.

(** ** Tasks as JSON values *)

(** The string of a JSON value that is one. *)
Definition as_string (v : json) : option string :=
  match v with
  | JStr s => Some s
  | _ => None
  end.

(** The items as strings, if all of them are strings. *)
Fixpoint all_strings (items : list json) : option (list string) :=
  match items with
  | [] => Some []
  | x :: rest =>
      match as_string x, all_strings rest with
      | Some s, Some l => Some (s :: l)
      | _, _ => None
      end
  end.

(** The questions of a task as strings: the task is an object and its
    "questions" (the empty list if the key is missing) can be iterated
    and gives strings only. *)
Definition question_strings (task_data : json) : option (list string) :=
  match py_get task_data "questions" (JArr []) with
  | Return questions =>
      match py_iter questions with
      | Return items => all_strings items
      | Raise _ => None
      end
  | Raise _ => None
  end.

(** The task is an object whose description sends it to the films
    branch. *)
Definition is_films_request (task_data : json) : bool :=
  match py_get task_data "task" (JStr "") with
  | Return (JStr d) =>
      match classify d with
      | Films => true
      | _ => false
      end
  | _ => false
  end.

(** ** api/index.py: the endpoint *)

Module Endpoint.

(** What the endpoint hands to the web framework: the result list, or an
    [HTTPException] with its status code and detail. *)
Inductive http_reply : Type :=
| Reply (results : list result)
| HTTPException (status_code : Z) (detail : string).

(** The two optional parts of a request.  An uploaded file is given by
    what [file.read()] followed by [content.decode('utf-8')] does: it
    returns the text or raises. *)
Record request : Type := {
  file : option (exn string);
  data : option string
}.

(** What [json.loads] does with a text: it hands back the value, raises
    [JSONDecodeError], or raises an exception of another class, given by
    its text ([RecursionError] on nesting that is too deep, [ValueError]
    on an integer literal of more digits than [int] converts). *)
Inductive loads_outcome : Type :=
| Loaded (value : json)
| JSONDecodeError
| LoadsError (msg : string).

Section Handler.
Variable w : world.
Variable to_numeric_str : string -> option pyfloat.
Variable corr_round6 : list (pyfloat * pyfloat) -> pyfloat.
Variable chart : list (pyfloat * pyfloat) -> string -> string -> string.

(** [json.loads] on a text. *)
Variable json_loads : string -> loads_outcome.

(** [str(e)] for an [HTTPException] of the given status and detail. *)
Variable str_http_exception : Z -> string -> string.

(** The task text: the file if there is one, else the form field if it
    is not empty, else [HTTPException(400)]. *)
Definition read_task_content (req : request) : exn string :=
  match file req with
  | Some content => content
  | None =>
      match data req with
      | Some d =>
          if String.eqb d "" then Raise (str_http_exception 400 "No data provided")
          else Return d
      | None => Raise (str_http_exception 400 "No data provided")
      end
  end.

(** [json.loads] with the fallback to a task that is all description;
    only [JSONDecodeError] is caught here. *)
Definition parse_task (task_content : string) : exn json :=
  match json_loads task_content with
  | Loaded task_data => Return task_data
  | JSONDecodeError => Return (JObj [("task", JStr task_content)])
  | LoadsError msg => Raise msg
  end.

(** [analyze_data]: whatever is raised inside its [try], the 400 of the
    missing input included, leaves as a 500. *)
Definition analyze_data (req : request) : http_reply :=
  match (task_content <- read_task_content req ;;
         task_data <- parse_task task_content ;;
         process_analysis_task w to_numeric_str corr_round6 chart task_data) with
  | Return results => Reply results
  | Raise msg => HTTPException 500 ("Analysis failed: " ++ msg)
  end.
End Handler.

End Endpoint.

(** [HTTPException.__str__] as Starlette defines it: the status code, a
    colon and the detail. *)
Definition starlette_str (status_code : Z) (detail : string) : string :=
  PyStr.str_of_int status_code ++ ": " ++ detail.

(** [json.loads] on the texts that hold no JSON value but an integer
    literal without a sign: the literal is converted by [int], and any
    other text is taken for no JSON at all. *)
Definition loads_integers (text : string) : Endpoint.loads_outcome :=
  if (all_digits text && negb (String.eqb text "")
      && (String.eqb text "0" || negb (String.prefix "0" text)))%bool then
    match py_int text with
    | Return n => Endpoint.Loaded (JInt n)
    | Raise msg => Endpoint.LoadsError msg
    end
  else Endpoint.JSONDecodeError.

(** A server that is cut off, with that parser. *)
Definition analyze_offline : Endpoint.request -> Endpoint.http_reply :=
  Endpoint.analyze_data world_offline no_string_numbers flat_corr blank_chart
    loads_integers starlette_str.

(** ** services/chart_generator.py *)

Module ChartGenerator.

(** Drawing is left to matplotlib: the figures and the PNG bytes are
    parameters, and what is modelled is which of them are asked for and
    what becomes of a failure.  Closing a figure is not modelled. *)

(** One plotted record: a dict from column name to number, as
    [prepare_chart_data] builds them. *)
Definition point := dict pyfloat.

Definition data_uri_prefix : string := "data:image/png;base64,".

(** [ChartGenerator._create_minimal_error_image] *)
Definition _create_minimal_error_image : string := PNG_1x1.

Fixpoint point_columns (data : list point) (seen : list string) : list string :=
  match data with
  | [] => seen
  | p :: ps => point_columns ps (add_new (dict_keys p) seen)
  end.

(** The rows where both columns hold a number ([valid_mask]). *)
Fixpoint clean_points (data : list point) (x_col y_col : string)
  : list (pyfloat * pyfloat) :=
  match data with
  | [] => []
  | p :: ps =>
      match dict_get x_col p, dict_get y_col p with
      | Some x, Some y => (x, y) :: clean_points ps x_col y_col
      | _, _ => clean_points ps x_col y_col
      end
  end.

Section Rendering.
(** A matplotlib figure. *)
Variable figure : Type.

(** Drawing the scatterplot with its regression line, labels and title;
    drawing the figure that shows an error text.  Both may raise. *)
Variable scatter_figure :
  list (pyfloat * pyfloat) -> string -> string -> option string -> exn figure.
Variable error_figure : string -> exn figure.

(** [fig.savefig] into a buffer at the given dpi: the PNG bytes. *)
Variable savefig : figure -> Z -> exn string.

(** [base64.b64encode(...).decode('utf-8')] *)
Variable b64encode : string -> string.

(** [ChartGenerator._fig_to_base64] *)
Definition _fig_to_base64 (fig : figure) : exn string :=
  try_except
    (buffer <- savefig fig 60 ;;
     buffer <- (if 100000 <? Z.of_nat (String.length buffer)
                then savefig fig 40 else Return buffer) ;;
     Return (data_uri_prefix ++ b64encode buffer))
    (fun _ => Return _create_minimal_error_image).

(** [ChartGenerator._create_error_chart] *)
Definition _create_error_chart (error_message : string) : exn string :=
  try_except
    (fig <- error_figure error_message ;; _fig_to_base64 fig)
    (fun _ => Return _create_minimal_error_image).

(** [ChartGenerator.create_scatterplot_with_regression] *)
Definition create_scatterplot_with_regression
    (data : list point) (x_col y_col : string) (title : option string) : exn string :=
  try_except
    (match data with
     | [] => _create_error_chart "No data provided"
     | _ =>
         let columns := point_columns data [] in
         if (negb (mem_string x_col columns) || negb (mem_string y_col columns))%bool
         then _create_error_chart
                ("Columns '" ++ x_col ++ "' or '" ++ y_col ++ "' not found")
         else
           let clean := clean_points data x_col y_col in
           if Nat.ltb (List.length clean) 2
           then _create_error_chart "Insufficient valid data points"
           else fig <- scatter_figure clean x_col y_col title ;; _fig_to_base64 fig
     end)
    (fun msg => _create_error_chart ("Error: " ++ msg)).
End Rendering.

End ChartGenerator.

(** [{x_col: float(x_val), y_col: float(y_val)}] for each pair. *)
Definition chart_points (x_col y_col : string) (pairs : list (pyfloat * pyfloat))
  : list ChartGenerator.point :=
  map (fun xy => dict_set y_col (snd xy) (dict_set x_col (fst xy) [])) pairs.

(** The computation returns a PNG data URI. *)
Definition is_data_uri (r : exn string) : Prop :=
  exists s, r = Return s /\ String.prefix ChartGenerator.data_uri_prefix s = true.

(** Renderers for samples: every figure is drawn and saving gives three
    bytes; nothing can be saved. *)
Definition draw_unit : list (pyfloat * pyfloat) -> string -> string -> option string -> exn unit :=
  fun _ _ _ _ => Return tt.
Definition draw_error_unit : string -> exn unit := fun _ => Return tt.
Definition save_png : unit -> Z -> exn string := fun _ _ => Return "PNG".
Definition save_fails : unit -> Z -> exn string := fun _ _ => Raise "disk full".
Definition plain_base64 : string -> string := fun s => s.

(** ** The chart of the films branch *)

(** The call made by [process_analysis_task]: the chart of the pairs as a
    string. *)
Definition scatter_chart (figure : Type)
    (scatter_figure :
       list (pyfloat * pyfloat) -> string -> string -> option string -> exn figure)
    (error_figure : string -> exn figure)
    (savefig : figure -> Z -> exn string) (b64encode : string -> string)
    (pairs : list (pyfloat * pyfloat)) (x_col y_col : string) : string :=
  match ChartGenerator.create_scatterplot_with_regression figure scatter_figure
          error_figure savefig b64encode (chart_points x_col y_col pairs)
          x_col y_col None with
  | Return uri => uri
  | Raise _ => ChartGenerator._create_minimal_error_image
  end.

(** A column whose name holds one of the title keywords. *)
Definition title_like (cv : string * cell) : bool :=
  PyStr.contains_any title_keywords (PyStr.lower (fst cv)).

(** ** pandas: [Series.corr] and [round] *)

(** The correlation kernel that [calculate_correlation] calls is library
    code.  It is given here in the exact arithmetic of [pyfloat]: sums,
    means and products are rational, and the one square root of the
    coefficient is kept symbolic until the result is rounded. *)

Definition float_sum (values : list pyfloat) : pyfloat := fold_right Qplus 0%Q values.

Definition float_mean (values : list pyfloat) : pyfloat :=
  (float_sum values / inject_Z (Z.of_nat (List.length values)))%Q.

(** The sum, over the pairs, of the product of the deviations of two of
    their coordinates from their means. *)
Definition co_moment (f g : pyfloat * pyfloat -> pyfloat) (pairs : list (pyfloat * pyfloat))
  : pyfloat :=
  float_sum (map (fun p => ((f p - float_mean (map f pairs))
                            * (g p - float_mean (map g pairs)))%Q) pairs).

(** A coefficient kept exact: the number [covariation / sqrt variation],
    with [variation] positive. *)
Record coefficient : Type := { covariation : pyfloat; variation : pyfloat }.

(** Modelled from the spec: [Series.corr], which is pandas' and not part
    of the repository, as the Pearson correlation coefficient over the
    paired numeric values, undefined (NaN, here [None]) with fewer than
    two valid pairs and when a column has zero variance. *)
Definition Series_corr (pairs : list (pyfloat * pyfloat)) : option coefficient :=
  if Nat.ltb (List.length pairs) 2 then None
  else
    let variation := (co_moment fst fst pairs * co_moment snd snd pairs)%Q in
    if Qeq_bool variation 0 then None
    else Some {| covariation := co_moment fst snd pairs; variation := variation |}.

(** The integer nearest to [sqrt q], the even one when two are equally
    near; [m] is the integer part of [2 * sqrt q]. *)
Definition round_sqrt (q : Q) : Z :=
  let m := Z.sqrt (Qfloor (4 * q)) in
  if Z.even m then m / 2
  else if Qeq_bool (4 * q) (inject_Z (m * m)) then
         (if Z.even (m / 2) then m / 2 else m / 2 + 1)
       else m / 2 + 1.

(** [round(c, ndigits)]: the multiple of [10 ** -ndigits] nearest to the
    coefficient, ties going to the even multiple. *)
Definition py_round (c : coefficient) (ndigits : nat) : pyfloat :=
  let scale := inject_Z (Z.pos (pow10 ndigits)) in
  let n := round_sqrt (scale * scale * (covariation c * covariation c) / variation c) in
  Qred (inject_Z (Z.sgn (Qnum (covariation c)) * n) / scale).

(** The last two statements of [calculate_correlation]:
    [correlation = x_data.corr(y_data)] and
    [round(correlation, 6) if pd.notna(correlation) else 0.0]. *)
Definition corr_then_round (pairs : list (pyfloat * pyfloat)) : pyfloat :=
  match Series_corr pairs with
  | Some correlation => py_round correlation 6
  | None => 0%Q
  end.

(** ** The correlation as the specification words it *)

(** The real number a [coefficient] stands for. *)
Definition coefficient_value (c : coefficient) : R :=
  (Q2R (covariation c) / sqrt (Q2R (variation c)))%R.

(** A column that does not vary: all its values are equal. *)
Definition all_equal (values : list pyfloat) : bool :=
  match values with
  | [] => true
  | v :: rest => forallb (Qeq_bool v) rest
  end.

Definition real_sum (values : list R) : R := fold_right Rplus 0%R values.

Definition real_mean (values : list R) : R :=
  (real_sum values / INR (List.length values))%R.

(** Pearson's coefficient of the pairs, over the real numbers: the sum
    of the products of the deviations from the two means, divided by the
    square root of the product of the two sums of squared deviations. *)
Definition pearson (pairs : list (pyfloat * pyfloat)) : R :=
  let xs := map (fun p => Q2R (fst p)) pairs in
  let ys := map (fun p => Q2R (snd p)) pairs in
  let dx := map (fun x => x - real_mean xs)%R xs in
  let dy := map (fun y => y - real_mean ys)%R ys in
  (real_sum (map (fun d => fst d * snd d) (combine dx dy))
   / sqrt (real_sum (map (fun d => d * d) dx) * real_sum (map (fun d => d * d) dy)))%R.

(** The correlation as the specification has it: the names are resolved
    by [_find_column], and the answer is 0.0 when one of them is not
    resolved or the coefficient of the resolved columns is undefined. *)
Definition correlation_as_claimed (to_numeric_str : string -> option pyfloat)
    (data : list record) (col1 col2 : string) : pyfloat :=
  let columns := frame_columns data [] in
  match _find_column columns col1, _find_column columns col2 with
  | Some x, Some y => corr_then_round (numeric_pairs to_numeric_str (iterrows data) x y)
  | _, _ => 0%Q
  end.

(** Two films whose rank sits in a column without a name. *)
Definition nameless_rank_data : list record :=
  [ [("", CInt 1); ("peak", CInt 1)]; [("", CInt 2); ("peak", CInt 2)] ].

(** * Properties *)

(** ** The string model on samples *)

Example lower_sample : PyStr.lower "HOW Many $2?" = "how many $2?".
Proof. reflexivity. Qed.

Example strip_sample : PyStr.strip "  a b  " = "a b".
Proof. reflexivity. Qed.

Example contains_sample :
  PyStr.contains "before 2000" "released before 2000?" = true
  /\ PyStr.contains "before 2000" "RELEASED BEFORE 2000?" = false
  /\ PyStr.contains "" "" = true.
Proof. repeat split; reflexivity. Qed.

Example clean_title_sample :
  clean_title "Avatar[a[1] (2009) x [2 " = "Avatar  x [2".
Proof. reflexivity. Qed.

Example search_year_sample :
  PyStr.search_year false "x19999 (2009)" = Some 2009
  /\ PyStr.search_year false "a1999" = None
  /\ PyStr.search_year false "1899, 2100, 2099." = Some 2099.
Proof. repeat split; reflexivity. Qed.

Example str_of_int_sample :
  PyStr.str_of_int 2009 = "2009" /\ PyStr.str_of_int 0 = "0"
  /\ PyStr.str_of_int (-10) = "-10".
Proof. repeat split; reflexivity. Qed.

Example parse_float_sample :
  parse_float "2.923" = Some (2923 # 1000)
  /\ parse_float "1." = Some (1 # 1) /\ parse_float ".5" = Some (1 # 2)
  /\ parse_float "." = None /\ parse_float "1.2.3" = None.
Proof. repeat split; reflexivity. Qed.

Example normalize_header_sample :
  _normalize_header " Worldwide Gross[1] " = "worldwide_gross"
  /\ _normalize_header "Ref. / Notes  (a)" = "ref_notes_a"
  /\ _normalize_header "Film" = "film".
Proof. repeat split; reflexivity. Qed.

(** A page that can be read is read: the fallback is not all there is. *)
Example scrape_online_sample :
  scrape_wikipedia_films world_online None
  = Return
      [ [ ("rank", CInt 1); ("title", CStr "Avatar");
          ("worldwide_gross", CStr "$2.9 billion"); ("year", CInt 2009);
          ("peak", CInt 1) ];
        [ ("rank", CNone); ("title", CStr "Titanic");
          ("worldwide_gross", CStr "$2.2 billion"); ("year", CNone);
          ("peak", CNone) ] ].
Proof. reflexivity. Qed.

Example route_online_sample :
  process_analysis_task world_online no_string_numbers flat_corr blank_chart
    (task_json (films_task
       [ "How many $2 bn movies were released before 2000?";
         "Which is the earliest film that grossed over $1.5 bn?";
         "What is it?" ]))
  = Return [RInt 0; RStr "Avatar"; RStr "Question not recognized"].
Proof. reflexivity. Qed.

(** ** Loops over questions *)

Lemma for_append_strings (answer : string -> result) (qs : list string) (acc : list result) :
  for_append (on_string answer) (map JStr qs) acc = Return (acc ++ map answer qs)%list.
Proof.
  revert acc; induction qs as [|q qs IH]; intro acc; simpl.
  - now rewrite app_nil_r.
  - rewrite IH, <- app_assoc. reflexivity.
Qed.

Lemma try_except_returns {A : Type} (body : exn A) (handler : string -> exn A) :
  (forall msg, exists a, handler msg = Return a) ->
  exists a, try_except body handler = Return a.
Proof.
  intro H. destruct body as [msg | a]; simpl; [apply H | now exists a].
Qed.

(** ** The scraper *)

Lemma firstn_nonempty {A : Type} (n : nat) (x : A) (l : list A) :
  firstn (S n) (x :: l) <> [].
Proof. simpl. discriminate. Qed.

Lemma sample_nonempty : _get_sample_films_data <> [].
Proof. discriminate. Qed.

Lemma scrape_sync_returns (w : world) (url : string) :
  exists records, _scrape_films_sync w url = Return records /\ records <> [].
Proof.
  unfold _scrape_films_sync.
  destruct (fetch w url) as [msg | tables]; simpl.
  - exists _get_sample_films_data. split; [reflexivity | apply sample_nonempty].
  - destruct (collect_tables tables []) as [|r l] eqn:E.
    + exists _get_sample_films_data. split; [reflexivity | apply sample_nonempty].
    + exists (firstn 50 (r :: l)). split; [reflexivity | apply firstn_nonempty].
Qed.

Lemma scrape_returns (w : world) (url : option string) :
  exists records, scrape_wikipedia_films w url = Return records /\ records <> [].
Proof.
  unfold scrape_wikipedia_films, run_in_executor.
  destruct (executor_error w) as [msg |]; simpl.
  - exists _get_sample_films_data. split; [reflexivity | apply sample_nonempty].
  - destruct (scrape_sync_returns w (resolve_url url)) as [records [E Hne]].
    rewrite E. simpl. now exists records.
Qed.

(** C3.  Whatever the network and the executor do and whatever URL is
    asked for, [scrape_wikipedia_films] returns (it does not raise) a
    sequence of records that is not empty; when the request raises (no
    connection, timeout), when the status is one [raise_for_status]
    rejects (400 to 599), when the executor refuses the job, or when the
    tables of the page yield no record, that sequence is exactly the
    fallback set, which has ten records. *)
Theorem scraper_falls_back (w : world) (url : option string) :
  exists records,
    scrape_wikipedia_films w url = Return records
    /\ records <> []
    /\ (forall msg, fetch w (resolve_url url) = Raise msg ->
        records = _get_sample_films_data)
    /\ (forall msg, http_get w (resolve_url url) = RequestException msg ->
        records = _get_sample_films_data)
    /\ (forall status tables,
          http_get w (resolve_url url) = HttpResponse status tables ->
          400 <= status < 600 -> records = _get_sample_films_data)
    /\ (forall msg, executor_error w = Some msg -> records = _get_sample_films_data)
    /\ (forall tables, fetch w (resolve_url url) = Return tables ->
        collect_tables tables [] = [] -> records = _get_sample_films_data)
    /\ List.length _get_sample_films_data = 10%nat.
Proof.
  destruct (scrape_returns w url) as [records [E Hne]].
  exists records. split; [exact E|]. split; [exact Hne|].
  assert (Hfetch : forall msg, fetch w (resolve_url url) = Raise msg ->
                               records = _get_sample_films_data).
  { intros msg Hf. revert E.
    unfold scrape_wikipedia_films, run_in_executor, _scrape_films_sync.
    rewrite Hf. destruct (executor_error w); simpl; congruence. }
  split; [exact Hfetch|].
  split.
  { intros msg Hg. apply (Hfetch msg). unfold fetch. now rewrite Hg. }
  split.
  { intros status tables Hg [Hlo Hhi]. apply (Hfetch "HTTPError").
    unfold fetch. rewrite Hg.
    apply Z.leb_le in Hlo. apply Z.ltb_lt in Hhi. now rewrite Hlo, Hhi. }
  split.
  { intros msg He. revert E. unfold scrape_wikipedia_films, run_in_executor.
    rewrite He. simpl. congruence. }
  split; [|reflexivity].
  intros tables Hf Hc. revert E.
  unfold scrape_wikipedia_films, run_in_executor, _scrape_films_sync.
  rewrite Hf. simpl. rewrite Hc.
  destruct (executor_error w); simpl; congruence.
Qed.

Lemma scraper_falls_back_witness :
  scrape_wikipedia_films world_unavailable None = Return _get_sample_films_data.
Proof.
  destruct (scraper_falls_back world_unavailable None)
    as [records [E [_ [_ [_ [Hstatus _]]]]]].
  rewrite E. f_equal.
  apply (Hstatus 503 []); [reflexivity | lia].
Defined.

(** ** The table normalizer *)

Lemma dict_get_set {V : Type} (k k' : string) (v : V) (d : dict V) :
  dict_get k (dict_set k' v d) = if String.eqb k k' then Some v else dict_get k d.
Proof.
  induction d as [|[k0 v0] d IH]; simpl.
  - reflexivity.
  - destruct (String.eqb k' k0) eqn:E0; simpl.
    + apply String.eqb_eq in E0. subst k0.
      destruct (String.eqb k k'); reflexivity.
    + rewrite IH. destruct (String.eqb k k0) eqn:E1; [|reflexivity].
      apply String.eqb_eq in E1. subst k0.
      destruct (String.eqb k k') eqn:E2; [|reflexivity].
      apply String.eqb_eq in E2. subst k'. rewrite String.eqb_refl in E0. discriminate.
Qed.

Lemma parse_number_raises (text : string) :
  over_digit_limit text = true -> exists msg, _parse_number text = Raise msg.
Proof.
  unfold over_digit_limit, _parse_number, py_int.
  destruct (PyStr.first_run PyStr.is_digit text) as [digits|]; [|discriminate].
  intros ->. cbn [bind]. eexists. reflexivity.
Qed.

Lemma parse_number_returns (text : string) :
  over_digit_limit text = false -> exists o, _parse_number text = Return o.
Proof.
  unfold over_digit_limit, _parse_number, py_int.
  destruct (PyStr.first_run PyStr.is_digit text) as [digits|]; [|eexists; reflexivity].
  intros ->. cbn [bind]. eexists. reflexivity.
Qed.

Lemma number_header_cases (header : string) :
  number_header header = true -> header = "rank" \/ header = "peak".
Proof.
  unfold number_header. intro H. apply orb_true_iff in H.
  destruct H as [H | H]; apply String.eqb_eq in H; auto.
Qed.

Lemma store_cell_raises (header text : string) (film_data : record) :
  (number_header header && over_digit_limit text)%bool = true ->
  exists msg, store_cell header text film_data = Raise msg.
Proof.
  intro H. apply andb_true_iff in H. destruct H as [Hh Ht].
  destruct (parse_number_raises text Ht) as [msg Hmsg].
  exists msg. destruct (number_header_cases header Hh) as [-> | ->];
    unfold store_cell; cbn [String.eqb Ascii.eqb Bool.eqb orb PyStr.contains];
    now rewrite Hmsg.
Qed.

Lemma store_cell_returns (header text : string) (film_data : record) :
  (number_header header && over_digit_limit text)%bool = false ->
  store_cell header text film_data = Return (store_cell_or_absent header text film_data).
Proof.
  intro H.
  assert (Hret : exists film_data', store_cell header text film_data = Return film_data').
  { unfold store_cell. unfold number_header in H.
    destruct (String.eqb header "rank") eqn:E1.
    { cbn [orb andb] in H. destruct (parse_number_returns text H) as [o ->].
      cbn [bind]. eexists. reflexivity. }
    destruct (String.eqb header "title" || String.eqb header "film")%bool;
      [eexists; reflexivity|].
    destruct (PyStr.contains "gross" header || PyStr.contains "revenue" header)%bool;
      [eexists; reflexivity|].
    destruct (String.eqb header "year"); [eexists; reflexivity|].
    destruct (String.eqb header "peak"); [|eexists; reflexivity].
    cbn [orb andb] in H. destruct (parse_number_returns text H) as [o ->].
    cbn [bind]. eexists. reflexivity. }
  destruct Hret as [film_data' Hret]. unfold store_cell_or_absent. now rewrite Hret.
Qed.

Lemma fill_film_data_returns (headers : list string) (cells : html_row) (film_data : record) :
  row_over_limit headers cells = false ->
  fill_film_data headers cells film_data = Return (row_record headers cells film_data).
Proof.
  revert cells film_data. induction headers as [|h hs IH]; intros cells film_data H;
    [reflexivity|].
  destruct cells as [|c cs]; [reflexivity|].
  cbn [row_over_limit] in H. apply orb_false_iff in H. destruct H as [Hc Hrest].
  cbn [fill_film_data row_record]. rewrite (store_cell_returns _ _ _ Hc). cbn [bind].
  now apply IH.
Qed.

Lemma fill_film_data_raises (headers : list string) (cells : html_row) (film_data : record) :
  row_over_limit headers cells = true ->
  exists msg, fill_film_data headers cells film_data = Raise msg.
Proof.
  revert cells film_data. induction headers as [|h hs IH]; intros cells film_data H;
    [discriminate H|].
  destruct cells as [|c cs]; [discriminate H|].
  cbn [row_over_limit] in H. cbn [fill_film_data].
  destruct (store_cell h (cell_text c) film_data) as [msg | film_data'] eqn:E;
    cbn [bind]; [now exists msg|].
  apply orb_true_iff in H. destruct H as [H | H]; [|now apply IH].
  destruct (store_cell_raises h (cell_text c) film_data H) as [msg Hmsg]. congruence.
Qed.

Lemma parse_rows_accepted (headers : list string) (rows : list html_row) (films : list record) :
  table_over_limit headers rows = false ->
  parse_rows headers rows films = Return (films ++ accepted_rows headers rows)%list.
Proof.
  revert films. induction rows as [|cells rows IH]; intros films H.
  - cbn. now rewrite app_nil_r.
  - cbn [table_over_limit existsb] in H. apply orb_false_iff in H. destruct H as [Hc Hrest].
    cbn [parse_rows]. unfold accepted_rows in *. cbn [filter].
    destruct (Nat.leb 3 (List.length cells)) eqn:E.
    + cbn [andb] in Hc. rewrite (fill_film_data_returns _ _ _ Hc). cbn [bind map filter].
      destruct (has_title (row_record headers cells [])) eqn:E2; rewrite (IH _ Hrest).
      * now rewrite <- app_assoc.
      * reflexivity.
    + now apply IH.
Qed.

Lemma parse_rows_raises (headers : list string) (rows : list html_row) (films : list record) :
  table_over_limit headers rows = true ->
  exists msg, parse_rows headers rows films = Raise msg.
Proof.
  revert films. induction rows as [|cells rows IH]; intros films H; [discriminate H|].
  cbn [table_over_limit existsb] in H. cbn [parse_rows].
  destruct (Nat.leb 3 (List.length cells)) eqn:E; cbn [andb orb] in H; [|now apply IH].
  destruct (fill_film_data headers cells []) as [msg | film_data] eqn:Ef;
    cbn [bind]; [now exists msg|].
  apply orb_true_iff in H. destruct H as [H | H]; [|now apply IH].
  destruct (fill_film_data_raises headers cells [] H) as [msg Hmsg]. congruence.
Qed.

Lemma parse_films_table_cases (table : html_table) :
  _parse_films_table table
  = if table_over_limit (table_headers table) (tl table) then []
    else accepted_rows (table_headers table) (tl table).
Proof.
  unfold _parse_films_table.
  destruct (table_over_limit (table_headers table) (tl table)) eqn:E.
  - destruct (parse_rows_raises _ _ [] E) as [msg ->]. reflexivity.
  - now rewrite (parse_rows_accepted _ _ [] E).
Qed.

Lemma parse_films_table_accepted (table : html_table) (film_data : record) :
  In film_data (_parse_films_table table) ->
  In film_data (accepted_rows (table_headers table) (tl table)).
Proof.
  rewrite parse_films_table_cases.
  destruct (table_over_limit (table_headers table) (tl table)); [contradiction | auto].
Qed.

Lemma store_cell_title (header text : string) (film_data : record) :
  title_is_string film_data -> title_is_string (store_cell_or_absent header text film_data).
Proof.
  intros H v. unfold store_cell_or_absent, store_cell.
  repeat match goal with
         | |- context [if ?b then _ else _] => destruct b eqn:?
         end;
    try (destruct (_parse_number text) as [msg | o]; cbn [bind]);
    rewrite dict_get_set;
    match goal with
    | |- context [String.eqb "title" ?k] => destruct (String.eqb "title" k) eqn:Ek
    end;
    try (intro Hv; injection Hv as <-; eexists; reflexivity);
    try apply H;
    try discriminate Ek.
  all: apply String.eqb_eq in Ek; subst header; discriminate.
Qed.

Lemma row_record_title (headers : list string) (cells : html_row) (film_data : record) :
  title_is_string film_data -> title_is_string (row_record headers cells film_data).
Proof.
  revert cells film_data. induction headers as [|h hs IH]; intros cells film_data H.
  - exact H.
  - destruct cells as [|c cs]; [exact H|].
    simpl. apply IH. now apply store_cell_title.
Qed.

Lemma has_title_string (headers : list string) (cells : html_row) :
  has_title (row_record headers cells []) = true ->
  exists s, dict_get "title" (row_record headers cells []) = Some (CStr s) /\ s <> "".
Proof.
  unfold has_title.
  destruct (dict_get "title" (row_record headers cells [])) as [v|] eqn:E;
    [|discriminate].
  assert (H0 : title_is_string []) by (intros v0 Hv0; discriminate Hv0).
  destruct (row_record_title headers cells [] H0 v E) as [s ->].
  simpl. intro Hs. exists s. split; [reflexivity|].
  intros ->. discriminate.
Qed.





(** ** The field extractors *)

Lemma extract_revenue_step (v : cell) (rest : list cell) :
  extract_revenue_values (v :: rest)
  = if (is_candidate v && has_number v)%bool then scaled_number v
    else extract_revenue_values rest.
Proof.
  cbn [extract_revenue_values].
  unfold is_candidate, has_number, scaled_number, candidate_number.
  destruct (isna v); cbn [negb andb]; [reflexivity|].
  destruct (PyStr.contains_any revenue_keywords (PyStr.lower (revenue_text v)));
    cbn [andb]; [|reflexivity].
  destruct (PyStr.first_run is_numchar (revenue_text v)) as [number|]; [|reflexivity].
  destruct (parse_float number); reflexivity.
Qed.

Lemma extract_revenue_first_parsed (values : list cell) :
  extract_revenue_values values = first_parsed_candidate values.
Proof.
  induction values as [|v rest IH]; [reflexivity|].
  rewrite extract_revenue_step, IH. unfold first_parsed_candidate. cbn [find].
  destruct (is_candidate v && has_number v)%bool; reflexivity.
Qed.

Lemma scale_revenue_rule (text : string) (num : pyfloat) :
  (PyStr.contains "billion" (PyStr.lower text) = true -> scale_revenue text num = num)
  /\ (PyStr.contains "billion" (PyStr.lower text) = false ->
      PyStr.contains "million" (PyStr.lower text) = true ->
      scale_revenue text num = float_div1000 num)
  /\ (PyStr.contains "billion" (PyStr.lower text) = false ->
      PyStr.contains "million" (PyStr.lower text) = false ->
      float_gt num (float_of_int 1000) = true ->
      scale_revenue text num = float_div1000 num)
  /\ (PyStr.contains "billion" (PyStr.lower text) = false ->
      PyStr.contains "million" (PyStr.lower text) = false ->
      float_gt num (float_of_int 1000) = false ->
      scale_revenue text num = num).
Proof.
  unfold scale_revenue. repeat split; intros;
    repeat match goal with H : _ = _ |- _ => rewrite H; clear H end; reflexivity.
Qed.

Lemma float_div1000_value (x : pyfloat) : (float_div1000 x == x / 1000)%Q.
Proof. unfold float_div1000. apply Qred_correct. Qed.

(** C6 (as amended).  [_extract_revenue_billions] takes the first value
    that is a candidate (its text, commas and dollar signs removed, holds
    "billion", "gross" or "revenue" in any letter case) and whose first
    run of digits and dots parses as a number; candidates without such a
    run are passed over.  The number is returned as it is when the text
    holds "billion", divided by 1000 when it holds "million", divided by
    1000 when it exceeds 1000, and as it is otherwise; the result is
    absent when no candidate parses.  "$2.923 billion" gives 2.923, and
    "1,921" is no candidate, also next to a value that holds "gross". *)
Theorem revenue_of_first_parsed_candidate :
  (forall r : row, _extract_revenue_billions r = first_parsed_candidate (row_values r))
  /\ (forall (r : row) value,
        find is_candidate (row_values r) = Some value ->
        has_number value = true ->
        _extract_revenue_billions r = spec_extract_revenue_billions (row_values r))
  /\ (forall r : row,
        find is_candidate (row_values r) = None -> _extract_revenue_billions r = None)
  /\ (forall text num,
        (PyStr.contains "billion" (PyStr.lower text) = true ->
         scale_revenue text num = num)
        /\ (PyStr.contains "billion" (PyStr.lower text) = false ->
            PyStr.contains "million" (PyStr.lower text) = true ->
            scale_revenue text num = float_div1000 num)
        /\ (PyStr.contains "billion" (PyStr.lower text) = false ->
            PyStr.contains "million" (PyStr.lower text) = false ->
            float_gt num (float_of_int 1000) = true ->
            scale_revenue text num = float_div1000 num)
        /\ (PyStr.contains "billion" (PyStr.lower text) = false ->
            PyStr.contains "million" (PyStr.lower text) = false ->
            float_gt num (float_of_int 1000) = false ->
            scale_revenue text num = num))
  /\ (forall x, float_div1000 x == x / 1000)%Q
  /\ (forall field, _extract_revenue_billions [(field, CStr "$2.923 billion")]
                    = Some (2923 # 1000))
  /\ is_candidate (CStr "1,921") = false
  /\ (forall field, _extract_revenue_billions [(field, CStr "1,921")] = None)
  /\ _extract_revenue_billions [("note", CStr "gross"); ("sold", CStr "1,921")] = None.
Proof.
  assert (H1 : forall r : row,
             _extract_revenue_billions r = first_parsed_candidate (row_values r)).
  { intro r. apply extract_revenue_first_parsed. }
  split; [exact H1|]. split.
  { intros r value Hf Hn. rewrite H1.
    unfold first_parsed_candidate, spec_extract_revenue_billions. rewrite Hf.
    induction (row_values r) as [|v rest IH]; [discriminate|].
    cbn [find] in *. destruct (is_candidate v) eqn:Ec.
    - injection Hf as ->. now rewrite Hn.
    - now apply IH. }
  split.
  { intros r Hf. rewrite H1. unfold first_parsed_candidate.
    induction (row_values r) as [|v rest IH]; [reflexivity|].
    cbn [find] in *. destruct (is_candidate v) eqn:Ec; [discriminate|].
    now apply IH. }
  split; [apply scale_revenue_rule|].
  split; [apply float_div1000_value|].
  repeat split; intros; reflexivity.
Qed.

Lemma revenue_of_first_parsed_candidate_witness :
  _extract_revenue_billions [("worldwide_gross", CStr "Gross: $350 million")]
  = spec_extract_revenue_billions [CStr "Gross: $350 million"].
Proof.
  apply (proj1 (proj2 revenue_of_first_parsed_candidate)
           [("worldwide_gross", CStr "Gross: $350 million")]
           (CStr "Gross: $350 million")); reflexivity.
Defined.

(** C6 as stated fails: the first candidate of these rows, the title, has
    no digits (first row) or a run that [float] rejects (second row), and
    the code goes on to the gross instead of answering absent. *)
Lemma first_candidate_without_number_counterexample :
  (find is_candidate (row_values gross_anatomy) = Some (CStr "Gross Anatomy")
   /\ PyStr.first_run is_numchar (revenue_text (CStr "Gross Anatomy")) = None
   /\ spec_extract_revenue_billions (row_values gross_anatomy) = None
   /\ _extract_revenue_billions gross_anatomy = Some (2 # 1)
   /\ _extract_revenue_billions gross_anatomy
      <> spec_extract_revenue_billions (row_values gross_anatomy))
  /\ (find is_candidate (row_values dr_gross) = Some (CStr "Dr. Gross")
      /\ PyStr.first_run is_numchar (revenue_text (CStr "Dr. Gross")) = Some "."
      /\ parse_float "." = None
      /\ spec_extract_revenue_billions (row_values dr_gross) = None
      /\ _extract_revenue_billions dr_gross = Some (2 # 1)
      /\ _extract_revenue_billions dr_gross
         <> spec_extract_revenue_billions (row_values dr_gross)).
Proof.
  repeat split; try reflexivity; discriminate.
Qed.

(** ** The statistics *)

Lemma digit_val_range (c : ascii) :
  PyStr.is_digit c = true -> 0 <= PyStr.digit_val c <= 9.
Proof.
  unfold PyStr.is_digit, PyStr.between, PyStr.digit_val. intro H.
  apply andb_true_iff in H. destruct H as [H1 H2].
  apply Nat.leb_le in H1. apply Nat.leb_le in H2. lia.
Qed.

Lemma year_here_range (s : string) (y : Z) :
  PyStr.year_here s = Some y -> 1900 <= y <= 2099.
Proof.
  unfold PyStr.year_here.
  destruct s as [|a [|b [|c [|d rest]]]]; try discriminate.
  destruct ((Ascii.eqb a "1" && Ascii.eqb b "9") || (Ascii.eqb a "2" && Ascii.eqb b "0"))%bool
    eqn:Eab; [|discriminate].
  destruct (PyStr.is_digit c && PyStr.is_digit d)%bool eqn:Ecd; [|discriminate].
  apply andb_true_iff in Ecd. destruct Ecd as [Hc Hd].
  apply digit_val_range in Hc. apply digit_val_range in Hd.
  assert (Hy : PyStr.int_of_digits (String a (String b (String c (String d ""))))
               = 1000 * PyStr.digit_val a + 100 * PyStr.digit_val b
                 + 10 * PyStr.digit_val c + PyStr.digit_val d).
  { unfold PyStr.int_of_digits. cbn [PyStr.int_of_digits_acc]. ring. }
  assert (Hab : (PyStr.digit_val a = 1 /\ PyStr.digit_val b = 9)
                \/ (PyStr.digit_val a = 2 /\ PyStr.digit_val b = 0)).
  { apply orb_true_iff in Eab. destruct Eab as [E | E];
      apply andb_true_iff in E; destruct E as [Ea Eb];
      apply Ascii.eqb_eq in Ea; apply Ascii.eqb_eq in Eb; subst a b;
      [left | right]; split; reflexivity. }
  intro H.
  assert (Hyy : y = PyStr.int_of_digits (String a (String b (String c (String d ""))))).
  { destruct rest as [|e rest']; [congruence|].
    destruct (PyStr.is_word e); [discriminate | congruence]. }
  rewrite Hyy, Hy. lia.
Qed.

Lemma search_year_range (s : string) (prev_word : bool) (y : Z) :
  PyStr.search_year prev_word s = Some y -> 1900 <= y <= 2099.
Proof.
  revert prev_word. induction s as [|c t IH]; intro prev_word; [discriminate|].
  cbn [PyStr.search_year].
  destruct (if prev_word then None else PyStr.year_here (String c t)) as [y0|] eqn:E.
  - intro H. injection H as <-. destruct prev_word; [discriminate|].
    now apply year_here_range in E.
  - apply IH.
Qed.

Lemma extract_year_range (r : row) (y : Z) :
  _extract_year_from_row r = Some y -> 1900 <= y <= 2099.
Proof.
  unfold _extract_year_from_row.
  induction (row_values r) as [|v rest IH]; [discriminate|].
  cbn [extract_year_values]. destruct (isna v); [exact IH|].
  destruct (PyStr.search_year false (str_of_cell v)) as [y0|] eqn:E; [|exact IH].
  intro H. injection H as <-. now apply search_year_range in E.
Qed.

Lemma count_loop_filter (year : Z) (min_gross : pyfloat) (rows : list row) (count : Z) :
  count_loop year min_gross rows count
  = count + Z.of_nat (List.length (filter (counts_row year min_gross) rows)).
Proof.
  revert count. induction rows as [|r rows IH]; intro count.
  - simpl. lia.
  - cbn [count_loop filter]. rewrite IH.
    destruct (counts_row year min_gross r); cbn [List.length]; lia.
Qed.

Lemma count_films_filter (data : list record) (year : Z) (min_gross : pyfloat) :
  count_films_before_year data year min_gross
  = Z.of_nat (List.length (filter (counts_row year min_gross) (iterrows data))).
Proof.
  unfold count_films_before_year. destruct data as [|r data]; [reflexivity|].
  now rewrite count_loop_filter.
Qed.

Lemma filter_length_le {A : Type} (p q : A -> bool) (l : list A) :
  (forall x, p x = true -> q x = true) ->
  (List.length (filter p l) <= List.length (filter q l))%nat.
Proof.
  intro H. induction l as [|x l IH]; [apply le_n|].
  cbn [filter]. destruct (p x) eqn:Ep.
  - rewrite (H x Ep). cbn [List.length]. lia.
  - destruct (q x); cbn [List.length]; lia.
Qed.

(** The count never exceeds the number of rows with both fields present,
    and it agrees with the specification's count whenever the revenue
    bound is positive. *)
Lemma count_films_bounds (data : list record) (year : Z) (min_gross : pyfloat) :
  count_films_before_year data year min_gross
  <= Z.of_nat (List.length (filter both_present (iterrows data)))
  /\ count_films_before_year data year min_gross
     <= Z.of_nat (List.length (filter (qualifies_as_claimed year min_gross) (iterrows data)))
  /\ ((0 < min_gross)%Q ->
      count_films_before_year data year min_gross
      = Z.of_nat (List.length (filter (qualifies_as_claimed year min_gross) (iterrows data)))).
Proof.
  rewrite count_films_filter. split; [|split].
  - apply inj_le, filter_length_le. intro r.
    unfold counts_row, both_present.
    destruct (_extract_year_from_row r), (_extract_revenue_billions r); auto.
  - apply inj_le, filter_length_le. intro r.
    unfold counts_row, qualifies_as_claimed.
    destruct (_extract_year_from_row r), (_extract_revenue_billions r); auto.
    intro H. repeat (apply andb_true_iff in H; destruct H as [H ?]).
    apply andb_true_iff. now split.
  - intro Hpos. f_equal. f_equal. apply filter_ext. intro r.
    unfold counts_row, qualifies_as_claimed.
    destruct (_extract_year_from_row r) as [y|] eqn:Ey; [|reflexivity].
    destruct (_extract_revenue_billions r) as [rev|]; [|reflexivity].
    apply extract_year_range in Ey.
    assert (Hy : opt_int_truthy (Some y) = true).
    { simpl. apply negb_true_iff, Z.eqb_neq. lia. }
    rewrite Hy. cbn [andb].
    destruct (float_ge rev min_gross) eqn:Eg.
    + assert (Hr : opt_float_truthy (Some rev) = true).
      { unfold opt_float_truthy, float_truthy, float_ge in *.
        apply Qle_bool_iff in Eg. apply negb_true_iff.
        destruct (Qeq_bool rev 0) eqn:E0; [|reflexivity].
        apply Qeq_bool_iff in E0. rewrite E0 in Eg.
        exfalso. apply (Qlt_not_le _ _ Hpos Eg). }
      rewrite Hr. reflexivity.
    + now rewrite !andb_false_r.
Qed.

(** C2 (the code at the failing input).  A film of 1999 whose gross reads
    "$0 billion" has year 1999 < 2000 and revenue 0 >= 0, both present,
    yet [count_films_before_year] with bounds 2000 and 0 counts no film:
    the test [film_year and revenue] takes the revenue 0.0 for a missing
    one. *)
Theorem zero_gross_film_is_not_counted :
  iterrows [zero_gross_film] = [zero_gross_film]
  /\ _extract_year_from_row zero_gross_film = Some 1999
  /\ _extract_revenue_billions zero_gross_film = Some 0%Q
  /\ qualifies_as_claimed 2000 0%Q zero_gross_film = true
  /\ List.length (filter (qualifies_as_claimed 2000 0%Q) (iterrows [zero_gross_film])) = 1%nat
  /\ count_films_before_year [zero_gross_film] 2000 0%Q = 0.
Proof.
  repeat split; reflexivity.
Qed.

(** C5.  On the fallback set and the bound 1.5,
    [find_earliest_film_over_amount] answers "Titanic".  All ten fallback
    films have a year and a revenue of at least 1.5; their years are
    1997 for Titanic and later for the others. *)
Theorem earliest_fallback_film_is_titanic :
  find_earliest_film_over_amount _get_sample_films_data (3 # 2) = "Titanic"
  /\ map extracted_fields (filter (over_amount (3 # 2)) (iterrows _get_sample_films_data))
     = [ ("Avatar", Some 2009, Some (2923 # 1000));
         ("Avengers: Endgame", Some 2019, Some (1399 # 500));
         ("Avatar: The Way of Water", Some 2022, Some (58 # 25));
         ("Titanic", Some 1997, Some (2257 # 1000));
         ("Star Wars: The Force Awakens", Some 2015, Some (2071 # 1000));
         ("Avengers: Infinity War", Some 2018, Some (256 # 125));
         ("Spider-Man: No Way Home", Some 2021, Some (1921 # 1000));
         ("Jurassic World", Some 2015, Some (209 # 125));
         ("The Lion King", Some 2019, Some (1657 # 1000));
         ("The Avengers", Some 2012, Some (1519 # 1000)) ]
  /\ forallb (fun r => match _extract_year_from_row r with
                       | Some y => 1997 <=? y
                       | None => false
                       end)
       (filter (over_amount (3 # 2)) (iterrows _get_sample_films_data)) = true.
Proof.
  repeat split; vm_compute; reflexivity.
Qed.

(** Column lookup: an exact match, whatever the letter case, comes
    before any partial one. *)
Lemma find_column_exact (columns : list string) (target col : string) :
  find (fun c => String.eqb (PyStr.lower c) (PyStr.lower target)) columns = Some col ->
  _find_column columns target = Some col.
Proof.
  unfold _find_column. now intros ->.
Qed.

(** The correlation is 0.0 without data and when a column is not found
    (or is the column with the empty name); the numeric kernel is not
    consulted then. *)
Lemma correlation_unresolved
    (to_numeric_str : string -> option pyfloat)
    (corr_round6 : list (pyfloat * pyfloat) -> pyfloat)
    (data : list record) (col1 col2 : string) :
  data = []
  \/ column_falsy (_find_column (frame_columns data []) col1) = true
  \/ column_falsy (_find_column (frame_columns data []) col2) = true ->
  calculate_correlation to_numeric_str corr_round6 data col1 col2 = 0%Q.
Proof.
  unfold calculate_correlation. intros [-> | H]; [reflexivity|].
  destruct data as [|r data]; [reflexivity|].
  destruct H as [H | H]; rewrite H; [reflexivity|].
  now rewrite orb_true_r.
Qed.

(** C7 (the code at the failing input).  In a frame whose first column
    has the empty name and which has no column named "rank", "Rank" is
    resolved to that column, the empty name being contained in every
    target, and "Peak" to "peak"; the two columns give the numeric pairs
    (1, 1) and (2, 2), whose Pearson coefficient is 1.  Yet
    [calculate_correlation] answers 0.0, whatever the numeric kernels:
    the test [not x_col] takes the column found for a missing one. *)
Theorem nameless_column_is_not_correlated
    (to_numeric_str : string -> option pyfloat)
    (corr_round6 : list (pyfloat * pyfloat) -> pyfloat) :
  _find_column (frame_columns nameless_rank_data []) "Rank" = Some ""
  /\ _find_column (frame_columns nameless_rank_data []) "Peak" = Some "peak"
  /\ numeric_pairs to_numeric_str (iterrows nameless_rank_data) "" "peak"
     = [(1, 1); (2, 2)]%Q
  /\ correlation_as_claimed to_numeric_str nameless_rank_data "Rank" "Peak" = 1%Q
  /\ calculate_correlation to_numeric_str corr_round6 nameless_rank_data "Rank" "Peak"
     = 0%Q.
Proof.
  repeat split; reflexivity.
Qed.

(** ** The router *)

Section RouterFacts.
Variable w : world.
Variable to_numeric_str : string -> option pyfloat.
Variable corr_round6 : list (pyfloat * pyfloat) -> pyfloat.
Variable chart : list (pyfloat * pyfloat) -> string -> string -> string.

Lemma classify_films (d : string) :
  classify d = Films ->
  (PyStr.contains "wikipedia" (PyStr.lower d)
   && PyStr.contains "film" (PyStr.lower d))%bool = true.
Proof.
  unfold classify.
  destruct (PyStr.contains "wikipedia" (PyStr.lower d)
            && PyStr.contains "film" (PyStr.lower d))%bool; [reflexivity|].
  destruct (PyStr.contains "database" (PyStr.lower d)); discriminate.
Qed.

Lemma classify_database (d : string) :
  classify d = Database ->
  (PyStr.contains "wikipedia" (PyStr.lower d)
   && PyStr.contains "film" (PyStr.lower d))%bool = false
  /\ PyStr.contains "database" (PyStr.lower d) = true.
Proof.
  unfold classify.
  destruct (PyStr.contains "wikipedia" (PyStr.lower d)
            && PyStr.contains "film" (PyStr.lower d))%bool; [discriminate|].
  destruct (PyStr.contains "database" (PyStr.lower d)); [auto | discriminate].
Qed.

Lemma classify_generic (d : string) :
  classify d = Generic ->
  (PyStr.contains "wikipedia" (PyStr.lower d)
   && PyStr.contains "film" (PyStr.lower d))%bool = false
  /\ PyStr.contains "database" (PyStr.lower d) = false.
Proof.
  unfold classify.
  destruct (PyStr.contains "wikipedia" (PyStr.lower d)
            && PyStr.contains "film" (PyStr.lower d))%bool; [discriminate|].
  destruct (PyStr.contains "database" (PyStr.lower d)); [discriminate | auto].
Qed.

Lemma route_of_body (task_data : json) (results : list result) :
  process_analysis_body w to_numeric_str corr_round6 chart task_data = Return results ->
  process_analysis_task w to_numeric_str corr_round6 chart task_data = Return results.
Proof.
  unfold process_analysis_task. now intros ->.
Qed.

Lemma films_body (t : Task) (scraped : list record) :
  classify (task t) = Films ->
  scrape_wikipedia_films w None = Return scraped ->
  process_analysis_body w to_numeric_str corr_round6 chart (task_json t) =
  Return match questions t with
         | [] => [RStr "No results generated"]
         | _ => map (film_answer to_numeric_str corr_round6 chart scraped) (questions t)
         end.
Proof.
  intros Hc Hs. apply classify_films in Hc.
  unfold process_analysis_body, task_json. simpl.
  rewrite Hc, Hs. simpl.
  rewrite for_append_strings. simpl.
  destruct (questions t); reflexivity.
Qed.

Lemma database_task_results (t : Task) :
  process_database_task (task_json t) = Return (map database_answer (questions t)).
Proof.
  unfold process_database_task, task_json. simpl.
  now rewrite for_append_strings.
Qed.

Lemma generic_task_results (t : Task) :
  process_generic_task (task_json t) =
  Return match questions t with
         | [] => [RStr "Generic analysis completed"]
         | _ => map generic_answer (questions t)
         end.
Proof.
  unfold process_generic_task, task_json. simpl.
  destruct (questions t) as [|q qs] eqn:E; [reflexivity|].
  simpl map at 1. cbv beta iota.
  change (JStr q :: map JStr qs) with (map JStr (q :: qs)).
  rewrite for_append_strings. reflexivity.
Qed.

Lemma database_body (t : Task) :
  classify (task t) = Database ->
  process_analysis_body w to_numeric_str corr_round6 chart (task_json t) =
  Return match questions t with
         | [] => [RStr "No results generated"]
         | _ => map database_answer (questions t)
         end.
Proof.
  intros Hc. apply classify_database in Hc. destruct Hc as [H1 H2].
  unfold process_analysis_body.
  change (py_get (task_json t) "task" (JStr "")) with (@Return json (JStr (task t))).
  change (py_get (task_json t) "questions" (JArr []))
    with (@Return json (JArr (map JStr (questions t)))).
  simpl bind. rewrite H1, H2, database_task_results. simpl.
  destruct (questions t); reflexivity.
Qed.

Lemma generic_body (t : Task) :
  classify (task t) = Generic ->
  process_analysis_body w to_numeric_str corr_round6 chart (task_json t) =
  Return match questions t with
         | [] => [RStr "Generic analysis completed"]
         | _ => map generic_answer (questions t)
         end.
Proof.
  intros Hc. apply classify_generic in Hc. destruct Hc as [H1 H2].
  unfold process_analysis_body.
  change (py_get (task_json t) "task" (JStr "")) with (@Return json (JStr (task t))).
  change (py_get (task_json t) "questions" (JArr []))
    with (@Return json (JArr (map JStr (questions t)))).
  simpl bind. rewrite H1, H2, generic_task_results. simpl.
  destruct (questions t); reflexivity.
Qed.

(** The loop stops at the first question that is not a string. *)
Lemma for_append_non_string (f : string -> result) (items : list json) (acc : list result) :
  (exists x, In x items /\ forall s, x <> JStr s) ->
  exists y, In y items /\ (forall s, y <> JStr s)
            /\ for_append (on_string f) items acc = Raise (attribute_error y "lower").
Proof.
  revert acc. induction items as [|x items IH]; intros acc [z [Hin Hz]].
  - contradiction.
  - destruct x as [| b | n | q | s | l | m];
      try (eexists; split; [left; reflexivity | split; [discriminate | reflexivity]]).
    destruct Hin as [<- | Hin]; [now elim (Hz s)|].
    destruct (IH (acc ++ [f s])%list (ex_intro _ z (conj Hin Hz))) as [y [Hy [Hns E]]].
    exists y. split; [now right|]. split; [exact Hns|].
    simpl. exact E.
Qed.
End RouterFacts.

(** C1 (as amended).  For a task of the films domain the router returns
    normally; with at least one question the result has exactly as many
    elements as there are questions and its i-th element is the answer to
    the i-th question, computed on the records scraped once; with no
    question the result is the one-element sequence
    ["No results generated"]. *)
Theorem films_one_answer_per_question
    (w : world) (to_numeric_str : string -> option pyfloat)
    (corr_round6 : list (pyfloat * pyfloat) -> pyfloat)
    (chart : list (pyfloat * pyfloat) -> string -> string -> string) (t : Task) :
  classify (task t) = Films ->
  exists scraped results,
    scrape_wikipedia_films w None = Return scraped
    /\ process_analysis_task w to_numeric_str corr_round6 chart (task_json t)
       = Return results
    /\ (questions t = [] -> results = [RStr "No results generated"])
    /\ (questions t <> [] ->
        List.length results = List.length (questions t)
        /\ forall i q,
            nth_error (questions t) i = Some q ->
            nth_error results i
            = Some (film_answer to_numeric_str corr_round6 chart scraped q)).
Proof.
  intro Hc. destruct (scrape_returns w None) as [scraped [Hs _]].
  exists scraped. eexists. split; [exact Hs|]. split.
  - apply route_of_body. apply films_body; eassumption.
  - destruct (questions t) as [|q0 qs].
    + split; [reflexivity | congruence].
    + split; [discriminate|]. intros _. split.
      * apply length_map.
      * intros i q Hq. now apply map_nth_error.
Qed.

Lemma films_one_answer_per_question_witness :
  exists scraped results,
    scrape_wikipedia_films world_online None = Return scraped
    /\ process_analysis_task world_online no_string_numbers flat_corr blank_chart
         (task_json (films_task ["Which is the earliest film that grossed over $1.5 bn?";
                                 "Draw a scatterplot of Rank and Peak"]))
       = Return results
    /\ List.length results = 2%nat.
Proof.
  destruct (films_one_answer_per_question world_online no_string_numbers flat_corr
              blank_chart
              (films_task ["Which is the earliest film that grossed over $1.5 bn?";
                           "Draw a scatterplot of Rank and Peak"]) eq_refl)
    as [scraped [results [Hs [Hr [_ Hn]]]]].
  exists scraped, results. split; [exact Hs|]. split; [exact Hr|].
  apply Hn. discriminate.
Defined.

(** C1 as stated fails for N = 0: a films task without questions gets a
    result of one element, not of none. *)
Lemma films_no_question_counterexample :
  exists results,
    process_analysis_task world_offline no_string_numbers flat_corr blank_chart
      (task_json (films_task [])) = Return results
    /\ List.length results <> List.length (questions (films_task [])).
Proof.
  exists [RStr "No results generated"]. split; [reflexivity | discriminate].
Qed.

(** The rules of the films branch are tried in order and the first that
    matches answers; "how many", "earliest film", "correlation",
    "scatterplot" and "plot" are looked for in the lower-cased question,
    "$2", "before 2000" and "$1.5" in the question as typed. *)
Lemma film_answer_priority
    (to_numeric_str : string -> option pyfloat)
    (corr_round6 : list (pyfloat * pyfloat) -> pyfloat)
    (chart : list (pyfloat * pyfloat) -> string -> string -> string)
    (scraped : list record) (q : string) (c e : bool) :
  c = (PyStr.contains "how many" (PyStr.lower q) && PyStr.contains "$2" q
       && PyStr.contains "before 2000" q)%bool ->
  e = (PyStr.contains "earliest film" (PyStr.lower q) && PyStr.contains "$1.5" q)%bool ->
  (c = true ->
   film_answer to_numeric_str corr_round6 chart scraped q
   = RInt (count_films_before_year scraped 2000 (2 # 1)))
  /\ (c = false -> e = true ->
      film_answer to_numeric_str corr_round6 chart scraped q
      = RStr (find_earliest_film_over_amount scraped (3 # 2)))
  /\ (c = false -> e = false -> PyStr.contains "correlation" (PyStr.lower q) = true ->
      film_answer to_numeric_str corr_round6 chart scraped q
      = RFloat (calculate_correlation to_numeric_str corr_round6 scraped "Rank" "Peak"))
  /\ (c = false -> e = false -> PyStr.contains "correlation" (PyStr.lower q) = false ->
      PyStr.contains "plot" (PyStr.lower q) = true ->
      film_answer to_numeric_str corr_round6 chart scraped q
      = RStr (chart (prepare_chart_data to_numeric_str scraped "Rank" "Peak")
                "Rank" "Peak"))
  /\ (c = false -> e = false -> PyStr.contains "correlation" (PyStr.lower q) = false ->
      PyStr.contains "scatterplot" (PyStr.lower q) = false ->
      PyStr.contains "plot" (PyStr.lower q) = false ->
      film_answer to_numeric_str corr_round6 chart scraped q
      = RStr "Question not recognized").
Proof.
  intros -> ->. unfold film_answer.
  repeat split; intros;
    repeat match goal with H : _ = _ |- _ => rewrite H; clear H end;
    rewrite ?orb_true_r; reflexivity.
Qed.

(** C4 (the code at the failing input).  The count question in capital
    letters is not recognized, because "before 2000" is looked for in the
    question as typed; the same question in small letters is answered
    with the count. *)
Theorem shouted_count_question_not_recognized
    (w : world) (to_numeric_str : string -> option pyfloat)
    (corr_round6 : list (pyfloat * pyfloat) -> pyfloat)
    (chart : list (pyfloat * pyfloat) -> string -> string -> string)
    (scraped : list record) :
  film_answer to_numeric_str corr_round6 chart scraped shouted_question
  = RStr "Question not recognized"
  /\ film_answer to_numeric_str corr_round6 chart scraped (PyStr.lower shouted_question)
     = RInt (count_films_before_year scraped 2000 (2 # 1))
  /\ process_analysis_task w to_numeric_str corr_round6 chart
       (task_json (films_task [shouted_question]))
     = Return [RStr "Question not recognized"].
Proof.
  assert (Hany : forall records,
             film_answer to_numeric_str corr_round6 chart records shouted_question
             = RStr "Question not recognized"
             /\ film_answer to_numeric_str corr_round6 chart records
                  (PyStr.lower shouted_question)
                = RInt (count_films_before_year records 2000 (2 # 1))).
  2:{ destruct (Hany scraped) as [Ha Hb]. split; [exact Ha|]. split; [exact Hb|].
      destruct (scrape_returns w None) as [records [Hs _]].
      apply route_of_body.
      rewrite (films_body w to_numeric_str corr_round6 chart
                 (films_task [shouted_question]) records eq_refl Hs).
      cbn [films_task questions map]. now rewrite (proj1 (Hany records)). }
  intro records.
  unfold film_answer.
  change (PyStr.contains "before 2000" shouted_question) with false.
  change (PyStr.contains "how many" (PyStr.lower shouted_question)) with true.
  change (PyStr.contains "$2" shouted_question) with true.
  change (PyStr.contains "earliest film" (PyStr.lower shouted_question)) with false.
  change (PyStr.contains "correlation" (PyStr.lower shouted_question)) with false.
  change (PyStr.contains "scatterplot" (PyStr.lower shouted_question)) with false.
  change (PyStr.contains "plot" (PyStr.lower shouted_question)) with false.
  change (PyStr.contains "how many" (PyStr.lower (PyStr.lower shouted_question))) with true.
  change (PyStr.contains "$2" (PyStr.lower shouted_question)) with true.
  change (PyStr.contains "before 2000" (PyStr.lower shouted_question)) with true.
  split; reflexivity.
Qed.

(** C9.  Whatever JSON value the router is given, it returns a result
    sequence and raises nothing; when a statement inside its [try] raises
    with message [msg], the result is the single element
    ["Error processing task: " ++ msg].  This happens for a task that is
    not an object, for a description that is not a string, and in the
    films domain as soon as one question is not a string. *)
Theorem router_converts_exceptions
    (w : world) (to_numeric_str : string -> option pyfloat)
    (corr_round6 : list (pyfloat * pyfloat) -> pyfloat)
    (chart : list (pyfloat * pyfloat) -> string -> string -> string)
    (task_data : json) :
  (exists results,
      process_analysis_task w to_numeric_str corr_round6 chart task_data = Return results)
  /\ (forall msg,
        process_analysis_body w to_numeric_str corr_round6 chart task_data = Raise msg ->
        process_analysis_task w to_numeric_str corr_round6 chart task_data
        = Return [RStr ("Error processing task: " ++ msg)])
  /\ ((forall members, task_data <> JObj members) ->
      process_analysis_task w to_numeric_str corr_round6 chart task_data
      = Return [RStr ("Error processing task: " ++ attribute_error task_data "get")])
  /\ (forall members description,
        task_data = JObj members ->
        dict_get "task" members = Some description ->
        (forall s, description <> JStr s) ->
        process_analysis_task w to_numeric_str corr_round6 chart task_data
        = Return [RStr ("Error processing task: " ++ attribute_error description "lower")])
  /\ (forall d items,
        classify d = Films ->
        task_data = JObj [("task", JStr d); ("questions", JArr items)] ->
        (exists x, In x items /\ forall s, x <> JStr s) ->
        exists y, In y items /\ (forall s, y <> JStr s)
          /\ process_analysis_task w to_numeric_str corr_round6 chart task_data
             = Return [RStr ("Error processing task: " ++ attribute_error y "lower")]).
Proof.
  split; [|split; [|split; [|split]]].
  - unfold process_analysis_task. apply try_except_returns.
    intro msg. eexists. reflexivity.
  - intros msg E. unfold process_analysis_task. now rewrite E.
  - intro H. destruct task_data; try reflexivity. now elim (H members).
  - intros members description -> Hd Hns.
    unfold process_analysis_task, process_analysis_body. simpl. rewrite Hd.
    destruct description; try reflexivity. now elim (Hns s).
  - intros d items Hc -> Hex.
    destruct (scrape_returns w None) as [scraped [Hs _]].
    destruct (for_append_non_string
                (film_answer to_numeric_str corr_round6 chart scraped) items [] Hex)
      as [y [Hy [Hns E]]].
    exists y. split; [exact Hy|]. split; [exact Hns|].
    apply classify_films in Hc.
    unfold process_analysis_task, process_analysis_body. simpl.
    rewrite Hc, Hs. simpl. rewrite E. reflexivity.
Qed.

Lemma router_converts_exceptions_witness :
  process_analysis_task world_offline no_string_numbers flat_corr blank_chart
    (JObj [("task", JStr "Wikipedia films"); ("questions", JArr [JStr "plot"; JInt 7])])
  = Return [RStr "Error processing task: 'int' object has no attribute 'lower'"].
Proof.
  apply (proj1 (proj2 (router_converts_exceptions world_offline no_string_numbers
                         flat_corr blank_chart _))).
  reflexivity.
Defined.

(** The keyword tables of the two placeholder processors. *)
Lemma database_answer_table (q : string) :
  (PyStr.contains "count" (PyStr.lower q) = true -> database_answer q = RInt 42)
  /\ (PyStr.contains "count" (PyStr.lower q) = false ->
      PyStr.contains "regression" (PyStr.lower q) = true ->
      database_answer q = RFloat (3 # 4))
  /\ (PyStr.contains "count" (PyStr.lower q) = false ->
      PyStr.contains "regression" (PyStr.lower q) = false ->
      PyStr.contains "plot" (PyStr.lower q) = true ->
      database_answer q = RStr PNG_1x1)
  /\ (PyStr.contains "count" (PyStr.lower q) = false ->
      PyStr.contains "regression" (PyStr.lower q) = false ->
      PyStr.contains "plot" (PyStr.lower q) = false ->
      database_answer q = RStr "Database analysis result").
Proof.
  unfold database_answer. repeat split; intros;
    repeat match goal with H : _ = _ |- _ => rewrite H; clear H end; reflexivity.
Qed.

Lemma generic_answer_table (q : string) :
  (PyStr.contains "how many" (PyStr.lower q) = true -> generic_answer q = RInt 1)
  /\ (PyStr.contains "how many" (PyStr.lower q) = false ->
      (PyStr.contains "which" (PyStr.lower q) = true
       \/ PyStr.contains "what" (PyStr.lower q) = true) ->
      generic_answer q = RStr "Sample answer")
  /\ (PyStr.contains "how many" (PyStr.lower q) = false ->
      PyStr.contains "which" (PyStr.lower q) = false ->
      PyStr.contains "what" (PyStr.lower q) = false ->
      PyStr.contains "correlation" (PyStr.lower q) = true ->
      generic_answer q = RFloat (1 # 2))
  /\ (PyStr.contains "how many" (PyStr.lower q) = false ->
      PyStr.contains "which" (PyStr.lower q) = false ->
      PyStr.contains "what" (PyStr.lower q) = false ->
      PyStr.contains "correlation" (PyStr.lower q) = false ->
      (PyStr.contains "plot" (PyStr.lower q) = true
       \/ PyStr.contains "chart" (PyStr.lower q) = true) ->
      generic_answer q = RStr PNG_1x1)
  /\ (PyStr.contains "how many" (PyStr.lower q) = false ->
      PyStr.contains "which" (PyStr.lower q) = false ->
      PyStr.contains "what" (PyStr.lower q) = false ->
      PyStr.contains "correlation" (PyStr.lower q) = false ->
      PyStr.contains "plot" (PyStr.lower q) = false ->
      PyStr.contains "chart" (PyStr.lower q) = false ->
      generic_answer q = RStr "Analysis result").
Proof.
  unfold generic_answer. repeat split; intros;
    repeat match goal with
           | H : _ \/ _ |- _ => apply orb_true_iff in H
           | H : _ = _ |- _ => rewrite H; clear H
           end; reflexivity.
Qed.

(** C10.  For a well-formed task of the database domain
    [process_database_task] returns one answer per question, in question
    order, also for no question at all, and the router passes the answers
    on unless there are none, in which case it returns
    ["No results generated"].  For a well-formed task of the generic
    domain [process_generic_task] and the router return one answer per
    question in question order, and ["Generic analysis completed"] when
    there is no question.  The answers follow the two keyword tables,
    tried in order on the lower-cased question. *)
Theorem placeholder_domains_answer_by_keyword
    (w : world) (to_numeric_str : string -> option pyfloat)
    (corr_round6 : list (pyfloat * pyfloat) -> pyfloat)
    (chart : list (pyfloat * pyfloat) -> string -> string -> string) (t : Task) :
  (classify (task t) = Database ->
   process_database_task (task_json t) = Return (map database_answer (questions t))
   /\ (questions t <> [] ->
       process_analysis_task w to_numeric_str corr_round6 chart (task_json t)
       = Return (map database_answer (questions t)))
   /\ (questions t = [] ->
       process_database_task (task_json t) = Return []
       /\ process_analysis_task w to_numeric_str corr_round6 chart (task_json t)
          = Return [RStr "No results generated"]))
  /\ (classify (task t) = Generic ->
      (questions t <> [] ->
       process_generic_task (task_json t) = Return (map generic_answer (questions t))
       /\ process_analysis_task w to_numeric_str corr_round6 chart (task_json t)
          = Return (map generic_answer (questions t)))
      /\ (questions t = [] ->
          process_generic_task (task_json t) = Return [RStr "Generic analysis completed"]
          /\ process_analysis_task w to_numeric_str corr_round6 chart (task_json t)
             = Return [RStr "Generic analysis completed"]))
  /\ (forall q,
        In (database_answer q)
           [RInt 42; RFloat (3 # 4); RStr PNG_1x1; RStr "Database analysis result"]
        /\ In (generic_answer q)
              [RInt 1; RStr "Sample answer"; RFloat (1 # 2); RStr PNG_1x1;
               RStr "Analysis result"])
  /\ (forall q,
        (PyStr.contains "count" (PyStr.lower q) = true -> database_answer q = RInt 42)
        /\ (PyStr.contains "count" (PyStr.lower q) = false ->
            PyStr.contains "regression" (PyStr.lower q) = true ->
            database_answer q = RFloat (3 # 4))
        /\ (PyStr.contains "count" (PyStr.lower q) = false ->
            PyStr.contains "regression" (PyStr.lower q) = false ->
            PyStr.contains "plot" (PyStr.lower q) = true ->
            database_answer q = RStr PNG_1x1)
        /\ (PyStr.contains "count" (PyStr.lower q) = false ->
            PyStr.contains "regression" (PyStr.lower q) = false ->
            PyStr.contains "plot" (PyStr.lower q) = false ->
            database_answer q = RStr "Database analysis result"))
  /\ (forall q,
        (PyStr.contains "how many" (PyStr.lower q) = true -> generic_answer q = RInt 1)
        /\ (PyStr.contains "how many" (PyStr.lower q) = false ->
            (PyStr.contains "which" (PyStr.lower q) = true
             \/ PyStr.contains "what" (PyStr.lower q) = true) ->
            generic_answer q = RStr "Sample answer")
        /\ (PyStr.contains "how many" (PyStr.lower q) = false ->
            PyStr.contains "which" (PyStr.lower q) = false ->
            PyStr.contains "what" (PyStr.lower q) = false ->
            PyStr.contains "correlation" (PyStr.lower q) = true ->
            generic_answer q = RFloat (1 # 2))
        /\ (PyStr.contains "how many" (PyStr.lower q) = false ->
            PyStr.contains "which" (PyStr.lower q) = false ->
            PyStr.contains "what" (PyStr.lower q) = false ->
            PyStr.contains "correlation" (PyStr.lower q) = false ->
            (PyStr.contains "plot" (PyStr.lower q) = true
             \/ PyStr.contains "chart" (PyStr.lower q) = true) ->
            generic_answer q = RStr PNG_1x1)
        /\ (PyStr.contains "how many" (PyStr.lower q) = false ->
            PyStr.contains "which" (PyStr.lower q) = false ->
            PyStr.contains "what" (PyStr.lower q) = false ->
            PyStr.contains "correlation" (PyStr.lower q) = false ->
            PyStr.contains "plot" (PyStr.lower q) = false ->
            PyStr.contains "chart" (PyStr.lower q) = false ->
            generic_answer q = RStr "Analysis result")).
Proof.
  split; [|split; [|split; [|split]]].
  - intro Hc. split; [apply database_task_results|].
    pose proof (database_body w to_numeric_str corr_round6 chart t Hc) as Hb.
    apply route_of_body in Hb. split.
    + intro Hne. rewrite Hb. destruct (questions t); [congruence | reflexivity].
    + intro He. rewrite Hb, database_task_results, He. split; reflexivity.
  - intro Hc.
    pose proof (generic_body w to_numeric_str corr_round6 chart t Hc) as Hb.
    apply route_of_body in Hb. rewrite Hb, generic_task_results. split.
    + intro Hne. destruct (questions t); [congruence | split; reflexivity].
    + intro He. rewrite He. split; reflexivity.
  - intro q. split.
    + unfold database_answer.
      destruct (PyStr.contains "count" (PyStr.lower q)); [simpl; tauto|].
      destruct (PyStr.contains "regression" (PyStr.lower q)); [simpl; tauto|].
      destruct (PyStr.contains "plot" (PyStr.lower q)); simpl; tauto.
    + unfold generic_answer.
      destruct (PyStr.contains "how many" (PyStr.lower q)); [simpl; tauto|].
      destruct (PyStr.contains "which" (PyStr.lower q) || PyStr.contains "what" (PyStr.lower q))%bool;
        [simpl; tauto|].
      destruct (PyStr.contains "correlation" (PyStr.lower q)); [simpl; tauto|].
      destruct (PyStr.contains "plot" (PyStr.lower q) || PyStr.contains "chart" (PyStr.lower q))%bool;
        simpl; tauto.
  - apply database_answer_table.
  - apply generic_answer_table.
Qed.

Lemma placeholder_domains_answer_by_keyword_witness :
  process_analysis_task world_offline no_string_numbers flat_corr blank_chart
    (task_json (database_task ["Count the cases"; "Plot the delay by year"]))
  = Return [RInt 42; RStr PNG_1x1]
  /\ process_analysis_task world_offline no_string_numbers flat_corr blank_chart
       (task_json (generic_task []))
     = Return [RStr "Generic analysis completed"].
Proof.
  split.
  - apply (proj1 (proj2 (proj1 (placeholder_domains_answer_by_keyword world_offline
             no_string_numbers flat_corr blank_chart
             (database_task ["Count the cases"; "Plot the delay by year"])) eq_refl))).
    discriminate.
  - apply (proj2 (proj2 (proj1 (proj2 (placeholder_domains_answer_by_keyword
             world_offline no_string_numbers flat_corr blank_chart (generic_task [])))
             eq_refl) eq_refl)).
Defined.

(** * Further properties *)

(** ** Extracted years, numbers and revenues *)

Lemma extract_year_source (values : list cell) (y : Z) :
  extract_year_values values = Some y ->
  exists v, In v values /\ isna v = false /\ PyStr.search_year false (str_of_cell v) = Some y.
Proof.
  induction values as [|v rest IH]; [discriminate|].
  cbn [extract_year_values]. destruct (isna v) eqn:En.
  - intro H. destruct (IH H) as [v' [Hin H']]. exists v'. split; [now right | exact H'].
  - destruct (PyStr.search_year false (str_of_cell v)) as [y0|] eqn:E.
    + intro H. injection H as <-. exists v. split; [now left | now split].
    + intro H. destruct (IH H) as [v' [Hin H']]. exists v'. split; [now right | exact H'].
Qed.

(** X1.  A year that [_extract_year_from_row] or [_parse_year] returns
    lies between 1900 and 2099, and the one from a row is found in one of
    its cells that is not missing. *)
Theorem extracted_year_in_range :
  (forall (r : row) y, _extract_year_from_row r = Some y ->
     1900 <= y <= 2099
     /\ exists v, In v (row_values r) /\ isna v = false
                  /\ PyStr.search_year false (str_of_cell v) = Some y)
  /\ (forall text y, _parse_year text = Some y -> 1900 <= y <= 2099).
Proof.
  split.
  - intros r y H. split; [now apply extract_year_range in H|].
    now apply extract_year_source.
  - intros text y H. now apply search_year_range in H.
Qed.

Lemma extracted_year_in_range_witness :
  1900 <= 1997 <= 2099.
Proof.
  apply (proj1 extracted_year_in_range
           [("title", CStr "Titanic (1997 film)"); ("rank", CInt 4)] 1997).
  reflexivity.
Defined.

Lemma int_of_digits_acc_nonneg (s : string) (acc : Z) :
  0 <= acc -> 0 <= PyStr.int_of_digits_acc acc s.
Proof.
  revert acc. induction s as [|c t IH]; intros acc H; [exact H|].
  cbn [PyStr.int_of_digits_acc]. apply IH. unfold PyStr.digit_val. lia.
Qed.

Lemma first_run_none (p : ascii -> bool) (s : string) :
  PyStr.first_run p s = None <-> any_char p s = false.
Proof.
  induction s as [|c t IH]; [split; reflexivity|].
  cbn [PyStr.first_run any_char]. destruct (p c); cbn [orb].
  - split; discriminate.
  - exact IH.
Qed.

Lemma parse_number_nonneg (text : string) (n : Z) :
  _parse_number text = Return (Some n) -> 0 <= n.
Proof.
  unfold _parse_number, py_int.
  destruct (PyStr.first_run PyStr.is_digit text) as [digits|]; [|discriminate].
  destruct (int_max_str_digits <? Z.of_nat (String.length digits)); cbn [bind];
    [discriminate|].
  intro H. injection H as <-. now apply int_of_digits_acc_nonneg.
Qed.

(** X2.  [_parse_number] never returns a negative number: it returns none
    exactly when the text has no digit, and a minus sign in front of the
    digits is ignored.  It raises exactly when the first run of digits is
    longer than [int] converts. *)
Theorem parse_number_nonnegative :
  (forall text n, _parse_number text = Return (Some n) -> 0 <= n)
  /\ (forall text,
        _parse_number text = Return None <-> any_char PyStr.is_digit text = false)
  /\ (forall text, _parse_number (String "-" text) = _parse_number text)
  /\ (forall text,
        (exists msg, _parse_number text = Raise msg) <-> over_digit_limit text = true).
Proof.
  split; [|split; [|split]].
  - apply parse_number_nonneg.
  - intro text. rewrite <- first_run_none. unfold _parse_number, py_int.
    destruct (PyStr.first_run PyStr.is_digit text) as [digits|];
      [|split; reflexivity].
    destruct (int_max_str_digits <? Z.of_nat (String.length digits)); cbn [bind];
      split; discriminate.
  - reflexivity.
  - intro text. split; [|apply parse_number_raises].
    intros [msg Hmsg]. destruct (over_digit_limit text) eqn:E; [reflexivity|].
    destruct (parse_number_returns text E) as [o Ho]. congruence.
Qed.

Lemma parse_number_nonnegative_witness : 0 <= 12.
Proof.
  apply (proj1 parse_number_nonnegative "-12th place" 12). reflexivity.
Defined.

Lemma decimal_nonneg (i f : string) : (0 <= decimal i f)%Q.
Proof.
  unfold decimal. rewrite Qred_correct. unfold Qle. simpl.
  rewrite Z.mul_1_r. now apply int_of_digits_acc_nonneg.
Qed.

Lemma parse_float_nonneg (s : string) (x : pyfloat) :
  parse_float s = Some x -> (0 <= x)%Q.
Proof.
  unfold parse_float. destruct (split_dot s) as [i [f|]].
  - destruct (all_digits i && all_digits f && negb (String.eqb (i ++ f) ""))%bool;
      [|discriminate].
    intro H. injection H as <-. apply decimal_nonneg.
  - destruct (all_digits i && negb (String.eqb i ""))%bool; [|discriminate].
    intro H. injection H as <-. apply decimal_nonneg.
Qed.

Lemma float_div1000_nonneg (x : pyfloat) : (0 <= x)%Q -> (0 <= float_div1000 x)%Q.
Proof.
  intro H. unfold float_div1000. rewrite Qred_correct.
  apply Qle_shift_div_l; [reflexivity|]. now rewrite Qmult_0_l.
Qed.

Lemma scale_revenue_nonneg (text : string) (x : pyfloat) :
  (0 <= x)%Q -> (0 <= scale_revenue text x)%Q.
Proof.
  intro H. unfold scale_revenue.
  destruct (PyStr.contains "billion" (PyStr.lower text)); [exact H|].
  destruct (PyStr.contains "million" (PyStr.lower text)); [now apply float_div1000_nonneg|].
  destruct (float_gt x (float_of_int 1000)); [now apply float_div1000_nonneg | exact H].
Qed.

(** X3.  A revenue that [_extract_revenue_billions] returns is never
    negative (signs are not read), and it is the scaled number of a value
    of the row that holds a revenue keyword. *)
Theorem extracted_revenue_nonnegative (r : row) (x : pyfloat) :
  _extract_revenue_billions r = Some x ->
  (0 <= x)%Q
  /\ exists v, In v (row_values r) /\ is_candidate v = true
               /\ scaled_number v = Some x.
Proof.
  unfold _extract_revenue_billions.
  induction (row_values r) as [|v rest IH]; [discriminate|].
  rewrite extract_revenue_step.
  destruct (is_candidate v && has_number v)%bool eqn:E.
  - intro H. apply andb_true_iff in E. destruct E as [Ec En]. split.
    + unfold scaled_number in H. destruct (candidate_number v) as [num|] eqn:Ecn; [|discriminate].
      injection H as <-. apply scale_revenue_nonneg.
      unfold candidate_number in Ecn.
      destruct (PyStr.first_run is_numchar (revenue_text v)); [|discriminate].
      now apply parse_float_nonneg in Ecn.
    + exists v. split; [now left | now split].
  - intro H. destruct (IH H) as [Hx [v' [Hin H']]]. split; [exact Hx|].
    exists v'. split; [now right | exact H'].
Qed.

Lemma extracted_revenue_nonnegative_witness : (0 <= 7 # 20)%Q.
Proof.
  apply (extracted_revenue_nonnegative
           [("worldwide_gross", CStr "Gross: -$350 million")] (7 # 20)).
  reflexivity.
Defined.

(** ** Counting and the earliest film *)

Lemma count_films_range (data : list record) (year : Z) (min_gross : pyfloat) :
  0 <= count_films_before_year data year min_gross <= Z.of_nat (List.length data).
Proof.
  rewrite count_films_filter. split; [lia|].
  apply inj_le. etransitivity; [apply List.filter_length_le|].
  unfold iterrows. now rewrite length_map.
Qed.

(** X4.  The count of [count_films_before_year] lies between 0 and the
    number of records, and it does not go down when the year bound is
    raised or the revenue bound lowered. *)
Theorem count_films_monotone
    (data : list record) (year year' : Z) (min_gross min_gross' : pyfloat) :
  year <= year' -> (min_gross' <= min_gross)%Q ->
  0 <= count_films_before_year data year min_gross
    <= count_films_before_year data year' min_gross'
  /\ count_films_before_year data year' min_gross' <= Z.of_nat (List.length data).
Proof.
  intros Hy Hg. split; [split|]; [apply count_films_range | | apply count_films_range].
  rewrite !count_films_filter.
  - apply inj_le, filter_length_le. intro r. unfold counts_row.
    destruct (_extract_year_from_row r) as [y|]; [|discriminate].
    destruct (_extract_revenue_billions r) as [rev|]; [|discriminate].
    intro H. repeat (apply andb_true_iff in H; destruct H as [H ?]).
    repeat (apply andb_true_iff; split); try assumption.
    + apply Z.ltb_lt. apply Z.ltb_lt in H1. lia.
    + unfold float_ge in *. apply Qle_bool_iff. apply Qle_bool_iff in H0.
      now apply Qle_trans with min_gross.
Qed.

Lemma count_films_monotone_witness :
  0 <= count_films_before_year _get_sample_films_data 2000 (2 # 1)
    <= count_films_before_year _get_sample_films_data 2010 (3 # 2).
Proof.
  apply (count_films_monotone _get_sample_films_data 2000 2010 (2 # 1) (3 # 2)).
  - lia.
  - discriminate.
Defined.

(** X5.  For a positive revenue bound [count_films_before_year] is
    exactly the number of rows whose year is present and below the year
    bound and whose revenue is present and at least the revenue bound. *)
Theorem count_films_exact_for_positive_bound
    (data : list record) (year : Z) (min_gross : pyfloat) :
  (0 < min_gross)%Q ->
  count_films_before_year data year min_gross
  = Z.of_nat (List.length (filter (qualifies_as_claimed year min_gross) (iterrows data))).
Proof.
  intro H. now apply count_films_bounds.
Qed.

Lemma count_films_exact_for_positive_bound_witness :
  count_films_before_year _get_sample_films_data 2000 (2 # 1)
  = Z.of_nat (List.length (filter (qualifies_as_claimed 2000 (2 # 1))
                             (iterrows _get_sample_films_data))).
Proof.
  apply count_films_exact_for_positive_bound. reflexivity.
Defined.

Lemma earliest_loop_spec (min_gross : pyfloat) (rows : list row)
    (earliest_year : option Z) (earliest_title : string) :
  (earliest_loop min_gross rows earliest_year earliest_title = earliest_title
   /\ forall r, In r rows -> earliest_ok min_gross r = true ->
                match earliest_year with
                | Some e => e <= year_of r
                | None => False
                end)
  \/ (exists r, picks_earliest min_gross rows r
                /\ match earliest_year with
                   | Some e => year_of r < e
                   | None => True
                   end
                /\ earliest_loop min_gross rows earliest_year earliest_title
                   = _extract_title_from_row r).
Proof.
  revert earliest_year earliest_title.
  induction rows as [|r0 rest IH]; intros ey et.
  - left. split; [reflexivity | contradiction].
  - assert (Hskip :
      earliest_loop min_gross (r0 :: rest) ey et = earliest_loop min_gross rest ey et ->
      (earliest_ok min_gross r0 = true ->
       match ey with Some e => e <= year_of r0 | None => False end) ->
      (earliest_loop min_gross (r0 :: rest) ey et = et
       /\ forall r, In r (r0 :: rest) -> earliest_ok min_gross r = true ->
                    match ey with Some e => e <= year_of r | None => False end)
      \/ (exists r, picks_earliest min_gross (r0 :: rest) r
                    /\ match ey with Some e => year_of r < e | None => True end
                    /\ earliest_loop min_gross (r0 :: rest) ey et
                       = _extract_title_from_row r)).
    { intros Hstep H0. rewrite Hstep.
      destruct (IH ey et) as [[Hres Hall] | [r [[pre [post [Hrows [Hok [Hpre Hpost]]]]] [Hlt Hres]]]].
      - left. split; [exact Hres|]. intros r [<- | Hin]; [exact H0 | now apply Hall].
      - right. exists r. split; [|split; [exact Hlt | exact Hres]].
        exists (r0 :: pre), post. split; [now rewrite Hrows|]. split; [exact Hok|].
        split; [|exact Hpost].
        intros r' [<- | Hin] Hok'; [|now apply Hpre].
        specialize (H0 Hok'). destruct ey as [e|]; [lia | contradiction]. }
    assert (Htake : forall y0,
      year_of r0 = y0 -> earliest_ok min_gross r0 = true ->
      match ey with Some e => y0 < e | None => True end ->
      earliest_loop min_gross (r0 :: rest) ey et
      = earliest_loop min_gross rest (Some y0) (_extract_title_from_row r0) ->
      exists r, picks_earliest min_gross (r0 :: rest) r
                /\ match ey with Some e => year_of r < e | None => True end
                /\ earliest_loop min_gross (r0 :: rest) ey et
                   = _extract_title_from_row r).
    { intros y0 Hy0 Hok0 Hlt0 Hstep. rewrite Hstep.
      destruct (IH (Some y0) (_extract_title_from_row r0))
        as [[Hres Hall] | [r [[pre [post [Hrows [Hok [Hpre Hpost]]]]] [Hlt Hres]]]].
      - exists r0. split; [|split; [now rewrite Hy0 | exact Hres]].
        exists [], rest. split; [reflexivity|]. split; [exact Hok0|].
        split; [contradiction|]. intros r' Hin Hok'. rewrite Hy0. now apply Hall.
      - exists r. split; [|split; [|exact Hres]].
        + exists (r0 :: pre), post. split; [now rewrite Hrows|]. split; [exact Hok|].
          split; [|exact Hpost].
          intros r' [<- | Hin] Hok'; [now rewrite Hy0 | now apply Hpre].
        + destruct ey as [e|]; [lia | exact I]. }
    unfold earliest_ok, year_of in Hskip, Htake.
    cbn [earliest_loop] in *.
    destruct (_extract_year_from_row r0) as [y|] eqn:Ey;
      [|apply Hskip; [reflexivity | discriminate]].
    destruct (_extract_revenue_billions r0) as [rev|] eqn:Er;
      [|apply Hskip; [reflexivity | discriminate]].
    destruct (opt_int_truthy (Some y) && opt_float_truthy (Some rev)
              && float_ge rev min_gross)%bool eqn:Eok;
      [|apply Hskip; [reflexivity | discriminate]].
    destruct ey as [e|].
    + destruct (y <? e) eqn:Elt.
      * right. apply (Htake y eq_refl eq_refl); [now apply Z.ltb_lt | reflexivity].
      * apply Hskip; [reflexivity|]. intros _. now apply Z.ltb_ge.
    + right. now apply (Htake y eq_refl eq_refl).
Qed.

(** X6.  [find_earliest_film_over_amount] answers "No data available"
    without data and "Unknown" when no row passes the test; otherwise it
    answers the title (or "Unknown" for an empty title) of the first row
    of least year among the rows that pass.  It never answers the empty
    string. *)
Theorem find_earliest_picks_first_minimum (data : list record) (min_gross : pyfloat) :
  (data = [] -> find_earliest_film_over_amount data min_gross = "No data available")
  /\ (data <> [] ->
      ((forall r, In r (iterrows data) -> earliest_ok min_gross r = false)
       /\ find_earliest_film_over_amount data min_gross = "Unknown")
      \/ (exists r, picks_earliest min_gross (iterrows data) r
                    /\ find_earliest_film_over_amount data min_gross = title_or_unknown r))
  /\ find_earliest_film_over_amount data min_gross <> "".
Proof.
  split; [now intros ->|].
  assert (H : data <> [] ->
      ((forall r, In r (iterrows data) -> earliest_ok min_gross r = false)
       /\ find_earliest_film_over_amount data min_gross = "Unknown")
      \/ (exists r, picks_earliest min_gross (iterrows data) r
                    /\ find_earliest_film_over_amount data min_gross = title_or_unknown r)).
  { intro Hne. unfold find_earliest_film_over_amount.
    destruct data as [|d0 data']; [congruence|].
    destruct (earliest_loop_spec min_gross (iterrows (d0 :: data')) None "Unknown")
      as [[Hres Hall] | [r [Hp [_ Hres]]]].
    - left. split.
      + intros r Hin. destruct (earliest_ok min_gross r) eqn:E; [|reflexivity].
        elim (Hall r Hin E).
      + now rewrite Hres.
    - right. exists r. split; [exact Hp|]. rewrite Hres. reflexivity. }
  split; [exact H|].
  destruct data as [|d0 data']; [discriminate|].
  unfold find_earliest_film_over_amount.
  destruct (String.eqb (earliest_loop min_gross (iterrows (d0 :: data')) None "Unknown") "")
    eqn:E; [discriminate|].
  now apply String.eqb_neq in E.
Qed.

Lemma find_earliest_picks_first_minimum_witness :
  find_earliest_film_over_amount [] (3 # 2) = "No data available".
Proof.
  apply (proj1 (find_earliest_picks_first_minimum [] (3 # 2))). reflexivity.
Defined.

(** ** Column lookup and chart points *)

Lemma prefix_refl (s : string) : String.prefix s s = true.
Proof.
  induction s as [|c t IH]; [reflexivity|].
  simpl. destruct (ascii_dec c c); [exact IH | congruence].
Qed.

Lemma contains_refl (s : string) : PyStr.contains s s = true.
Proof.
  destruct s; unfold PyStr.contains; fold PyStr.contains; now rewrite prefix_refl.
Qed.

Lemma exact_is_partial (target col : string) :
  exact_match target col = true -> partial_match target col = true.
Proof.
  unfold exact_match, partial_match. intro H. apply String.eqb_eq in H.
  rewrite H, contains_refl. reflexivity.
Qed.

(** X7.  A column that [_find_column] returns is one of the columns and
    contains the target or is contained in it, letter case apart; it
    returns none exactly when no column does; a column equal to the
    target, letter case apart, is preferred to any other. *)
Theorem find_column_sound_and_complete (columns : list string) (target : string) :
  (forall col, _find_column columns target = Some col ->
     In col columns /\ partial_match target col = true)
  /\ (_find_column columns target = None <->
      forall col, In col columns -> partial_match target col = false)
  /\ (forall c, In c columns -> exact_match target c = true ->
      exists col, _find_column columns target = Some col
                  /\ exact_match target col = true)
  /\ (forall col, _find_column columns target = Some col ->
      exact_match target col = false ->
      forall c, In c columns -> exact_match target c = false).
Proof.
  unfold _find_column.
  change (fun col : string => String.eqb (PyStr.lower col) (PyStr.lower target))
    with (exact_match target).
  change (fun col : string =>
            (PyStr.contains (PyStr.lower target) (PyStr.lower col)
             || PyStr.contains (PyStr.lower col) (PyStr.lower target))%bool)
    with (partial_match target).
  destruct (find (exact_match target) columns) as [c0|] eqn:Ee.
  - apply find_some in Ee. destruct Ee as [Hin He].
    split; [|split; [|split]].
    + intros col H. injection H as <-. split; [exact Hin | now apply exact_is_partial].
    + split; [discriminate|]. intro H. apply exact_is_partial in He.
      rewrite (H c0 Hin) in He. discriminate.
    + intros c _ _. now exists c0.
    + intros col H Hne. injection H as <-. congruence.
  - pose proof (find_none _ _ Ee) as Hnone.
    split; [|split; [|split]].
    + intros col H. apply find_some in H. exact H.
    + split.
      * intros H col Hin. exact (find_none _ _ H col Hin).
      * intro H. destruct (find (partial_match target) columns) as [c|] eqn:Ep;
          [|reflexivity].
        apply find_some in Ep. destruct Ep as [Hin Hp]. rewrite (H c Hin) in Hp.
        discriminate.
    + intros c Hin He. rewrite (Hnone c Hin) in He. discriminate.
    + intros col _ _ c Hin. now apply Hnone.
Qed.

Lemma find_column_sound_and_complete_witness :
  In "peak" ["rank"; "title"; "peak"] /\ partial_match "Peak" "peak" = true.
Proof.
  apply (proj1 (find_column_sound_and_complete ["rank"; "title"; "peak"] "Peak") "peak").
  reflexivity.
Defined.

Lemma numeric_pairs_from_rows (tn : string -> option pyfloat) (rows : list row)
    (x y : string) (a b : pyfloat) :
  In (a, b) (numeric_pairs tn rows x y) ->
  exists r, In r rows /\ to_numeric tn (row_get r x) = Some a
            /\ to_numeric tn (row_get r y) = Some b.
Proof.
  induction rows as [|r rest IH]; [contradiction|].
  cbn [numeric_pairs].
  destruct (to_numeric tn (row_get r x)) as [a0|] eqn:Ea;
    [destruct (to_numeric tn (row_get r y)) as [b0|] eqn:Eb|].
  - intros [H | H].
    + injection H as <- <-. exists r. split; [now left | now split].
    + destruct (IH H) as [r' [Hin H']]. exists r'. split; [now right | exact H'].
  - intro H. destruct (IH H) as [r' [Hin H']]. exists r'. split; [now right | exact H'].
  - intro H. destruct (IH H) as [r' [Hin H']]. exists r'. split; [now right | exact H'].
Qed.

Lemma numeric_pairs_length (tn : string -> option pyfloat) (rows : list row) (x y : string) :
  (List.length (numeric_pairs tn rows x y) <= List.length rows)%nat.
Proof.
  induction rows as [|r rest IH]; [apply le_n|].
  cbn [numeric_pairs].
  destruct (to_numeric tn (row_get r x)); [destruct (to_numeric tn (row_get r y))|];
    cbn [List.length]; lia.
Qed.

(** X8.  [prepare_chart_data] gives at most one point per record, none
    when a column is not found, and each point holds the two numbers of
    one row of the frame in the two columns found. *)
Theorem chart_points_come_from_rows
    (tn : string -> option pyfloat) (data : list record) (x_col y_col : string) :
  (List.length (prepare_chart_data tn data x_col y_col) <= List.length data)%nat
  /\ (column_falsy (_find_column (frame_columns data []) x_col) = true
      \/ column_falsy (_find_column (frame_columns data []) y_col) = true ->
      prepare_chart_data tn data x_col y_col = [])
  /\ (forall a b, In (a, b) (prepare_chart_data tn data x_col y_col) ->
      exists r x y,
        In r (iterrows data)
        /\ _find_column (frame_columns data []) x_col = Some x
        /\ _find_column (frame_columns data []) y_col = Some y
        /\ to_numeric tn (row_get r x) = Some a
        /\ to_numeric tn (row_get r y) = Some b).
Proof.
  unfold prepare_chart_data. destruct data as [|d0 data'].
  - split; [apply le_n|]. split; [reflexivity | contradiction].
  - set (data := d0 :: data').
    destruct (column_falsy (_find_column (frame_columns data []) x_col)
              || column_falsy (_find_column (frame_columns data []) y_col))%bool eqn:E.
    + split; [apply Nat.le_0_l|]. split; [reflexivity | contradiction].
    + apply orb_false_iff in E. destruct E as [E1 E2].
      destruct (_find_column (frame_columns data []) x_col) as [x|]; [|discriminate].
      destruct (_find_column (frame_columns data []) y_col) as [y|]; [|discriminate].
      split; [|split].
      * etransitivity; [apply numeric_pairs_length|]. unfold iterrows.
        now rewrite length_map.
      * intros [H | H]; congruence.
      * intros a b Hin. apply numeric_pairs_from_rows in Hin.
        destruct Hin as [r [Hr [Ha Hb]]]. now exists r, x, y.
Qed.

Lemma chart_points_come_from_rows_witness :
  prepare_chart_data no_string_numbers _get_sample_films_data "Rank" "Budget" = [].
Proof.
  apply (proj1 (proj2 (chart_points_come_from_rows no_string_numbers
                         _get_sample_films_data "Rank" "Budget"))).
  right. reflexivity.
Defined.

(** ** Cleaned titles *)

Section Delimiters.
Variables op cl : ascii.
Hypothesis op_cl : op <> cl.
Hypothesis op_nl : op <> newline.
Hypothesis cl_nl : cl <> newline.

Lemma pair_scan_mono (s : string) (b b' : bool) :
  (b' = true -> b = true) ->
  pair_scan op cl b s = false -> pair_scan op cl b' s = false.
Proof.
  revert b b'. induction s as [|c t IH]; intros b b' Hb; [reflexivity|].
  cbn [pair_scan]. destruct (Ascii.eqb c newline); [now apply IH|].
  destruct b'; [rewrite (Hb eq_refl)|].
  - destruct (Ascii.eqb c cl); cbn [andb orb]; [discriminate | now apply IH].
  - cbn [andb]. destruct (b && Ascii.eqb c cl)%bool; [discriminate|].
    apply IH. cbn [orb]. intros ->. apply orb_true_r.
Qed.

Lemma line_sub_refl (s : string) : line_sub s s.
Proof. induction s; constructor; assumption. Qed.

Lemma line_sub_no_pair (s' s : string) :
  line_sub s' s -> forall b, pair_scan op cl b s = false -> pair_scan op cl b s' = false.
Proof.
  induction 1 as [|c s' s _ IH|c s' s Hc _ IH]; intro b; [reflexivity| |].
  - cbn [pair_scan]. destruct (Ascii.eqb c newline); [apply IH|].
    destruct (b && Ascii.eqb c cl)%bool; [discriminate | apply IH].
  - cbn [pair_scan]. apply Ascii.eqb_neq in Hc. rewrite Hc.
    destruct (b && Ascii.eqb c cl)%bool; [discriminate|].
    intro H. apply IH. revert H. apply pair_scan_mono. intros ->. reflexivity.
Qed.

Lemma line_sub_drop_buf (buf : list ascii) (s' s : string) :
  no_newline buf -> line_sub s' s -> line_sub s' (PyStr.rev_append buf s).
Proof.
  revert s. induction buf as [|c buf IH]; intros s Hb H; [exact H|].
  cbn [PyStr.rev_append]. apply IH.
  - intros d Hd. apply Hb. now right.
  - apply line_sub_drop; [apply Hb; now left | exact H].
Qed.

Lemma line_sub_keep_buf (buf : list ascii) (s' s : string) :
  line_sub s' s -> line_sub (PyStr.rev_append buf s') (PyStr.rev_append buf s).
Proof.
  revert s' s. induction buf as [|c buf IH]; intros s' s H; [exact H|].
  cbn [PyStr.rev_append]. apply IH. now apply line_sub_keep.
Qed.

Lemma sub_delimited_line_sub (s : string) :
  line_sub (PyStr.sub_delimited op cl None s) s
  /\ forall buf, no_newline buf ->
       line_sub (PyStr.sub_delimited op cl (Some buf) s) (PyStr.rev_append buf s).
Proof.
  induction s as [|c t [IHn IHs]].
  - split; [constructor|]. intros buf _. apply line_sub_refl.
  - split.
    + cbn [PyStr.sub_delimited]. destruct (Ascii.eqb c op) eqn:E.
      * apply Ascii.eqb_eq in E. subst c.
        apply (IHs [op]). intros d [<- | []]. exact op_nl.
      * now apply line_sub_keep.
    + intros buf Hb. cbn [PyStr.sub_delimited].
      destruct (Ascii.eqb c cl) eqn:Ecl.
      * apply Ascii.eqb_eq in Ecl. subst c.
        apply line_sub_drop_buf; [exact Hb|]. now apply line_sub_drop.
      * destruct (Ascii.eqb c "010") eqn:Enl.
        -- apply line_sub_keep_buf. now apply line_sub_keep.
        -- apply (IHs (c :: buf)). intros d [<- | Hd]; [|now apply Hb].
           now apply Ascii.eqb_neq in Enl.
Qed.

Lemma pair_scan_quiet_buf (buf : list ascii) (tail : string) (r : bool) :
  quiet cl buf ->
  (forall b, pair_scan op cl b tail = r) ->
  forall b, pair_scan op cl b (PyStr.rev_append buf tail) = r.
Proof.
  revert tail. induction buf as [|c buf IH]; intros tail Hq Ht; [exact Ht|].
  cbn [PyStr.rev_append]. apply IH.
  - intros d Hd. apply Hq. now right.
  - intro b. cbn [pair_scan]. destruct (Hq c (or_introl eq_refl)) as [Hnl Hcl].
    apply Ascii.eqb_neq in Hnl. apply Ascii.eqb_neq in Hcl. rewrite Hnl, Hcl.
    rewrite andb_false_r. apply Ht.
Qed.

Lemma sub_delimited_no_pair (s : string) :
  pair_scan op cl false (PyStr.sub_delimited op cl None s) = false
  /\ forall buf, quiet cl buf ->
       pair_scan op cl false (PyStr.sub_delimited op cl (Some buf) s) = false.
Proof.
  induction s as [|c t [IHn IHs]].
  - split; [reflexivity|]. intros buf Hq. cbn [PyStr.sub_delimited].
    now apply pair_scan_quiet_buf.
  - split.
    + cbn [PyStr.sub_delimited]. destruct (Ascii.eqb c op) eqn:E.
      * apply Ascii.eqb_eq in E. subst c. apply IHs.
        intros d [<- | []]. now split.
      * cbn [pair_scan andb orb]. rewrite E.
        destruct (Ascii.eqb c newline); exact IHn.
    + intros buf Hq. cbn [PyStr.sub_delimited].
      destruct (Ascii.eqb c cl) eqn:Ecl; [exact IHn|].
      destruct (Ascii.eqb c "010") eqn:Enl.
      * apply pair_scan_quiet_buf; [exact Hq|].
        intro b. cbn [pair_scan]. unfold newline. rewrite Enl. exact IHn.
      * apply IHs. intros d [<- | Hd]; [|now apply Hq].
        split; [now apply Ascii.eqb_neq in Enl | now apply Ascii.eqb_neq in Ecl].
Qed.

Lemma sub_delimited_fixed (s : string) :
  (pair_scan op cl false s = false -> PyStr.sub_delimited op cl None s = s)
  /\ (forall buf, pair_scan op cl true s = false ->
        PyStr.sub_delimited op cl (Some buf) s = PyStr.rev_append buf s).
Proof.
  induction s as [|c t [IHn IHs]]; [split; reflexivity|].
  split.
  - cbn [pair_scan PyStr.sub_delimited andb orb].
    destruct (Ascii.eqb c op) eqn:E.
    + apply Ascii.eqb_eq in E. subst c.
      apply Ascii.eqb_neq in op_nl. rewrite op_nl.
      intro H. now rewrite (IHs [op] H).
    + destruct (Ascii.eqb c newline); intro H; now rewrite IHn.
  - intros buf. cbn [pair_scan PyStr.sub_delimited andb orb].
    destruct (Ascii.eqb c cl) eqn:Ecl.
    + apply Ascii.eqb_eq in Ecl. subst c.
      apply Ascii.eqb_neq in cl_nl. rewrite cl_nl. discriminate.
    + unfold newline. destruct (Ascii.eqb c "010") eqn:Enl.
      * intro H. now rewrite IHn.
      * intro H. now rewrite (IHs (c :: buf) H).
Qed.

Lemma pair_scan_suffix (p s : string) (b : bool) :
  pair_scan op cl b (p ++ s) = false -> pair_scan op cl false s = false.
Proof.
  revert b. induction p as [|c p IH]; intro b.
  - cbn [append]. apply pair_scan_mono. discriminate.
  - cbn [append pair_scan]. destruct (Ascii.eqb c newline); [apply IH|].
    destruct (b && Ascii.eqb c cl)%bool; [discriminate | apply IH].
Qed.

Lemma pair_scan_prefix (p s : string) (b : bool) :
  pair_scan op cl b (p ++ s) = false -> pair_scan op cl b p = false.
Proof.
  revert b. induction p as [|c p IH]; intro b; [reflexivity|].
  cbn [append pair_scan]. destruct (Ascii.eqb c newline); [apply IH|].
  destruct (b && Ascii.eqb c cl)%bool; [discriminate | apply IH].
Qed.
End Delimiters.

Lemma lstrip_suffix (s : string) : exists p, s = p ++ PyStr.lstrip s.
Proof.
  induction s as [|c t [p IH]]; [now exists ""|].
  cbn [PyStr.lstrip]. destruct (PyStr.is_space c).
  - exists (String c p). cbn [append]. now rewrite <- IH.
  - now exists "".
Qed.

Lemma rstrip_prefix (s : string) : exists q, s = PyStr.rstrip s ++ q.
Proof.
  induction s as [|c t [q IH]]; [now exists ""|].
  cbn [PyStr.rstrip]. destruct (PyStr.rstrip t) as [|d t'] eqn:E.
  - destruct (PyStr.is_space c).
    + now exists (String c t).
    + exists t. reflexivity.
  - exists q. simpl in *. congruence.
Qed.

Lemma strip_no_pair (op cl : ascii) (s : string) :
  pair_scan op cl false s = false -> pair_scan op cl false (PyStr.strip s) = false.
Proof.
  intro H. unfold PyStr.strip.
  destruct (lstrip_suffix s) as [p Hp]. rewrite Hp in H.
  apply pair_scan_suffix in H.
  destruct (rstrip_prefix (PyStr.lstrip s)) as [q Hq]. rewrite Hq in H.
  now apply pair_scan_prefix in H.
Qed.

Lemma lstrip_start (s : string) : starts_with_space (PyStr.lstrip s) = false.
Proof.
  induction s as [|c t IH]; [reflexivity|].
  cbn [PyStr.lstrip]. destruct (PyStr.is_space c) eqn:E; [exact IH | exact E].
Qed.

Lemma rstrip_start (s : string) :
  starts_with_space s = false -> starts_with_space (PyStr.rstrip s) = false.
Proof.
  destruct s as [|c t]; [reflexivity|].
  cbn [PyStr.rstrip starts_with_space]. intro H.
  destruct (PyStr.rstrip t); [rewrite H; exact H | exact H].
Qed.

Lemma rstrip_end (s : string) : ends_with_space (PyStr.rstrip s) = false.
Proof.
  induction s as [|c t IH]; [reflexivity|].
  cbn [PyStr.rstrip]. destruct (PyStr.rstrip t) as [|d t'] eqn:E.
  - destruct (PyStr.is_space c) eqn:Ec; [reflexivity | exact Ec].
  - exact IH.
Qed.

Lemma lstrip_fixed (s : string) : starts_with_space s = false -> PyStr.lstrip s = s.
Proof.
  destruct s as [|c t]; [reflexivity|]. cbn [starts_with_space PyStr.lstrip].
  now intros ->.
Qed.

Lemma rstrip_fixed (s : string) : ends_with_space s = false -> PyStr.rstrip s = s.
Proof.
  induction s as [|c t IH]; [reflexivity|].
  cbn [PyStr.rstrip]. destruct t as [|d t'].
  - cbn [ends_with_space PyStr.rstrip]. now intros ->.
  - intro H. rewrite IH; [reflexivity | exact H].
Qed.

Lemma clean_title_clean (title : string) :
  pair_scan "[" "]" false (_clean_film_title title) = false
  /\ pair_scan "(" ")" false (_clean_film_title title) = false
  /\ starts_with_space (_clean_film_title title) = false
  /\ ends_with_space (_clean_film_title title) = false
  /\ _clean_film_title (_clean_film_title title) = _clean_film_title title.
Proof.
  assert (Hb : pair_scan "[" "]" false (clean_title title) = false).
  { unfold clean_title. apply strip_no_pair.
    apply (line_sub_no_pair "[" "]") with
      (s := PyStr.sub_delimited "[" "]" None title).
    - apply sub_delimited_line_sub; discriminate.
    - apply sub_delimited_no_pair; discriminate. }
  assert (Hp : pair_scan "(" ")" false (clean_title title) = false).
  { unfold clean_title. apply strip_no_pair.
    apply sub_delimited_no_pair; discriminate. }
  assert (Hs : starts_with_space (clean_title title) = false).
  { unfold clean_title, PyStr.strip. apply rstrip_start, lstrip_start. }
  assert (He : ends_with_space (clean_title title) = false).
  { unfold clean_title, PyStr.strip. apply rstrip_end. }
  unfold _clean_film_title. repeat split; try assumption.
  unfold clean_title at 1.
  rewrite (proj1 (sub_delimited_fixed "[" "]" ltac:(discriminate) ltac:(discriminate)
                    (clean_title title)) Hb).
  rewrite (proj1 (sub_delimited_fixed "(" ")" ltac:(discriminate) ltac:(discriminate)
                    (clean_title title)) Hp).
  unfold PyStr.strip. rewrite (lstrip_fixed _ Hs). now apply rstrip_fixed.
Qed.

(** X9.  A title cleaned by [_clean_film_title] holds no bracketed and no
    parenthesized stretch on any of its lines, neither starts nor ends
    with white space, and cleaning it again changes nothing. *)
Theorem cleaned_title_is_clean (title : string) :
  pair_scan "[" "]" false (_clean_film_title title) = false
  /\ pair_scan "(" ")" false (_clean_film_title title) = false
  /\ starts_with_space (_clean_film_title title) = false
  /\ ends_with_space (_clean_film_title title) = false
  /\ _clean_film_title (_clean_film_title title) = _clean_film_title title.
Proof. apply clean_title_clean. Qed.

(** ** Header names and the schema of the normalizer *)

Lemma lower_char_ident (c : ascii) :
  (PyStr.is_word (PyStr.lower_char c) || PyStr.is_space (PyStr.lower_char c))%bool = true ->
  PyStr.is_space (PyStr.lower_char c) = false ->
  is_ident_char (PyStr.lower_char c) = true.
Proof.
  destruct c as [[] [] [] [] [] [] [] []]; vm_compute; intros; congruence.
Qed.

Lemma all_chars_app (p : ascii -> bool) (a b : string) :
  all_chars p (a ++ b) = (all_chars p a && all_chars p b)%bool.
Proof.
  induction a as [|c a IH]; [reflexivity|].
  cbn [append all_chars]. rewrite IH. apply andb_assoc.
Qed.

Lemma all_chars_strip (p : ascii -> bool) (s : string) :
  all_chars p s = true -> all_chars p (PyStr.strip s) = true.
Proof.
  intro H. unfold PyStr.strip.
  destruct (lstrip_suffix s) as [a Ha]. rewrite Ha, all_chars_app in H.
  apply andb_true_iff in H. destruct H as [_ H].
  destruct (rstrip_prefix (PyStr.lstrip s)) as [b Hb]. rewrite Hb, all_chars_app in H.
  apply andb_true_iff in H. now destruct H.
Qed.

Lemma lower_lowered (s : string) : all_chars lowered (PyStr.lower s) = true.
Proof.
  induction s as [|c t IH]; [reflexivity|].
  cbn [PyStr.lower all_chars]. rewrite IH, andb_true_r. unfold lowered.
  destruct (PyStr.is_word (PyStr.lower_char c) || PyStr.is_space (PyStr.lower_char c))%bool
    eqn:E1; [|reflexivity].
  destruct (PyStr.is_space (PyStr.lower_char c)) eqn:E2; [reflexivity|].
  cbn [negb orb]. apply lower_char_ident; [|exact E2]. now rewrite E2.
Qed.

Lemma underscore_ident (s : string) (in_run : bool) :
  all_chars lowered s = true ->
  all_chars is_ident_char
    (PyStr.spaces_to_underscore in_run (PyStr.keep_word_space s)) = true.
Proof.
  revert in_run. induction s as [|c t IH]; intros in_run H; [reflexivity|].
  cbn [all_chars] in H. apply andb_true_iff in H. destruct H as [Hc Ht].
  cbn [PyStr.keep_word_space]. unfold lowered in Hc.
  destruct (PyStr.is_word c || PyStr.is_space c)%bool eqn:E; [|now apply IH].
  cbn [PyStr.spaces_to_underscore]. destruct (PyStr.is_space c) eqn:Es.
  - destruct in_run; [now apply IH|]. cbn [all_chars]. now rewrite IH.
  - cbn [negb orb] in Hc. cbn [all_chars]. now rewrite Hc, IH.
Qed.

(** X10.  For a header of ASCII characters, the name
    [_normalize_header] returns is made of lower-case letters, digits and
    underscores only: no capitals, no white space, no punctuation. *)
Theorem normalized_header_is_identifier (header : string) :
  all_chars is_ascii header = true ->
  all_chars is_ident_char (_normalize_header header) = true.
Proof.
  intros _. unfold _normalize_header.
  destruct (find (fun kv => PyStr.contains (fst kv) (PyStr.strip (PyStr.lower header)))
              normalizations) as [[k v]|] eqn:E.
  - apply find_some in E. destruct E as [Hin _].
    repeat (destruct Hin as [Hin | Hin]; [injection Hin as <- <-; reflexivity|]).
    contradiction.
  - apply underscore_ident, all_chars_strip, lower_lowered.
Qed.

Lemma normalized_header_is_identifier_witness :
  all_chars is_ident_char (_normalize_header "Ref. / Notes  (a)") = true.
Proof.
  apply normalized_header_is_identifier. reflexivity.
Defined.

Lemma well_typed_set (key : string) (v : cell) (film_data : record) :
  well_typed_field key v -> well_typed film_data -> well_typed (dict_set key v film_data).
Proof.
  intros Hv Hd k x. rewrite dict_get_set.
  destruct (String.eqb k key) eqn:E; [|apply Hd].
  apply String.eqb_eq in E. subst k. intro H. now injection H as <-.
Qed.

Lemma int_cell_typed (key : string) (o : option Z) :
  key = "rank" \/ key = "peak" ->
  (forall n, o = Some n -> 0 <= n) -> well_typed_field key (opt_int_cell o).
Proof.
  intros Hk Ho. unfold well_typed_field.
  replace (String.eqb key "rank" || String.eqb key "peak")%bool with true
    by (destruct Hk; subst key; reflexivity).
  destruct o as [n|]; [right | now left]. exists n. split; [reflexivity | now apply Ho].
Qed.

Lemma number_cell_typed (key text : string) (film_data : record) :
  key = "rank" \/ key = "peak" ->
  well_typed film_data ->
  well_typed match (n <- _parse_number text ;;
                    Return (dict_set key (opt_int_cell n) film_data)) with
             | Return film_data' => film_data'
             | Raise _ => dict_set key CNone film_data
             end.
Proof.
  intros Hk H. destruct (_parse_number text) as [msg | o] eqn:E; cbn [bind];
    (apply well_typed_set; [|exact H]).
  - apply (int_cell_typed key None Hk). discriminate.
  - apply int_cell_typed; [exact Hk|]. intros n ->. now apply (parse_number_nonneg text).
Qed.

Lemma store_cell_typed (header text : string) (film_data : record) :
  well_typed film_data -> well_typed (store_cell_or_absent header text film_data).
Proof.
  intro H. unfold store_cell_or_absent, store_cell.
  destruct (String.eqb header "rank") eqn:E1.
  { apply String.eqb_eq in E1. subst header. apply number_cell_typed; [now left | exact H]. }
  destruct (String.eqb header "title" || String.eqb header "film")%bool eqn:E2.
  { apply well_typed_set; [|exact H]. now exists text. }
  destruct (PyStr.contains "gross" header || PyStr.contains "revenue" header)%bool eqn:E3.
  { apply well_typed_set; [|exact H]. now exists text. }
  destruct (String.eqb header "year") eqn:E4.
  { apply well_typed_set; [|exact H]. unfold well_typed_field. cbn.
    destruct (_parse_year text) as [y|] eqn:Ey; [right | now left].
    exists y. split; [reflexivity|]. now apply search_year_range in Ey. }
  destruct (String.eqb header "peak") eqn:E5.
  { apply String.eqb_eq in E5. subst header. apply number_cell_typed; [now right | exact H]. }
  apply well_typed_set; [|exact H]. unfold well_typed_field.
  apply orb_false_iff in E2. destruct E2 as [E2 _].
  rewrite E1, E5, E4, E2. now exists text.
Qed.

Lemma row_record_typed (headers : list string) (cells : html_row) (film_data : record) :
  well_typed film_data -> well_typed (row_record headers cells film_data).
Proof.
  revert cells film_data. induction headers as [|h hs IH]; intros cells film_data H;
    [exact H|].
  destruct cells as [|c cs]; [exact H|]. cbn [row_record].
  now apply IH, store_cell_typed.
Qed.

Lemma accepted_rows_typed (headers : list string) (rows : list html_row) (film_data : record) :
  In film_data (accepted_rows headers rows) ->
  well_typed film_data
  /\ exists s, dict_get "title" film_data = Some (CStr s) /\ s <> "".
Proof.
  unfold accepted_rows. intro Hin.
  apply filter_In in Hin. destruct Hin as [Hin Ht].
  apply in_map_iff in Hin. destruct Hin as [cells [<- _]]. split.
  - apply row_record_typed. intros k v H. discriminate H.
  - now apply has_title_string.
Qed.

Lemma accepted_rows_length (headers : list string) (rows : list html_row) :
  (List.length (accepted_rows headers rows) <= List.length rows)%nat.
Proof.
  unfold accepted_rows.
  etransitivity; [apply List.filter_length_le|]. rewrite length_map.
  apply List.filter_length_le.
Qed.

(** X11.  In every record [_parse_films_table] emits, "rank" and "peak"
    hold [None] or an integer that is not negative, "year" holds [None]
    or a year from 1900 to 2099, "title" holds a cleaned title that is
    not empty, and every other key holds the text of its cell.  There are
    at most as many records as rows after the header. *)
Theorem normalizer_output_schema (table : html_table) (film_data : record) :
  In film_data (_parse_films_table table) ->
  (forall key v, dict_get key film_data = Some v -> well_typed_field key v)
  /\ (exists text, dict_get "title" film_data = Some (CStr (_clean_film_title text))
                   /\ _clean_film_title text <> "")
  /\ (List.length (_parse_films_table table) <= List.length (tl table))%nat.
Proof.
  intro Hin. apply parse_films_table_accepted in Hin.
  destruct (accepted_rows_typed _ _ _ Hin) as [Hty [s [Hs Hne]]].
  split; [exact Hty|]. split.
  - destruct (Hty "title" (CStr s) Hs) as [text Ht].
    exists text. injection Ht as ->. now split.
  - rewrite parse_films_table_cases.
    destruct (table_over_limit (table_headers table) (tl table));
      [cbn; lia | apply accepted_rows_length].
Qed.

Lemma normalizer_output_schema_witness :
  well_typed_field "year" CNone.
Proof.
  apply (proj1 (normalizer_output_schema
                  [films_header;
                   html_cells false ["n/a"; "Titanic (1997 film)"; "$2.2 billion"; "?"; "-"]]
                  [("rank", CNone); ("title", CStr "Titanic");
                   ("worldwide_gross", CStr "$2.2 billion"); ("year", CNone);
                   ("peak", CNone)]
                  (or_introl eq_refl)) "year" CNone).
  reflexivity.
Defined.

(** ** What the scraper returns *)

Lemma collect_tables_flat (tables : list html_table) (films_data : list record) :
  collect_tables tables films_data = (films_data ++ films_of_tables tables)%list.
Proof.
  revert films_data. induction tables as [|t ts IH]; intro films_data.
  - cbn. now rewrite app_nil_r.
  - cbn [collect_tables]. rewrite IH. unfold films_of_tables. cbn [flat_map].
    destruct (looks_like_films t); [now rewrite <- app_assoc | reflexivity].
Qed.

Lemma in_firstn {A : Type} (n : nat) (l : list A) (x : A) :
  In x (firstn n l) -> In x l.
Proof.
  revert l. induction n as [|n IH]; intros l H; [contradiction|].
  destruct l as [|y l]; [contradiction|].
  destruct H as [-> | H]; [now left | right; now apply IH].
Qed.

Lemma film_typed (rank : Z) (title gross : string) (year peak : Z) :
  0 <= rank -> 0 <= peak -> 1900 <= year <= 2099 ->
  _clean_film_title title = title ->
  well_typed (film rank title gross year peak).
Proof.
  intros Hr Hp Hy Ht k v. unfold film. cbn [dict_get].
  destruct (String.eqb k "rank") eqn:E1.
  { apply String.eqb_eq in E1. subst k. intro H. injection H as <-.
    right. now exists rank. }
  destruct (String.eqb k "title") eqn:E2.
  { apply String.eqb_eq in E2. subst k. intro H. injection H as <-.
    exists title. now rewrite Ht. }
  destruct (String.eqb k "worldwide_gross") eqn:E3.
  { apply String.eqb_eq in E3. subst k. intro H. injection H as <-. now exists gross. }
  destruct (String.eqb k "year") eqn:E4.
  { apply String.eqb_eq in E4. subst k. intro H. injection H as <-.
    right. now exists year. }
  destruct (String.eqb k "peak") eqn:E5; [|discriminate].
  apply String.eqb_eq in E5. subst k. intro H. injection H as <-.
  right. now exists peak.
Qed.

Lemma sample_typed (film_data : record) :
  In film_data _get_sample_films_data ->
  well_typed film_data
  /\ exists s, dict_get "title" film_data = Some (CStr s) /\ s <> "".
Proof.
  unfold _get_sample_films_data. intro H.
  repeat (destruct H as [<- | H];
          [split; [apply film_typed; [lia | lia | lia | reflexivity]
                  | eexists; split; [reflexivity | discriminate]]|]).
  contradiction.
Qed.

Lemma scraped_records (w : world) (url : option string) (records : list record) :
  scrape_wikipedia_films w url = Return records ->
  records = _get_sample_films_data
  \/ exists tables films_data,
       fetch w (resolve_url url) = Return tables
       /\ films_data = films_of_tables tables
       /\ films_data <> []
       /\ records = firstn 50 films_data.
Proof.
  unfold scrape_wikipedia_films, run_in_executor, _scrape_films_sync.
  destruct (executor_error w); cbn [try_except]; [intro H; left; congruence|].
  destruct (fetch w (resolve_url url)) as [msg | tables]; cbn [bind try_except];
    [intro H; left; congruence|].
  rewrite collect_tables_flat. cbn [app].
  destruct (films_of_tables tables) as [|r l] eqn:E; cbn [try_except];
    intro H; injection H as <-; [now left|].
  right. exists tables, (r :: l). repeat split; [now rewrite E | discriminate].
Qed.

Lemma films_of_tables_filter (tables : list html_table) :
  films_of_tables tables
  = flat_map _parse_films_table (filter looks_like_films tables).
Proof.
  unfold films_of_tables. induction tables as [|t ts IH]; [reflexivity|].
  cbn [flat_map filter]. destruct (looks_like_films t); cbn [flat_map]; now rewrite IH.
Qed.

Lemma scraped_length (w : world) (url : option string) (records : list record) :
  scrape_wikipedia_films w url = Return records ->
  (1 <= List.length records <= 50)%nat.
Proof.
  intro H. apply scraped_records in H.
  destruct H as [-> | [tables [films_data [_ [_ [Hne ->]]]]]]; [cbn; lia|].
  split; [|apply firstn_le_length].
  destruct films_data; [congruence | cbn; lia].
Qed.

(** X12.  Whatever [scrape_wikipedia_films] returns, scraped or fallback,
    has between 1 and 50 records, each with a title that is a non-empty
    string and with every field of the type the normalizer gives it. *)
Theorem scraper_output_is_bounded_and_typed
    (w : world) (url : option string) (records : list record) :
  scrape_wikipedia_films w url = Return records ->
  (1 <= List.length records <= 50)%nat
  /\ forall film_data, In film_data records ->
       (forall key v, dict_get key film_data = Some v -> well_typed_field key v)
       /\ exists s, dict_get "title" film_data = Some (CStr s) /\ s <> "".
Proof.
  intro H. split; [now apply scraped_length in H|].
  apply scraped_records in H.
  destruct H as [-> | [tables [films_data [_ [Hf [Hne ->]]]]]]; [apply sample_typed|].
  intros film_data Hin. apply in_firstn in Hin. subst films_data.
  unfold films_of_tables in Hin. apply in_flat_map in Hin.
  destruct Hin as [table [_ Hin]].
  destruct (looks_like_films table); [|contradiction].
  apply parse_films_table_accepted in Hin.
  now apply accepted_rows_typed in Hin.
Qed.

Lemma scraper_output_is_bounded_and_typed_witness :
  (1 <= List.length _get_sample_films_data <= 50)%nat.
Proof.
  apply (scraper_output_is_bounded_and_typed world_offline None _get_sample_films_data).
  reflexivity.
Defined.

(** X13.  When the executor runs the job and the request succeeds, the
    scraper returns the first 50 of the records of the tables whose
    header cells hold "rank", "film", "worldwide" or "gross", taken table
    by table in document order (the other tables give nothing), and the
    fallback set if there is no such record. *)
Theorem scraper_concatenates_film_tables
    (w : world) (url : option string) (tables : list html_table) :
  executor_error w = None ->
  fetch w (resolve_url url) = Return tables ->
  scrape_wikipedia_films w url
  = Return match flat_map _parse_films_table (filter looks_like_films tables) with
           | [] => _get_sample_films_data
           | films_data => firstn 50 films_data
           end.
Proof.
  intros He Hf.
  unfold scrape_wikipedia_films, run_in_executor, _scrape_films_sync.
  rewrite He, Hf. cbn [bind try_except]. rewrite collect_tables_flat. cbn [app].
  rewrite films_of_tables_filter.
  destruct (flat_map _parse_films_table (filter looks_like_films tables)); reflexivity.
Qed.

Lemma scraper_concatenates_film_tables_witness :
  exists records,
    scrape_wikipedia_films world_online None = Return records
    /\ List.length records = 2%nat.
Proof.
  eexists. split.
  - apply (scraper_concatenates_film_tables world_online None _ eq_refl eq_refl).
  - reflexivity.
Defined.

(** X14.  On what the scraper returns, [count_films_before_year] answers
    a number between 0 and 50, whatever the bounds. *)
Theorem film_count_answer_is_bounded
    (w : world) (url : option string) (records : list record)
    (year : Z) (min_gross : pyfloat) :
  scrape_wikipedia_films w url = Return records ->
  0 <= count_films_before_year records year min_gross <= 50.
Proof.
  intro H. apply scraped_length in H.
  pose proof (count_films_range records year min_gross). lia.
Qed.

Lemma film_count_answer_is_bounded_witness :
  0 <= count_films_before_year _get_sample_films_data 2000 (2 # 1) <= 50.
Proof.
  apply (film_count_answer_is_bounded world_offline None). reflexivity.
Defined.

(** ** The router and the placeholder processors on any JSON value *)

Lemma for_append_all_strings (f : string -> result) (items : list json) (acc : list result) :
  match all_strings items with
  | Some qs => for_append (on_string f) items acc = Return (acc ++ map f qs)%list
  | None => exists msg, for_append (on_string f) items acc = Raise msg
  end.
Proof.
  revert acc. induction items as [|x items IH]; intro acc.
  - cbn. now rewrite app_nil_r.
  - cbn [all_strings for_append].
    destruct x as [| b | n | q | s | l | m]; cbn [as_string];
      try (eexists; reflexivity).
    cbn [on_string py_lower bind]. specialize (IH (acc ++ [f s])%list).
    destruct (all_strings items) as [qs|].
    + rewrite IH. cbn [map]. now rewrite <- app_assoc.
    + exact IH.
Qed.

(** X15.  [process_database_task] and [process_generic_task] return for
    every JSON value and give all or nothing: one answer per question
    when the task is an object whose questions can be iterated and are
    all strings, and otherwise the single error text, whatever was
    answered before the offending question.  The generic processor
    answers "Generic analysis completed" for any questions value that
    counts as false (missing, null, 0, empty), before it looks at the
    items. *)
Theorem placeholder_processors_all_or_nothing (task_data : json) :
  process_database_task task_data
  = Return match question_strings task_data with
           | Some qs => map database_answer qs
           | None => [RStr "Database processing error"]
           end
  /\ process_generic_task task_data
     = Return match py_get task_data "questions" (JArr []) with
              | Raise _ => [RStr "Generic processing error"]
              | Return questions =>
                  if json_falsy questions then [RStr "Generic analysis completed"]
                  else match question_strings task_data with
                       | Some qs => map generic_answer qs
                       | None => [RStr "Generic processing error"]
                       end
              end.
Proof.
  unfold process_database_task, process_generic_task, question_strings.
  destruct (py_get task_data "questions" (JArr [])) as [msg | questions];
    [split; reflexivity|].
  cbn [bind]. split.
  - destruct (py_iter questions) as [msg | items]; [reflexivity|]. cbn [bind].
    pose proof (for_append_all_strings database_answer items []) as H.
    destruct (all_strings items); [now rewrite H|].
    destruct H as [msg ->]. reflexivity.
  - destruct (json_falsy questions); [reflexivity|].
    destruct (py_iter questions) as [msg | items]; [reflexivity|]. cbn [bind].
    pose proof (for_append_all_strings generic_answer items []) as H.
    destruct (all_strings items); [now rewrite H|].
    destruct H as [msg ->]. reflexivity.
Qed.

Section RouterOnJson.
Variable w : world.
Variable to_numeric_str : string -> option pyfloat.
Variable corr_round6 : list (pyfloat * pyfloat) -> pyfloat.
Variable chart : list (pyfloat * pyfloat) -> string -> string -> string.

Lemma body_result_nonempty (task_data : json) (results : list result) :
  process_analysis_body w to_numeric_str corr_round6 chart task_data = Return results ->
  results <> [].
Proof.
  unfold process_analysis_body.
  destruct (py_get task_data "task" (JStr "")) as [m | d]; [discriminate|].
  destruct (py_get task_data "questions" (JArr [])) as [m | q]; [discriminate|].
  cbn [bind].
  match goal with
  | |- bind ?branch _ = _ -> _ => destruct branch as [m | r]
  end; cbn [bind]; [discriminate|].
  destruct r; intro H; injection H as <-; discriminate.
Qed.

Lemma route_returns (task_data : json) :
  exists first rest,
    process_analysis_task w to_numeric_str corr_round6 chart task_data
    = Return (first :: rest).
Proof.
  unfold process_analysis_task.
  destruct (process_analysis_body w to_numeric_str corr_round6 chart task_data)
    as [msg | results] eqn:E; cbn [try_except].
  - eexists. eexists. reflexivity.
  - apply body_result_nonempty in E. destruct results as [|r rs]; [congruence|].
    now exists r, rs.
Qed.
End RouterOnJson.

(** X16.  For every JSON value, [process_analysis_task] returns a list
    with at least one element. *)
Theorem router_result_is_never_empty
    (w : world) (to_numeric_str : string -> option pyfloat)
    (corr_round6 : list (pyfloat * pyfloat) -> pyfloat)
    (chart : list (pyfloat * pyfloat) -> string -> string -> string)
    (task_data : json) :
  exists first rest,
    process_analysis_task w to_numeric_str corr_round6 chart task_data
    = Return (first :: rest).
Proof. apply route_returns. Qed.

(** X17.  Unless the task is an object whose description holds
    "wikipedia" and "film", the result of [process_analysis_task] does
    not depend on the network, on the numeric kernels or on the chart
    renderer: nothing is scraped, computed or drawn. *)
Theorem other_domains_never_scrape
    (w w' : world) (tn tn' : string -> option pyfloat)
    (cr cr' : list (pyfloat * pyfloat) -> pyfloat)
    (chart chart' : list (pyfloat * pyfloat) -> string -> string -> string)
    (task_data : json) :
  is_films_request task_data = false ->
  process_analysis_task w tn cr chart task_data
  = process_analysis_task w' tn' cr' chart' task_data.
Proof.
  unfold is_films_request, process_analysis_task, process_analysis_body, classify.
  destruct (py_get task_data "task" (JStr "")) as [m | d]; [reflexivity|].
  destruct (py_get task_data "questions" (JArr [])) as [m | q]; [reflexivity|].
  cbn [bind].
  destruct d; cbn [py_lower bind]; try reflexivity.
  destruct (PyStr.contains "wikipedia" (PyStr.lower s)
            && PyStr.contains "film" (PyStr.lower s))%bool; [discriminate|].
  reflexivity.
Qed.

Lemma other_domains_never_scrape_witness :
  process_analysis_task world_offline no_string_numbers flat_corr blank_chart
    (task_json (generic_task ["What is it?"]))
  = process_analysis_task world_online no_string_numbers flat_corr blank_chart
      (task_json (generic_task ["What is it?"])).
Proof.
  apply other_domains_never_scrape. reflexivity.
Defined.

(** X18.  A task whose questions are [null] is answered in three ways:
    the films branch fails on the iteration and the router reports the
    error, the database processor reports its own error, the generic
    processor answers "Generic analysis completed".  A task without
    questions gets "No results generated" in the films and database
    domains and "Generic analysis completed" in the generic one, which is
    also the domain of a task without description. *)
Theorem router_handles_missing_and_null_questions
    (w : world) (tn : string -> option pyfloat)
    (cr : list (pyfloat * pyfloat) -> pyfloat)
    (chart : list (pyfloat * pyfloat) -> string -> string -> string)
    (d : string) :
  process_analysis_task w tn cr chart (JObj [("task", JStr d); ("questions", JNull)])
  = Return [RStr match classify d with
                 | Films => "Error processing task: 'NoneType' object is not iterable"
                 | Database => "Database processing error"
                 | Generic => "Generic analysis completed"
                 end]
  /\ process_analysis_task w tn cr chart (JObj [("task", JStr d)])
     = Return [RStr match classify d with
                    | Films => "No results generated"
                    | Database => "No results generated"
                    | Generic => "Generic analysis completed"
                    end]
  /\ process_analysis_task w tn cr chart (JObj [])
     = Return [RStr "Generic analysis completed"].
Proof.
  destruct (scrape_returns w None) as [scraped [Hs _]].
  unfold process_analysis_task, process_analysis_body, classify.
  cbn [py_get dict_get String.eqb Ascii.eqb Bool.eqb bind py_lower].
  split; [|split; [|reflexivity]].
  - destruct (PyStr.contains "wikipedia" (PyStr.lower d)
              && PyStr.contains "film" (PyStr.lower d))%bool.
    + rewrite Hs. reflexivity.
    + destruct (PyStr.contains "database" (PyStr.lower d)); reflexivity.
  - destruct (PyStr.contains "wikipedia" (PyStr.lower d)
              && PyStr.contains "film" (PyStr.lower d))%bool.
    + rewrite Hs. reflexivity.
    + destruct (PyStr.contains "database" (PyStr.lower d)); reflexivity.
Qed.

(** ** The endpoint *)

(** X19.  [analyze_data] answers with a list of at least one element
    whenever the task text can be read and [json.loads] returns or raises
    [JSONDecodeError] on it, and otherwise with status 500 and a detail
    that starts with "Analysis failed: ": when the text cannot be read,
    and when [json.loads] raises an exception of another class, which the
    inner handler does not catch.  It never answers with another status,
    not even for the missing input that it raises a 400 for.  Next to a
    file the form field is not looked at. *)
Theorem endpoint_fails_only_with_500
    (w : world) (tn : string -> option pyfloat)
    (cr : list (pyfloat * pyfloat) -> pyfloat)
    (chart : list (pyfloat * pyfloat) -> string -> string -> string)
    (json_loads : string -> Endpoint.loads_outcome)
    (str_http_exception : Z -> string -> string) (req : Endpoint.request) :
  (forall text, Endpoint.read_task_content str_http_exception req = Return text ->
     (forall msg, json_loads text <> Endpoint.LoadsError msg) ->
     exists first rest,
       Endpoint.analyze_data w tn cr chart json_loads str_http_exception req
       = Endpoint.Reply (first :: rest))
  /\ (forall text msg,
        Endpoint.read_task_content str_http_exception req = Return text ->
        json_loads text = Endpoint.LoadsError msg ->
        Endpoint.analyze_data w tn cr chart json_loads str_http_exception req
        = Endpoint.HTTPException 500 ("Analysis failed: " ++ msg))
  /\ (forall msg, Endpoint.read_task_content str_http_exception req = Raise msg ->
      Endpoint.analyze_data w tn cr chart json_loads str_http_exception req
      = Endpoint.HTTPException 500 ("Analysis failed: " ++ msg))
  /\ (Endpoint.file req = None ->
      (Endpoint.data req = None \/ Endpoint.data req = Some "") ->
      Endpoint.analyze_data w tn cr chart json_loads str_http_exception req
      = Endpoint.HTTPException 500
          ("Analysis failed: " ++ str_http_exception 400 "No data provided"))
  /\ (forall status detail,
        Endpoint.analyze_data w tn cr chart json_loads str_http_exception req
        = Endpoint.HTTPException status detail -> status = 500)
  /\ (forall content other,
        Endpoint.file req = Some content ->
        Endpoint.analyze_data w tn cr chart json_loads str_http_exception req
        = Endpoint.analyze_data w tn cr chart json_loads str_http_exception
            {| Endpoint.file := Some content; Endpoint.data := other |}).
Proof.
  assert (Hok : forall text,
     Endpoint.read_task_content str_http_exception req = Return text ->
     (forall msg, json_loads text <> Endpoint.LoadsError msg) ->
     exists first rest,
       Endpoint.analyze_data w tn cr chart json_loads str_http_exception req
       = Endpoint.Reply (first :: rest)).
  { intros text H Hl. unfold Endpoint.analyze_data, Endpoint.parse_task.
    rewrite H. cbn [bind].
    destruct (json_loads text) as [task_data | | msg]; cbn [bind].
    - destruct (route_returns w tn cr chart task_data) as [first [rest ->]].
      now exists first, rest.
    - destruct (route_returns w tn cr chart (JObj [("task", JStr text)]))
        as [first [rest ->]].
      now exists first, rest.
    - now destruct (Hl msg). }
  assert (Hloads : forall text msg,
      Endpoint.read_task_content str_http_exception req = Return text ->
      json_loads text = Endpoint.LoadsError msg ->
      Endpoint.analyze_data w tn cr chart json_loads str_http_exception req
      = Endpoint.HTTPException 500 ("Analysis failed: " ++ msg)).
  { intros text msg H Hl. unfold Endpoint.analyze_data, Endpoint.parse_task.
    rewrite H. cbn [bind]. now rewrite Hl. }
  assert (Herr : forall msg,
      Endpoint.read_task_content str_http_exception req = Raise msg ->
      Endpoint.analyze_data w tn cr chart json_loads str_http_exception req
      = Endpoint.HTTPException 500 ("Analysis failed: " ++ msg)).
  { intros msg H. unfold Endpoint.analyze_data. now rewrite H. }
  split; [exact Hok|]. split; [exact Hloads|]. split; [exact Herr|]. split; [|split].
  - intros Hf Hd. apply Herr. unfold Endpoint.read_task_content. rewrite Hf.
    destruct Hd as [-> | ->]; reflexivity.
  - intros status detail H.
    destruct (Endpoint.read_task_content str_http_exception req) as [msg | text] eqn:E.
    + rewrite (Herr msg eq_refl) in H. now injection H as <- _.
    + destruct (json_loads text) as [task_data | | msg] eqn:El.
      * destruct (Hok text eq_refl) as [first [rest H']];
          [intros msg; rewrite El; discriminate|].
        rewrite H' in H. discriminate.
      * destruct (Hok text eq_refl) as [first [rest H']];
          [intros msg; rewrite El; discriminate|].
        rewrite H' in H. discriminate.
      * rewrite (Hloads text msg eq_refl El) in H. now injection H as <- _.
  - intros content other Hf. unfold Endpoint.analyze_data, Endpoint.read_task_content.
    cbn [Endpoint.file]. now rewrite Hf.
Qed.

Lemma endpoint_fails_only_with_500_witness :
  analyze_offline {| Endpoint.file := None; Endpoint.data := Some "" |}
  = Endpoint.HTTPException 500 "Analysis failed: 400: No data provided"
  /\ analyze_offline {| Endpoint.file := None; Endpoint.data := Some (nines 4301) |}
     = Endpoint.HTTPException 500
         "Analysis failed: Exceeds the limit (4300 digits) for integer string conversion: value has 4301 digits; use sys.set_int_max_str_digits() to increase the limit"
  /\ exists first rest,
       analyze_offline {| Endpoint.file := None; Endpoint.data := Some "films" |}
       = Endpoint.Reply (first :: rest).
Proof.
  split; [|split].
  - apply (proj1 (proj2 (proj2 (proj2 (endpoint_fails_only_with_500 world_offline
             no_string_numbers flat_corr blank_chart loads_integers starlette_str
             {| Endpoint.file := None; Endpoint.data := Some "" |})))));
      [reflexivity | now right].
  - apply (proj1 (proj2 (endpoint_fails_only_with_500 world_offline
             no_string_numbers flat_corr blank_chart loads_integers starlette_str
             {| Endpoint.file := None; Endpoint.data := Some (nines 4301) |}))
             (nines 4301));
      vm_compute; reflexivity.
  - apply (proj1 (endpoint_fails_only_with_500 world_offline
             no_string_numbers flat_corr blank_chart loads_integers starlette_str
             {| Endpoint.file := None; Endpoint.data := Some "films" |})
             "films"); [reflexivity | discriminate].
Defined.

(** X20.  A form field that is not JSON is taken as a task that is all
    description, without questions: the reply is the single element
    "Generic analysis completed" in the generic domain and
    "No results generated" in the films and database domains. *)
Theorem endpoint_plain_text_task
    (w : world) (tn : string -> option pyfloat)
    (cr : list (pyfloat * pyfloat) -> pyfloat)
    (chart : list (pyfloat * pyfloat) -> string -> string -> string)
    (json_loads : string -> Endpoint.loads_outcome)
    (str_http_exception : Z -> string -> string) (text : string) :
  text <> "" -> json_loads text = Endpoint.JSONDecodeError ->
  Endpoint.analyze_data w tn cr chart json_loads str_http_exception
    {| Endpoint.file := None; Endpoint.data := Some text |}
  = Endpoint.Reply [RStr match classify text with
                         | Generic => "Generic analysis completed"
                         | _ => "No results generated"
                         end].
Proof.
  intros Hne Hj.
  unfold Endpoint.analyze_data, Endpoint.read_task_content, Endpoint.parse_task.
  cbn [Endpoint.file Endpoint.data]. apply String.eqb_neq in Hne. rewrite Hne.
  cbn [bind]. rewrite Hj. cbn [bind].
  destruct (scrape_returns w None) as [scraped [Hs _]].
  unfold process_analysis_task, process_analysis_body, classify.
  cbn [py_get dict_get String.eqb Ascii.eqb Bool.eqb bind py_lower].
  destruct (PyStr.contains "wikipedia" (PyStr.lower text)
            && PyStr.contains "film" (PyStr.lower text))%bool.
  - rewrite Hs. reflexivity.
  - destruct (PyStr.contains "database" (PyStr.lower text)); reflexivity.
Qed.

Lemma endpoint_plain_text_task_witness :
  analyze_offline
    {| Endpoint.file := None; Endpoint.data := Some "How many films are on Wikipedia?" |}
  = Endpoint.Reply [RStr "No results generated"].
Proof.
  apply (endpoint_plain_text_task world_offline no_string_numbers flat_corr blank_chart
           loads_integers starlette_str
           "How many films are on Wikipedia?"); [discriminate | reflexivity].
Defined.

(** ** The chart generator *)

Section ChartFacts.
Variable figure : Type.
Variable scatter_figure :
  list (pyfloat * pyfloat) -> string -> string -> option string -> exn figure.
Variable error_figure : string -> exn figure.
Variable savefig : figure -> Z -> exn string.
Variable b64encode : string -> string.

Lemma prefix_app (p s : string) : String.prefix p (p ++ s) = true.
Proof.
  induction p as [|c p IH]; [destruct s; reflexivity|].
  simpl. destruct (ascii_dec c c); [exact IH | congruence].
Qed.

Lemma minimal_is_data_uri : is_data_uri (Return ChartGenerator._create_minimal_error_image).
Proof. eexists. split; reflexivity. Qed.

Lemma fig_to_base64_data_uri (fig : figure) :
  is_data_uri (ChartGenerator._fig_to_base64 figure savefig b64encode fig).
Proof.
  unfold ChartGenerator._fig_to_base64.
  destruct (savefig fig 60) as [m | buffer]; cbn [bind try_except];
    [apply minimal_is_data_uri|].
  destruct (100000 <? Z.of_nat (String.length buffer)).
  - destruct (savefig fig 40) as [m | buffer']; cbn [bind try_except];
      [apply minimal_is_data_uri|].
    eexists. split; [reflexivity | apply prefix_app].
  - cbn [bind try_except]. eexists. split; [reflexivity | apply prefix_app].
Qed.

Lemma error_chart_data_uri (msg : string) :
  is_data_uri (ChartGenerator._create_error_chart figure error_figure savefig b64encode msg).
Proof.
  unfold ChartGenerator._create_error_chart.
  destruct (error_figure msg) as [m | fig]; cbn [bind try_except];
    [apply minimal_is_data_uri|].
  destruct (fig_to_base64_data_uri fig) as [s [-> Hs]]. cbn [try_except].
  now exists s.
Qed.

Lemma try_except_data_uri (body : exn string) (handler : string -> exn string) :
  (forall s, body = Return s -> String.prefix ChartGenerator.data_uri_prefix s = true) ->
  (forall msg, is_data_uri (handler msg)) ->
  is_data_uri (try_except body handler).
Proof.
  intros Hb Hh. destruct body as [m | s]; cbn [try_except]; [apply Hh|].
  exists s. split; [reflexivity | now apply Hb].
Qed.

Lemma scatterplot_is_data_uri
    (data : list ChartGenerator.point) (x_col y_col : string) (title : option string) :
  is_data_uri
    (ChartGenerator.create_scatterplot_with_regression figure scatter_figure
       error_figure savefig b64encode data x_col y_col title).
Proof.
  apply try_except_data_uri.
  - intros s H.
    assert (Hu : forall r, is_data_uri r -> r = Return s ->
                           String.prefix ChartGenerator.data_uri_prefix s = true).
    { intros r [s' [-> Hs']] E. now injection E as <-. }
    destruct data as [|p ps]; [exact (Hu _ (error_chart_data_uri _) H)|].
    cbv zeta in H.
    destruct (negb _ || negb _)%bool; [exact (Hu _ (error_chart_data_uri _) H)|].
    destruct (Nat.ltb _ 2); [exact (Hu _ (error_chart_data_uri _) H)|].
    destruct (scatter_figure _ x_col y_col title) as [m | fig]; [discriminate|].
    cbn [bind] in H. exact (Hu _ (fig_to_base64_data_uri _) H).
  - intro msg. apply error_chart_data_uri.
Qed.
End ChartFacts.

(** X21.  [create_scatterplot_with_regression] returns for every input
    and every behaviour of the drawing library, and what it returns
    starts with "data:image/png;base64,"; when no figure can be saved it
    is the fixed one-pixel image. *)
Theorem scatterplot_always_gives_a_data_uri
    (figure : Type)
    (scatter_figure :
       list (pyfloat * pyfloat) -> string -> string -> option string -> exn figure)
    (error_figure : string -> exn figure)
    (savefig : figure -> Z -> exn string) (b64encode : string -> string)
    (data : list ChartGenerator.point) (x_col y_col : string) (title : option string) :
  (exists uri,
      ChartGenerator.create_scatterplot_with_regression figure scatter_figure
        error_figure savefig b64encode data x_col y_col title = Return uri
      /\ String.prefix "data:image/png;base64," uri = true)
  /\ ((forall fig dpi, exists msg, savefig fig dpi = Raise msg) ->
      ChartGenerator.create_scatterplot_with_regression figure scatter_figure
        error_figure savefig b64encode data x_col y_col title = Return PNG_1x1).
Proof.
  split; [apply scatterplot_is_data_uri|].
  intro Hsave.
  assert (Hfig : forall fig,
             ChartGenerator._fig_to_base64 figure savefig b64encode fig
             = Return PNG_1x1).
  { intro fig. unfold ChartGenerator._fig_to_base64.
    destruct (Hsave fig 60) as [m ->]. reflexivity. }
  assert (Herr : forall msg,
             ChartGenerator._create_error_chart figure error_figure savefig
               b64encode msg = Return PNG_1x1).
  { intro msg. unfold ChartGenerator._create_error_chart.
    destruct (error_figure msg); cbn [bind try_except]; [reflexivity|].
    now rewrite Hfig. }
  unfold ChartGenerator.create_scatterplot_with_regression.
  destruct data as [|p ps]; [now rewrite Herr|]. cbv zeta.
  destruct (negb _ || negb _)%bool; [now rewrite Herr|].
  destruct (Nat.ltb _ 2); [now rewrite Herr|].
  destruct (scatter_figure _ x_col y_col title) as [m | fig]; cbn [bind try_except].
  - apply Herr.
  - now rewrite Hfig.
Qed.

Lemma scatterplot_always_gives_a_data_uri_witness :
  ChartGenerator.create_scatterplot_with_regression unit draw_unit draw_error_unit
    save_fails plain_base64
    (chart_points "Rank" "Peak" [(1 # 1, 1 # 1)%Q; (2 # 1, 1 # 1)%Q]) "Rank" "Peak" None
  = Return PNG_1x1.
Proof.
  apply (proj2 (scatterplot_always_gives_a_data_uri unit draw_unit draw_error_unit
                  save_fails plain_base64 _ "Rank" "Peak" None)).
  intros fig dpi. now exists "disk full".
Defined.

(** ** The chart and the title in the films branch *)

Section ScatterFacts.
Variable figure : Type.
Variable scatter_figure :
  list (pyfloat * pyfloat) -> string -> string -> option string -> exn figure.
Variable error_figure : string -> exn figure.
Variable savefig : figure -> Z -> exn string.
Variable b64encode : string -> string.

Lemma mem_add_new (k : string) (keys seen : list string) :
  mem_string k seen = true -> mem_string k (add_new keys seen) = true.
Proof.
  revert seen. induction keys as [|k0 keys IH]; intros seen H; [exact H|].
  cbn [add_new]. apply IH. destruct (mem_string k0 seen); [exact H|].
  unfold mem_string in *. rewrite existsb_app, H. reflexivity.
Qed.

Lemma mem_add_new_key (k : string) (keys seen : list string) :
  In k keys -> mem_string k (add_new keys seen) = true.
Proof.
  revert seen. induction keys as [|k0 keys IH]; intros seen Hin; [contradiction|].
  cbn [add_new]. destruct Hin as [-> | Hin]; [|now apply IH].
  apply mem_add_new. destruct (mem_string k seen) eqn:E; [exact E|].
  unfold mem_string. rewrite existsb_app. cbn. now rewrite String.eqb_refl, orb_true_r.
Qed.

Lemma mem_point_columns (k : string) (data : list ChartGenerator.point) (seen : list string) :
  mem_string k seen = true -> mem_string k (ChartGenerator.point_columns data seen) = true.
Proof.
  revert seen. induction data as [|p ps IH]; intros seen H; [exact H|].
  cbn [ChartGenerator.point_columns]. now apply IH, mem_add_new.
Qed.

Lemma chart_point_get (x_col y_col : string) (a b : pyfloat) :
  x_col <> y_col ->
  dict_get x_col (dict_set y_col b (dict_set x_col a [])) = Some a
  /\ dict_get y_col (dict_set y_col b (dict_set x_col a [])) = Some b.
Proof.
  intro Hne. rewrite !dict_get_set. cbn [dict_get].
  rewrite !String.eqb_refl.
  apply String.eqb_neq in Hne. now rewrite Hne.
Qed.

Lemma chart_point_keys (x_col y_col : string) (a b : pyfloat) :
  In x_col (dict_keys (dict_set y_col b (dict_set x_col a [])))
  /\ In y_col (dict_keys (dict_set y_col b (dict_set x_col a []))).
Proof.
  cbn [dict_set]. destruct (String.eqb y_col x_col) eqn:E.
  - apply String.eqb_eq in E. subst. cbn. auto.
  - cbn. auto.
Qed.

Lemma clean_chart_points (x_col y_col : string) (pairs : list (pyfloat * pyfloat)) :
  x_col <> y_col ->
  ChartGenerator.clean_points (chart_points x_col y_col pairs) x_col y_col = pairs.
Proof.
  intro Hne. induction pairs as [|[a b] pairs IH]; [reflexivity|].
  cbn [chart_points map ChartGenerator.clean_points fst snd].
  destruct (chart_point_get x_col y_col a b Hne) as [-> ->].
  fold (chart_points x_col y_col pairs). now rewrite IH.
Qed.

Lemma chart_points_columns (x_col y_col : string) (p : pyfloat * pyfloat)
    (pairs : list (pyfloat * pyfloat)) :
  mem_string x_col (ChartGenerator.point_columns (chart_points x_col y_col (p :: pairs)) [])
  = true
  /\ mem_string y_col (ChartGenerator.point_columns (chart_points x_col y_col (p :: pairs)) [])
     = true.
Proof.
  cbn [chart_points map ChartGenerator.point_columns].
  destruct (chart_point_keys x_col y_col (fst p) (snd p)) as [Hx Hy].
  split; apply mem_point_columns; now apply mem_add_new_key.
Qed.

Lemma error_chart_returns (msg : string) (handler : string -> exn string) :
  try_except
    (ChartGenerator._create_error_chart figure error_figure savefig b64encode msg) handler
  = ChartGenerator._create_error_chart figure error_figure savefig b64encode msg.
Proof.
  destruct (error_chart_data_uri figure error_figure savefig b64encode msg) as [s [-> _]].
  reflexivity.
Qed.
End ScatterFacts.

(** X22.  The points that [prepare_chart_data] builds for two different
    column names come back unchanged as the points to draw, and the
    chart of them is the error chart "No data provided" for no point, the
    error chart "Insufficient valid data points" for one point, and for
    two points or more the saved scatter figure of exactly these points,
    or the error chart of the failure if drawing fails; the complaint
    about missing columns never comes up. *)
Theorem film_scatterplot_cases
    (figure : Type)
    (scatter_figure :
       list (pyfloat * pyfloat) -> string -> string -> option string -> exn figure)
    (error_figure : string -> exn figure)
    (savefig : figure -> Z -> exn string) (b64encode : string -> string)
    (x_col y_col : string) (title : option string) (pairs : list (pyfloat * pyfloat)) :
  x_col <> y_col ->
  ChartGenerator.clean_points (chart_points x_col y_col pairs) x_col y_col = pairs
  /\ ChartGenerator.create_scatterplot_with_regression figure scatter_figure error_figure
       savefig b64encode (chart_points x_col y_col pairs) x_col y_col title
     = match pairs with
       | [] =>
           ChartGenerator._create_error_chart figure error_figure savefig b64encode
             "No data provided"
       | [_] =>
           ChartGenerator._create_error_chart figure error_figure savefig b64encode
             "Insufficient valid data points"
       | _ =>
           try_except
             (fig <- scatter_figure pairs x_col y_col title ;;
              ChartGenerator._fig_to_base64 figure savefig b64encode fig)
             (fun msg =>
                ChartGenerator._create_error_chart figure error_figure savefig b64encode
                  ("Error: " ++ msg))
       end.
Proof.
  intro Hne. split; [now apply clean_chart_points|].
  unfold ChartGenerator.create_scatterplot_with_regression.
  destruct pairs as [|p pairs]; [apply error_chart_returns|].
  destruct (chart_points_columns x_col y_col p pairs) as [Hx Hy].
  change (chart_points x_col y_col (p :: pairs))
    with (dict_set y_col (snd p) (dict_set x_col (fst p) [])
          :: chart_points x_col y_col pairs) in *.
  cbv zeta. rewrite Hx, Hy. cbn [negb orb].
  change (dict_set y_col (snd p) (dict_set x_col (fst p) [])
          :: chart_points x_col y_col pairs)
    with (chart_points x_col y_col (p :: pairs)).
  rewrite (clean_chart_points x_col y_col (p :: pairs) Hne).
  destruct pairs as [|p' pairs]; [apply error_chart_returns | reflexivity].
Qed.

Lemma film_scatterplot_cases_witness :
  ChartGenerator.create_scatterplot_with_regression unit draw_unit draw_error_unit
    save_png plain_base64 (chart_points "Rank" "Peak" [(1 # 1, 1 # 1)%Q])
    "Rank" "Peak" None
  = ChartGenerator._create_error_chart unit draw_error_unit save_png plain_base64
      "Insufficient valid data points".
Proof.
  apply (proj2 (film_scatterplot_cases unit draw_unit draw_error_unit save_png
                  plain_base64 "Rank" "Peak" None [(1 # 1, 1 # 1)%Q]
                  ltac:(discriminate))).
Defined.

(** X23.  In the films branch a question that holds "plot" and falls
    under none of the earlier rules is answered with a string that starts
    with "data:image/png;base64,", whatever was scraped and whatever the
    drawing library does. *)
Theorem film_plot_answer_is_a_data_uri
    (figure : Type)
    (scatter_figure :
       list (pyfloat * pyfloat) -> string -> string -> option string -> exn figure)
    (error_figure : string -> exn figure)
    (savefig : figure -> Z -> exn string) (b64encode : string -> string)
    (tn : string -> option pyfloat) (cr : list (pyfloat * pyfloat) -> pyfloat)
    (scraped : list record) (q : string) :
  (PyStr.contains "how many" (PyStr.lower q) && PyStr.contains "$2" q
   && PyStr.contains "before 2000" q)%bool = false ->
  (PyStr.contains "earliest film" (PyStr.lower q) && PyStr.contains "$1.5" q)%bool = false ->
  PyStr.contains "correlation" (PyStr.lower q) = false ->
  PyStr.contains "plot" (PyStr.lower q) = true ->
  exists uri,
    film_answer tn cr
      (scatter_chart figure scatter_figure error_figure savefig b64encode) scraped q
    = RStr uri
    /\ String.prefix "data:image/png;base64," uri = true.
Proof.
  intros H1 H2 H3 H4. unfold film_answer. rewrite H1, H2, H3, H4, orb_true_r.
  unfold scatter_chart.
  destruct (scatterplot_is_data_uri figure scatter_figure error_figure savefig b64encode
              (chart_points "Rank" "Peak" (prepare_chart_data tn scraped "Rank" "Peak"))
              "Rank" "Peak" None) as [uri [-> Hp]].
  now exists uri.
Qed.

Lemma film_plot_answer_is_a_data_uri_witness :
  exists uri,
    film_answer no_string_numbers flat_corr
      (scatter_chart unit draw_unit draw_error_unit save_png plain_base64)
      _get_sample_films_data "Draw a scatterplot of Rank and Peak"
    = RStr uri
    /\ String.prefix "data:image/png;base64," uri = true.
Proof.
  apply film_plot_answer_is_a_data_uri; reflexivity.
Defined.

Lemma substring_length (m : nat) (s : string) :
  (String.length (String.substring 0 m s) <= m)%nat.
Proof.
  revert s. induction m as [|m IH]; intro s.
  - destruct s; cbn; lia.
  - destruct s as [|c s]; cbn; [lia|]. specialize (IH s). lia.
Qed.

Lemma first_long_string_spec (values : list cell) (t : string) :
  first_long_string values = Some t ->
  exists s, In (CStr s) values /\ (3 < String.length s)%nat
            /\ t = String.substring 0 50 s.
Proof.
  induction values as [|v rest IH]; [discriminate|].
  cbn [first_long_string].
  destruct v as [n | s | |];
    try (intro H; destruct (IH H) as [s' [Hin H']]; exists s'; split; [now right | exact H']).
  destruct (Nat.ltb 3 (String.length s)) eqn:E.
  - intro H. injection H as <-. exists s. split; [now left|].
    split; [now apply Nat.ltb_lt | reflexivity].
  - intro H. destruct (IH H) as [s' [Hin H']]. exists s'. split; [now right | exact H'].
Qed.

(** X24.  When a column name holds "title", "film", "movie" or "name",
    [_extract_title_from_row] returns the cleaned text of the first such
    column, free of bracketed and parenthesized stretches; a title that
    the scraper has cleaned already is returned as it is.  Without such a
    column it returns "Unknown" or the first 50 characters of a string
    value longer than 3 characters. *)
Theorem extracted_title_cases (r : row) :
  (forall key v, find title_like r = Some (key, v) ->
     _extract_title_from_row r = _clean_film_title (str_of_cell v)
     /\ pair_scan "[" "]" false (_extract_title_from_row r) = false
     /\ pair_scan "(" ")" false (_extract_title_from_row r) = false)
  /\ (forall key text, find title_like r = Some (key, CStr (_clean_film_title text)) ->
      _extract_title_from_row r = _clean_film_title text)
  /\ (find title_like r = None ->
      _extract_title_from_row r = "Unknown"
      \/ exists s, In (CStr s) (row_values r) /\ (3 < String.length s)%nat
                   /\ _extract_title_from_row r = String.substring 0 50 s
                   /\ (String.length (_extract_title_from_row r) <= 50)%nat).
Proof.
  unfold _extract_title_from_row. fold title_like.
  change (fun cv : string * cell =>
            PyStr.contains_any title_keywords (PyStr.lower (fst cv))) with title_like.
  split; [|split].
  - intros key v ->. split; [reflexivity|].
    split; apply (clean_title_clean (str_of_cell v)).
  - intros key text ->. cbn [str_of_cell].
    apply (clean_title_clean text).
  - intros ->. destruct (first_long_string (row_values r)) as [t|] eqn:E; [|now left].
    right. destruct (first_long_string_spec _ _ E) as [s [Hin [Hlen ->]]].
    exists s. repeat split; try assumption. apply substring_length.
Qed.

Lemma extracted_title_cases_witness :
  _extract_title_from_row [("rank", CInt 4); ("title", CStr (_clean_film_title "Titanic[5]"))]
  = _clean_film_title "Titanic[5]".
Proof.
  apply (proj1 (proj2 (extracted_title_cases
                         [("rank", CInt 4);
                          ("title", CStr (_clean_film_title "Titanic[5]"))]))
           "title" "Titanic[5]").
  reflexivity.
Defined.

(** ** The films branch on any JSON value *)

(** X25.  In the films branch the router gives all or nothing, for every
    JSON object that gets there: one answer per question, in order, when
    the questions can be iterated and are all strings (a string counts as
    its characters, an object as its keys), "No results generated" when
    there are none, and a single "Error processing task: ..." element
    otherwise, whatever was answered before the offending question. *)
Theorem films_branch_all_or_nothing
    (w : world) (tn : string -> option pyfloat)
    (cr : list (pyfloat * pyfloat) -> pyfloat)
    (chart : list (pyfloat * pyfloat) -> string -> string -> string)
    (task_data : json) :
  is_films_request task_data = true ->
  exists scraped,
    scrape_wikipedia_films w None = Return scraped
    /\ match question_strings task_data with
       | Some [] =>
           process_analysis_task w tn cr chart task_data
           = Return [RStr "No results generated"]
       | Some qs =>
           process_analysis_task w tn cr chart task_data
           = Return (map (film_answer tn cr chart scraped) qs)
       | None =>
           exists msg,
             process_analysis_task w tn cr chart task_data
             = Return [RStr ("Error processing task: " ++ msg)]
       end.
Proof.
  intro Hf. destruct (scrape_returns w None) as [scraped [Hs _]].
  exists scraped. split; [exact Hs|].
  unfold is_films_request, classify in Hf.
  unfold question_strings, process_analysis_task, process_analysis_body.
  destruct (py_get task_data "task" (JStr "")) as [m | d]; [discriminate|].
  destruct d; try discriminate.
  destruct (py_get task_data "questions" (JArr [])) as [m | questions];
    [eexists; reflexivity|].
  cbn [bind py_lower].
  destruct (PyStr.contains "wikipedia" (PyStr.lower s)
            && PyStr.contains "film" (PyStr.lower s))%bool;
    [|destruct (PyStr.contains "database" (PyStr.lower s)); discriminate].
  rewrite Hs. cbn [bind].
  destruct (py_iter questions) as [m | items]; [eexists; reflexivity|].
  cbn [bind].
  pose proof (for_append_all_strings (film_answer tn cr chart scraped) items []) as H.
  destruct (all_strings items) as [qs|].
  - rewrite H. cbn [app bind]. destruct qs; reflexivity.
  - destruct H as [msg ->]. eexists. reflexivity.
Qed.

Lemma films_branch_all_or_nothing_witness :
  exists scraped,
    scrape_wikipedia_films world_offline None = Return scraped
    /\ process_analysis_task world_offline no_string_numbers flat_corr blank_chart
         (JObj [("task", JStr "Wikipedia films"); ("questions", JStr "ab")])
       = Return (map (film_answer no_string_numbers flat_corr blank_chart scraped)
                   ["a"; "b"]).
Proof.
  apply (films_branch_all_or_nothing world_offline no_string_numbers flat_corr
           blank_chart
           (JObj [("task", JStr "Wikipedia films"); ("questions", JStr "ab")])).
  reflexivity.
Defined.

(** ** The correlation *)

Lemma Q2R_inject_Z (z : Z) : Q2R (inject_Z z) = IZR z.
Proof. unfold Q2R, inject_Z. cbn. lra. Qed.

Lemma sqrt_between (m : Z) (s : R) :
  0 <= m -> (0 <= s)%R ->
  (IZR m * IZR m <= s * s)%R -> (s * s < (IZR m + 1) * (IZR m + 1))%R ->
  (IZR m <= s < IZR m + 1)%R.
Proof.
  intros Hm Hs Hlo Hhi. apply IZR_le in Hm. split; nra.
Qed.

Lemma double_sqrt_bounds (q : Q) :
  (0 <= q)%Q ->
  let m := Z.sqrt (Qfloor (4 * q)) in
  0 <= m /\ (IZR m <= 2 * sqrt (Q2R q) < IZR m + 1)%R.
Proof.
  intros Hq m.
  assert (Hf : 0 <= Qfloor (4 * q)).
  { change 0 with (Qfloor 0). apply Qfloor_resp_le. lra. }
  assert (Hm : 0 <= m) by apply Z.sqrt_nonneg.
  split; [exact Hm|].
  pose proof (Z.sqrt_spec _ Hf) as Hspec. cbv zeta in Hspec. fold m in Hspec.
  pose proof (Qfloor_le (4 * q)) as Hlo. pose proof (Qlt_floor (4 * q)) as Hhi.
  assert (HqR : (0 <= Q2R q)%R).
  { replace 0%R with (Q2R 0) by apply RMicromega.Q2R_0. now apply Qle_Rle. }
  apply sqrt_between; [exact Hm | | |].
  - pose proof (sqrt_pos (Q2R q)). lra.
  - apply Qle_Rle in Hlo. rewrite Q2R_inject_Z, Q2R_mult in Hlo.
    replace (Q2R 4) with 4%R in Hlo by (unfold Q2R; cbn; lra).
    replace (2 * sqrt (Q2R q) * (2 * sqrt (Q2R q)))%R
      with (4 * (sqrt (Q2R q) * sqrt (Q2R q)))%R by ring.
    rewrite (sqrt_sqrt _ HqR).
    apply Rle_trans with (IZR (Qfloor (4 * q))); [|exact Hlo].
    rewrite <- mult_IZR. apply IZR_le. lia.
  - apply Qlt_Rlt in Hhi. rewrite Q2R_inject_Z, Q2R_mult in Hhi.
    replace (Q2R 4) with 4%R in Hhi by (unfold Q2R; cbn; lra).
    replace (2 * sqrt (Q2R q) * (2 * sqrt (Q2R q)))%R
      with (4 * (sqrt (Q2R q) * sqrt (Q2R q)))%R by ring.
    rewrite (sqrt_sqrt _ HqR).
    apply Rlt_le_trans with (IZR (Qfloor (4 * q) + 1)); [exact Hhi|].
    replace (IZR m + 1)%R with (IZR (m + 1)) by (rewrite plus_IZR; reflexivity).
    rewrite <- mult_IZR. apply IZR_le. lia.
Qed.

Lemma round_sqrt_near (q : Q) :
  (0 <= q)%Q -> (Rabs (IZR (round_sqrt q) - sqrt (Q2R q)) <= 1 / 2)%R.
Proof.
  intro Hq. destruct (double_sqrt_bounds q Hq) as [Hm [Hlo Hhi]].
  unfold round_sqrt. set (m := Z.sqrt (Qfloor (4 * q))) in *.
  set (s := sqrt (Q2R q)) in *.
  destruct (Z.even m) eqn:Ev.
  - apply Z.even_spec in Ev. destruct Ev as [k Hk].
    replace (m / 2) with k by (rewrite Hk, Z.mul_comm; now rewrite Z.div_mul).
    rewrite Hk, mult_IZR in Hlo, Hhi. apply Rabs_le. lra.
  - assert (Hodd : Z.odd m = true) by (rewrite <- Z.negb_even; now rewrite Ev).
    apply Z.odd_spec in Hodd. destruct Hodd as [k Hk].
    assert (Hdiv : m / 2 = k).
    { rewrite Hk. rewrite Z.mul_comm, Z.div_add_l by lia. cbn. lia. }
    rewrite Hdiv. rewrite Hk, plus_IZR, mult_IZR in Hlo, Hhi.
    destruct (Qeq_bool (4 * q) (inject_Z (m * m))) eqn:Et.
    + apply Qeq_bool_iff, Qeq_eqR in Et. rewrite Q2R_inject_Z, Q2R_mult in Et.
      replace (Q2R 4) with 4%R in Et by (unfold Q2R; cbn; lra).
      assert (HqR : (0 <= Q2R q)%R).
      { replace 0%R with (Q2R 0) by apply RMicromega.Q2R_0. now apply Qle_Rle. }
      rewrite <- (sqrt_sqrt _ HqR) in Et. fold s in Et.
      rewrite mult_IZR, Hk, plus_IZR, mult_IZR in Et.
      assert (Hs : (0 <= s)%R) by apply sqrt_pos.
      assert (Hk0 : (0 <= 2 * IZR k + 1)%R).
      { apply IZR_le in Hm. rewrite Hk, plus_IZR, mult_IZR in Hm. exact Hm. }
      assert (Heq : (2 * s = 2 * IZR k + 1)%R) by nra.
      destruct (Z.even k); [|rewrite plus_IZR]; apply Rabs_le; lra.
    + rewrite plus_IZR. apply Rabs_le. lra.
Qed.

Lemma Q2R_sign (x : Q) :
  (0 < Qnum x -> (0 < Q2R x)%R) /\ (Qnum x = 0 -> Q2R x = 0%R)
  /\ (Qnum x < 0 -> (Q2R x < 0)%R).
Proof.
  unfold Q2R.
  assert (Hd : (0 < / IZR (Z.pos (Qden x)))%R).
  { apply Rinv_0_lt_compat. apply IZR_lt. lia. }
  repeat split; intro H.
  - apply IZR_lt in H. nra.
  - rewrite H. lra.
  - apply IZR_lt in H. nra.
Qed.

Lemma scaled_near (n scale x : R) :
  (0 < scale)%R -> (Rabs (n - scale * x) <= 1 / 2)%R ->
  (Rabs (n / scale - x) <= 1 / (2 * scale))%R.
Proof.
  intros Hs H.
  replace (n / scale - x)%R with ((n - scale * x) * / scale)%R by (field; lra).
  rewrite Rabs_mult, (Rabs_pos_eq (/ scale)) by (left; now apply Rinv_0_lt_compat).
  replace (1 / (2 * scale))%R with (1 / 2 * / scale)%R by (field; lra).
  apply Rmult_le_compat_r; [left; now apply Rinv_0_lt_compat | exact H].
Qed.

Lemma py_round_near (c : coefficient) (ndigits : nat) :
  (0 < variation c)%Q ->
  (Rabs (Q2R (py_round c ndigits) - coefficient_value c)
   <= 1 / (2 * IZR (Z.pos (pow10 ndigits))))%R.
Proof.
  intro Hvar. unfold py_round, coefficient_value.
  destruct c as [cov var]. cbn [covariation variation] in *.
  set (S := Z.pos (pow10 ndigits)).
  set (q := (inject_Z S * inject_Z S * (cov * cov) / var)%Q).
  assert (HS : (0 < IZR S)%R) by (apply IZR_lt; unfold S; lia).
  assert (HvarR : (0 < Q2R var)%R).
  { replace 0%R with (Q2R 0) by apply RMicromega.Q2R_0. now apply Qlt_Rlt. }
  assert (Hw : (0 < sqrt (Q2R var))%R) by now apply sqrt_lt_R0.
  assert (Hq : (0 <= q)%Q).
  { unfold q. apply Qle_shift_div_l; [exact Hvar|]. rewrite Qmult_0_l.
    apply Qmult_le_0_compat; nra. }
  pose proof (round_sqrt_near q Hq) as Hn.
  assert (Hroot : sqrt (Q2R q) = (IZR S * (Rabs (Q2R cov) / sqrt (Q2R var)))%R).
  { unfold q. rewrite Q2R_div by (intro H0; rewrite H0 in Hvar; now apply Qlt_irrefl in Hvar).
    rewrite !Q2R_mult, Q2R_inject_Z.
    rewrite <- (sqrt_square (IZR S * (Rabs (Q2R cov) / sqrt (Q2R var)))).
    - f_equal. rewrite <- (sqrt_sqrt (Q2R var)) at 1 by lra.
      replace (Q2R cov * Q2R cov)%R with (Rabs (Q2R cov) * Rabs (Q2R cov))%R
        by (rewrite <- Rabs_mult; apply Rabs_pos_eq; nra).
      field. lra.
    - apply Rmult_le_pos; [lra|]. apply Rmult_le_pos; [apply Rabs_pos|].
      left. now apply Rinv_0_lt_compat. }
  rewrite Hroot in Hn.
  rewrite (Qeq_eqR _ _ (Qred_correct _)).
  rewrite Q2R_div by (unfold S; discriminate).
  rewrite !Q2R_inject_Z, mult_IZR.
  destruct (Q2R_sign cov) as [Hpos [Hzero Hneg]].
  destruct (Z.lt_total 0 (Qnum cov)) as [Hc | [Hc | Hc]].
  - rewrite (Z.sgn_pos _ Hc). specialize (Hpos Hc).
    rewrite (Rabs_pos_eq (Q2R cov)) in Hn by lra.
    replace (1 * IZR (round_sqrt q))%R with (IZR (round_sqrt q)) by ring.
    now apply scaled_near.
  - rewrite <- Hc. cbn [Z.sgn]. rewrite (Hzero (eq_sym Hc)).
    replace (0 * IZR (round_sqrt q) / IZR S - 0 / sqrt (Q2R var))%R with 0%R
      by (field; lra).
    rewrite Rabs_R0. apply Rlt_le. apply Rdiv_lt_0_compat; lra.
  - rewrite (Z.sgn_neg _ Hc). specialize (Hneg Hc).
    rewrite (Rabs_left (Q2R cov)) in Hn by exact Hneg.
    replace (-1 * IZR (round_sqrt q) / IZR S - Q2R cov / sqrt (Q2R var))%R
      with (- (IZR (round_sqrt q) / IZR S - - Q2R cov / sqrt (Q2R var)))%R
      by (field; lra).
    rewrite Rabs_Ropp. now apply scaled_near.
Qed.


Lemma square_nonneg (x : Q) : (0 <= x * x)%Q.
Proof. nra. Qed.

Lemma float_sum_zero (values : list pyfloat) :
  (forall v, In v values -> v == 0)%Q -> (float_sum values == 0)%Q.
Proof.
  induction values as [|v rest IH]; intro H; [reflexivity|].
  cbn [float_sum fold_right]. fold (float_sum rest).
  rewrite (H v (or_introl eq_refl)), IH; [reflexivity|].
  intros v' Hv'. apply H. now right.
Qed.

Lemma float_sum_nonneg (values : list pyfloat) :
  (forall v, In v values -> 0 <= v)%Q -> (0 <= float_sum values)%Q.
Proof.
  induction values as [|v rest IH]; intro H; [apply Qle_refl|].
  cbn [float_sum fold_right]. fold (float_sum rest).
  assert (0 <= v)%Q by (apply H; now left).
  assert (0 <= float_sum rest)%Q by (apply IH; intros v' Hv'; apply H; now right).
  lra.
Qed.

Lemma float_sum_nonneg_zero (values : list pyfloat) :
  (forall v, In v values -> 0 <= v)%Q -> (float_sum values == 0)%Q ->
  (forall v, In v values -> v == 0)%Q.
Proof.
  induction values as [|v rest IH]; intros H Hsum v' Hin; [contradiction|].
  cbn [float_sum fold_right] in Hsum. fold (float_sum rest) in Hsum.
  assert (Hv : (0 <= v)%Q) by (apply H; now left).
  assert (Hrest : (0 <= float_sum rest)%Q).
  { apply float_sum_nonneg. intros w Hw. apply H. now right. }
  destruct Hin as [<- | Hin]; [lra|].
  apply IH; [intros w Hw; apply H; now right | lra | exact Hin].
Qed.

Lemma float_sum_constant (values : list pyfloat) (c : pyfloat) :
  (forall v, In v values -> v == c)%Q ->
  (float_sum values == inject_Z (Z.of_nat (List.length values)) * c)%Q.
Proof.
  induction values as [|v rest IH]; intro H.
  - cbn [float_sum fold_right List.length Z.of_nat]. change (inject_Z 0) with 0%Q. lra.
  - cbn [float_sum fold_right List.length]. fold (float_sum rest).
    rewrite Nat2Z.inj_succ, <- Z.add_1_r, inject_Z_plus.
    rewrite (H v (or_introl eq_refl)), IH by (intros v' Hv'; apply H; now right).
    change (inject_Z 1) with 1%Q. lra.
Qed.

Lemma float_mean_constant (values : list pyfloat) (c : pyfloat) :
  values <> [] -> (forall v, In v values -> v == c)%Q -> (float_mean values == c)%Q.
Proof.
  intros Hne H. unfold float_mean. rewrite (float_sum_constant values c H).
  assert (Hn : ~ (inject_Z (Z.of_nat (List.length values)) == 0)%Q).
  { destruct values as [|v rest]; [contradiction|].
    cbn [List.length]. rewrite Nat2Z.inj_succ. unfold Qeq. cbn. lia. }
  field. exact Hn.
Qed.

Lemma all_equal_spec (values : list pyfloat) :
  all_equal values = true <-> exists c, (forall v, In v values -> v == c)%Q.
Proof.
  destruct values as [|v0 rest]; cbn [all_equal].
  - split; [exists 0%Q; contradiction | reflexivity].
  - rewrite forallb_forall. split.
    + intro H. exists v0. intros v [<- | Hv]; [reflexivity|].
      symmetry. apply Qeq_bool_iff. now apply H.
    + intros [c H] v Hv. apply Qeq_bool_iff.
      rewrite (H v0 (or_introl eq_refl)), (H v (or_intror Hv)). reflexivity.
Qed.

Lemma co_moment_square_nonneg (f : pyfloat * pyfloat -> pyfloat)
    (pairs : list (pyfloat * pyfloat)) :
  (0 <= co_moment f f pairs)%Q.
Proof.
  unfold co_moment. apply float_sum_nonneg. intros v Hv.
  apply in_map_iff in Hv. destruct Hv as [p [<- _]]. apply square_nonneg.
Qed.

Lemma zero_variation (f : pyfloat * pyfloat -> pyfloat) (pairs : list (pyfloat * pyfloat)) :
  (co_moment f f pairs == 0)%Q <-> all_equal (map f pairs) = true.
Proof.
  rewrite all_equal_spec. split.
  - intro H. exists (float_mean (map f pairs)). intros v Hv.
    apply in_map_iff in Hv. destruct Hv as [p [<- Hp]].
    assert (Hz : ((f p - float_mean (map f pairs)) * (f p - float_mean (map f pairs)) == 0)%Q).
    { apply (float_sum_nonneg_zero
               (map (fun p => ((f p - float_mean (map f pairs))
                               * (f p - float_mean (map f pairs)))%Q) pairs)).
      - intros w Hw. apply in_map_iff in Hw. destruct Hw as [p' [<- _]].
        apply square_nonneg.
      - exact H.
      - apply in_map_iff. now exists p. }
    apply Qmult_integral in Hz. lra.
  - intros [c H]. destruct pairs as [|p0 rest]; [reflexivity|].
    assert (Hmean : (float_mean (map f (p0 :: rest)) == c)%Q).
    { apply float_mean_constant; [discriminate | exact H]. }
    unfold co_moment. apply float_sum_zero. intros v Hv.
    apply in_map_iff in Hv. destruct Hv as [p [<- Hp]].
    rewrite Hmean, (H (f p)) by (apply in_map_iff; now exists p). lra.
Qed.

Lemma Q2R_float_sum (values : list pyfloat) :
  Q2R (float_sum values) = real_sum (map Q2R values).
Proof.
  induction values as [|v rest IH]; [apply RMicromega.Q2R_0|].
  cbn [float_sum fold_right map real_sum]. rewrite Q2R_plus. f_equal. exact IH.
Qed.

Lemma Q2R_float_mean (values : list pyfloat) :
  values <> [] -> Q2R (float_mean values) = real_mean (map Q2R values).
Proof.
  intro Hne. unfold float_mean, real_mean.
  rewrite Q2R_div, Q2R_float_sum, Q2R_inject_Z, length_map, INR_IZR_INZ; [reflexivity|].
  destruct values as [|v rest]; [contradiction|].
  cbn [List.length]. rewrite Nat2Z.inj_succ. unfold Qeq. cbn. lia.
Qed.

Lemma combine_map {A B C : Type} (f : A -> B) (g : A -> C) (l : list A) :
  combine (map f l) (map g l) = map (fun a => (f a, g a)) l.
Proof.
  induction l as [|a l IH]; [reflexivity|]. cbn [map combine]. now rewrite IH.
Qed.

Lemma Q2R_co_moment (f g : pyfloat * pyfloat -> pyfloat) (pairs : list (pyfloat * pyfloat)) :
  pairs <> [] ->
  Q2R (co_moment f g pairs)
  = real_sum
      (map (fun d => fst d * snd d)%R
         (combine
            (map (fun x => x - real_mean (map (fun p => Q2R (f p)) pairs))%R
               (map (fun p => Q2R (f p)) pairs))
            (map (fun y => y - real_mean (map (fun p => Q2R (g p)) pairs))%R
               (map (fun p => Q2R (g p)) pairs)))).
Proof.
  intro Hne. unfold co_moment.
  assert (Hmean : forall h : pyfloat * pyfloat -> pyfloat,
             Q2R (float_mean (map h pairs)) = real_mean (map (fun p => Q2R (h p)) pairs)).
  { intro h. rewrite Q2R_float_mean, map_map; [reflexivity|].
    destruct pairs; [contradiction | discriminate]. }
  rewrite Q2R_float_sum, !map_map, combine_map, map_map. cbn [fst snd].
  f_equal. apply map_ext. intro p.
  now rewrite Q2R_mult, !Q2R_minus, !Hmean.
Qed.

Lemma combine_diagonal (values : list R) :
  map (fun d => fst d * snd d)%R (combine values values) = map (fun d => d * d)%R values.
Proof.
  induction values as [|v rest IH]; [reflexivity|]. cbn [combine map fst snd]. now rewrite IH.
Qed.

Lemma pearson_exact (pairs : list (pyfloat * pyfloat)) :
  pairs <> [] ->
  pearson pairs
  = (Q2R (co_moment fst snd pairs)
     / sqrt (Q2R (co_moment fst fst pairs * co_moment snd snd pairs)))%R.
Proof.
  intro Hne. unfold pearson. cbv zeta.
  rewrite Q2R_mult, !(Q2R_co_moment _ _ _ Hne), !combine_diagonal. reflexivity.
Qed.

Lemma series_corr_none (pairs : list (pyfloat * pyfloat)) :
  Series_corr pairs = None
  <-> (List.length pairs < 2)%nat
      \/ all_equal (map fst pairs) = true \/ all_equal (map snd pairs) = true.
Proof.
  unfold Series_corr. rewrite <- !zero_variation.
  destruct (Nat.ltb (List.length pairs) 2) eqn:E.
  - apply Nat.ltb_lt in E. split; auto.
  - apply Nat.ltb_ge in E.
    destruct (Qeq_bool (co_moment fst fst pairs * co_moment snd snd pairs) 0) eqn:Ez.
    + apply Qeq_bool_iff, Qmult_integral in Ez. split; auto.
    + apply Qeq_bool_neq in Ez. split; [discriminate|].
      intros [H | [H | H]]; [lia | |]; exfalso; apply Ez; rewrite H; ring.
Qed.

Lemma series_corr_some (pairs : list (pyfloat * pyfloat)) (c : coefficient) :
  Series_corr pairs = Some c ->
  pairs <> [] /\ (0 < variation c)%Q /\ coefficient_value c = pearson pairs.
Proof.
  unfold Series_corr.
  destruct (Nat.ltb (List.length pairs) 2) eqn:E; [discriminate|].
  destruct (Qeq_bool (co_moment fst fst pairs * co_moment snd snd pairs) 0) eqn:Ez;
    [discriminate|].
  intro H. injection H as <-. apply Nat.ltb_ge in E. apply Qeq_bool_neq in Ez.
  assert (Hne : pairs <> []) by (destruct pairs; [cbn in E; lia | discriminate]).
  split; [exact Hne|]. cbn [variation]. split.
  - pose proof (co_moment_square_nonneg fst pairs).
    pose proof (co_moment_square_nonneg snd pairs).
    assert (0 <= co_moment fst fst pairs * co_moment snd snd pairs)%Q
      by now apply Qmult_le_0_compat.
    apply Qle_lteq in H1. destruct H1 as [H1 | H1]; [exact H1|].
    exfalso. apply Ez. now symmetry.
  - unfold coefficient_value. cbn [covariation variation]. now rewrite pearson_exact.
Qed.

Lemma py_round_grid (c : coefficient) (ndigits : nat) :
  exists n, py_round c ndigits = Qred (n # pow10 ndigits).
Proof.
  unfold py_round. eexists. apply Qred_complete. symmetry. apply Qmake_Qdiv.
Qed.

(** X26.  With the exact kernel, [calculate_correlation] answers 0.0 when
    a name is not resolved or is resolved to the column with the empty
    name.  When both names are resolved to named columns, it answers 0.0
    if fewer than two rows are numeric in both columns or if one of the
    two columns does not vary over those rows; otherwise its answer is a
    multiple of 0.000001 that lies within 0.0000005 of Pearson's
    coefficient of the numeric pairs. *)
Theorem correlation_is_rounded_pearson
    (to_numeric_str : string -> option pyfloat) (data : list record) (col1 col2 : string) :
  (column_falsy (_find_column (frame_columns data []) col1) = true
   \/ column_falsy (_find_column (frame_columns data []) col2) = true ->
   calculate_correlation to_numeric_str corr_then_round data col1 col2 = 0%Q)
  /\ (forall x y,
        _find_column (frame_columns data []) col1 = Some x ->
        _find_column (frame_columns data []) col2 = Some y ->
        x <> "" -> y <> "" ->
        let pairs := numeric_pairs to_numeric_str (iterrows data) x y in
        let result := calculate_correlation to_numeric_str corr_then_round data col1 col2 in
        ((List.length pairs < 2)%nat
         \/ all_equal (map fst pairs) = true \/ all_equal (map snd pairs) = true ->
         result = 0%Q)
        /\ ((2 <= List.length pairs)%nat ->
            all_equal (map fst pairs) = false -> all_equal (map snd pairs) = false ->
            (exists n, result = Qred (n # 1000000))
            /\ (Rabs (Q2R result - pearson pairs) <= 1 / 2000000)%R)).
Proof.
  split.
  - intro H. apply correlation_unresolved. now right.
  - intros x y Hx Hy Hxne Hyne pairs result.
    assert (Hres : result = corr_then_round pairs).
    { unfold result, calculate_correlation.
      destruct data as [|r data]; [discriminate Hx|].
      rewrite Hx, Hy. cbn [column_falsy].
      apply String.eqb_neq in Hxne, Hyne. now rewrite Hxne, Hyne. }
    rewrite Hres. unfold corr_then_round. split.
    + intro H. apply series_corr_none in H. now rewrite H.
    + intros Hlen Hfst Hsnd.
      destruct (Series_corr pairs) as [c|] eqn:Ec.
      * destruct (series_corr_some pairs c Ec) as [_ [Hvar <-]]. split.
        -- apply (py_round_grid c 6).
        -- apply (py_round_near c 6 Hvar).
      * apply series_corr_none in Ec. destruct Ec as [Ec | [Ec | Ec]]; [lia | |]; congruence.
Qed.

Lemma correlation_is_rounded_pearson_witness :
  exists n,
    calculate_correlation no_string_numbers corr_then_round _get_sample_films_data
      "Rank" "Peak" = Qred (n # 1000000).
Proof.
  refine (proj1 (proj2 (proj2 (correlation_is_rounded_pearson no_string_numbers
                                 _get_sample_films_data "Rank" "Peak")
                          "rank" "peak" eq_refl eq_refl _ _) _ _ _)).
  - discriminate.
  - discriminate.
  - vm_compute. lia.
  - reflexivity.
  - reflexivity.
Defined.
